(** * ElasticsearchImporter: the geo-resolution engine of [geodb.py]

    A shallow embedding of the three resolver classes of [geodb.py]
    ([CountryLevel_GeoDB], [ZIPLevel_GeoDB], [ZIP_GeoIPDB]) and of their
    common base class [GeoDatabase_Base], together with the properties
    the specification states about them.

    What lives outside the repository (the SQLite engine, the Python
    builtins [int], [float], [str], [str.format], [str.lower], shapely's
    [MultiPoint.representative_point] and the [net_utils.ip2int] helper)
    is collected in the [Runtime] class; everything else is translated
    from the source. *)

From Stdlib Require Import ZArith Lia PrimFloat Ascii String.
From stdpp Require Import gmap strings list pretty.

Local Open Scope string_scope.
#[local] Set Warnings "-register-all,-inexact-float".

(** ** Python values *)

(** The exceptions the modelled code can raise. *)
Inductive exn :=
| IndexError
| KeyError (k : string)
| TypeError
| AttributeError
| OperationalError
| GeometryError.

(** A call either returns a value or raises. *)
Inductive outcome (A : Type) :=
| Ret (a : A)
| Raise (e : exn).
Arguments Ret {A} a.
Arguments Raise {A} e.

Definition obind {A B} (o : outcome A) (k : A -> outcome B) : outcome B :=
  match o with
  | Ret a => k a
  | Raise e => Raise e
  end.

(** The values callers pass as query arguments: [None], booleans,
    integers, strings, lists and tuples. *)
Inductive pyval :=
| VNone
| VBool (b : bool)
| VInt (z : Z)
| VStr (s : string)
| VList (l : list pyval)
| VTuple (l : list pyval).

(** Python's [==] on these values: [True == 1], a list never equals a
    tuple, a string never equals a sequence. *)
Fixpoint py_eqb (a b : pyval) {struct a} : bool :=
  let fix all2 (xs ys : list pyval) {struct xs} : bool :=
    match xs, ys with
    | [], [] => true
    | x :: xs', y :: ys' => py_eqb x y && all2 xs' ys'
    | _, _ => false
    end in
  match a, b with
  | VNone, VNone => true
  | VBool x, VBool y => Bool.eqb x y
  | VInt x, VInt y => (x =? y)%Z
  | VBool x, VInt y => (Z.b2z x =? y)%Z
  | VInt x, VBool y => (x =? Z.b2z y)%Z
  | VStr x, VStr y => String.eqb x y
  | VList x, VList y => all2 x y
  | VTuple x, VTuple y => all2 x y
  | _, _ => false
  end.

(** Equality of two tuples of values, as the dictionary compares keys. *)
Fixpoint key_eqb (xs ys : list pyval) : bool :=
  match xs, ys with
  | [], [] => true
  | x :: xs', y :: ys' => py_eqb x y && key_eqb xs' ys'
  | _, _ => false
  end.

(** A list is unhashable, and so is a tuple that holds one. *)
Fixpoint hashable (a : pyval) : bool :=
  match a with
  | VList _ => false
  | VTuple l => forallb hashable l
  | _ => true
  end.

(** Truth value of a Python object ([if str_ip:]). *)
Definition truthy (a : pyval) : bool :=
  match a with
  | VNone => false
  | VBool b => b
  | VInt z => negb (z =? 0)%Z
  | VStr s => negb (String.eqb s EmptyString)
  | VList l | VTuple l => negb (Nat.eqb (length l) 0)
  end.

(** The integer a value stands for when compared with the entries of the
    range array; anything else makes the comparison raise. *)
Definition as_int (a : pyval) : option Z :=
  match a with
  | VInt z => Some z
  | VBool b => Some (Z.b2z b)
  | _ => None
  end.

(** ** [bisect.bisect_right] *)

(** The loop of [bisect_right]: [while lo < hi] with [mid = (lo+hi)//2],
    going left when [x < a[mid]] and right otherwise. *)
Fixpoint bisect_loop (fuel : nat) (a : list Z) (x : Z) (lo hi : nat) : nat :=
  match fuel with
  | O => lo
  | S fuel' =>
      if (lo <? hi)%nat then
        let mid := Nat.div (lo + hi) 2 in
        match a !! mid with
        | Some am =>
            if (x <? am)%Z then bisect_loop fuel' a x lo mid
            else bisect_loop fuel' a x (S mid) hi
        | None => lo
        end
      else lo
  end.

Definition bisect_right (a : list Z) (x : Z) : nat :=
  bisect_loop (length a) a x 0 (length a).

(** The reference the binary search is compared with: scan from the left
    and stop at the first entry strictly greater than [x]. *)
Fixpoint scan_right (a : list Z) (x : Z) : nat :=
  match a with
  | [] => 0
  | y :: a' => if (x <? y)%Z then 0 else S (scan_right a' x)
  end.

(** The rows of the range table as [(ip_from, ip_to)] pairs, and the
    membership test of the query the source keeps next to the bisect
    lookup: [value BETWEEN ip_from AND ip_to], both ends included.
    The result is the position of the first row that holds [x]. *)
Fixpoint between_scan (table : list (Z * Z)) (x : Z) : option nat :=
  match table with
  | [] => None
  | (ip_from, ip_to) :: rest =>
      if (ip_from <=? x)%Z && (x <=? ip_to)%Z then Some 0
      else S <$> between_scan rest x
  end.

(** Non-decreasing order of the range array. *)
Fixpoint ascending (a : list Z) : Prop :=
  match a with
  | [] => True
  | y :: a' => Forall (fun z => (y <= z)%Z) a' /\ ascending a'
  end.

(** ** Rows, records and the runtime *)

(** A cell as SQLite hands it to the row factory. *)
Inductive sqlval :=
| SNull
| SInteger (z : Z)
| SReal (f : float)
| SText (s : string)
| SBlob (s : string).

(** A field of a record built by the row factory or added by a lookup. *)
Inductive cell :=
| CNone
| CInt (z : Z)
| CFloat (f : float)
| CStr (s : string).

(** The declared type of a column: the values of the [types] dictionaries
    of the three classes are [int], [float] and [str]. *)
Inductive pytype := Tint | Tfloat | Tstr.

(** What [cursor.execute] does with a statement: it fails, or it yields
    the column names ([cursor.description]) and the matching rows. *)
Inductive sql_outcome :=
| SqlError
| SqlRows (description : list string) (rows : list (list sqlval)).

(** Everything the modelled code calls but does not define.  An [option]
    result is [None] where the Python call raises. *)
Class Runtime := {
  (** [int(x)] on a cell *)
  py_int : sqlval -> option Z;
  (** [float(x)] on a cell *)
  py_float : sqlval -> option float;
  (** [str(x)] on a cell *)
  py_str : sqlval -> string;
  (** ['{}'.format(x)] on a float *)
  format_float : float -> string;
  (** ['{}'.format(x)] and [str(x)] on a list or a tuple *)
  format_seq : pyval -> string;
  (** [s.lower()] *)
  str_lower : string -> string;
  (** [net_utils.ip2int] *)
  ip2int : string -> option Z;
  (** [MultiPoint(points).representative_point().coords[0]] *)
  representative_point : list (cell * cell) -> option (float * float);
  (** the SQLite engine behind [cursor.execute] *)
  sqlite_execute : string -> sql_outcome
}.

(** The double quote character, which the statements of the source put
    around values. *)
Definition dq : string := String "034"%char EmptyString.

(** The immutable attributes of a resolver object. *)
Record resolver := {
  name : string;
  names : list string;
  types : gmap string pytype;
  ip_int_to_list : list Z
}.

(** The mutable part of a resolver object: the cursor (the description
    and the rows of the last statement that are not fetched yet), the
    result cache, and a log of the statements passed to
    [cursor.execute], oldest first. *)
Record state := {
  cur_description : list string;
  cur_rows : list (list sqlval);
  results_cache : list (list pyval * gmap string cell);
  executed : list string
}.

(** A freshly constructed resolver: [self.cursor = self.conn.cursor()]
    and [self._results_cache = {}]. *)
Definition init_state : state :=
  {| cur_description := []; cur_rows := []; results_cache := []; executed := [] |}.

(** Methods read and update the state and may raise. *)
Definition M (A : Type) : Type := state -> outcome A * state.

Definition ret {A} (a : A) : M A := fun s => (Ret a, s).
Definition raise {A} (e : exn) : M A := fun s => (Raise e, s).
Definition bind {A B} (m : M A) (k : A -> M B) : M B :=
  fun s => match m s with
           | (Ret a, s') => k a s'
           | (Raise e, s') => (Raise e, s')
           end.
Definition lift {A} (o : outcome A) : M A := fun s => (o, s).

Declare Scope py_scope.
Delimit Scope py_scope with py.
Notation "x <- m ;; k" := (bind m (fun x => k))
  (at level 100, m at next level, right associativity) : py_scope.
Notation "m ;;; k" := (bind m (fun _ => k))
  (at level 100, right associativity) : py_scope.
Notation "x <~ o ;; k" := (obind o (fun x => k))
  (at level 100, o at next level, right associativity) : py_scope.

Section Engine.
Context {RT : Runtime}.

(** ['{}'.format(x)] on a query argument. *)
Definition format_val (a : pyval) : string :=
  match a with
  | VNone => "None"
  | VBool true => "True"
  | VBool false => "False"
  | VInt z => pretty z
  | VStr s => s
  | VList _ | VTuple _ => format_seq a
  end.

(** ['{}'.format(x)] on a field of a record. *)
Definition format_cell (c : cell) : string :=
  match c with
  | CNone => "None"
  | CInt z => pretty z
  | CFloat f => format_float f
  | CStr s => s
  end.

(** *** [GeoDatabase_Base._dict_factory] *)

(** The loop over [enumerate(cursor.description)]: the column [index] is
    skipped; a column without a declared type raises [KeyError]; an
    [int] or [float] column whose conversion raises is left out; a [str]
    column is converted outside any [try]. *)
Fixpoint dict_factory_loop (tys : gmap string pytype) (row : list sqlval)
    (idx : nat) (description : list string) (d : gmap string cell)
    : outcome (gmap string cell) :=
  match description with
  | [] => Ret d
  | k :: rest =>
      if String.eqb k "index" then dict_factory_loop tys row (S idx) rest d
      else
        match tys !! k with
        | None => Raise (KeyError k)
        | Some Tint =>
            match row !! idx ≫= py_int with
            | Some z => dict_factory_loop tys row (S idx) rest (<[k := CInt z]> d)
            | None => dict_factory_loop tys row (S idx) rest d
            end
        | Some Tfloat =>
            match row !! idx ≫= py_float with
            | Some f => dict_factory_loop tys row (S idx) rest (<[k := CFloat f]> d)
            | None => dict_factory_loop tys row (S idx) rest d
            end
        | Some Tstr =>
            match row !! idx with
            | Some x => dict_factory_loop tys row (S idx) rest (<[k := CStr (py_str x)]> d)
            | None => Raise IndexError
            end
        end
  end.

Definition dict_factory (self : resolver) (description : list string)
    (row : list sqlval) : outcome (gmap string cell) :=
  dict_factory_loop (types self) row 0 description ∅.

(** *** The cursor *)

(** [cursor.execute(q)]: the statement replaces whatever the cursor
    held; a failed statement leaves the cursor without rows. *)
Definition cursor_execute (q : string) : M unit := fun s =>
  match sqlite_execute q with
  | SqlError =>
      (Raise OperationalError,
       {| cur_description := []; cur_rows := [];
          results_cache := results_cache s; executed := executed s ++ [q] |})
  | SqlRows description rows =>
      (Ret tt,
       {| cur_description := description; cur_rows := rows;
          results_cache := results_cache s; executed := executed s ++ [q] |})
  end.

(** Fetching passes every pending row through the row factory; when the
    factory raises, the rows after the failing one stay pending. *)
Fixpoint fetch_rows (self : resolver) (description : list string)
    (rows : list (list sqlval))
    : outcome (list (gmap string cell)) * list (list sqlval) :=
  match rows with
  | [] => (Ret [], [])
  | row :: rest =>
      match dict_factory self description row with
      | Raise e => (Raise e, rest)
      | Ret d =>
          match fetch_rows self description rest with
          | (Ret ds, pending) => (Ret (d :: ds), pending)
          | (Raise e, pending) => (Raise e, pending)
          end
      end
  end.

(** [cursor.fetchall()] *)
Definition cursor_fetchall (self : resolver) : M (list (gmap string cell)) := fun s =>
  let '(o, pending) := fetch_rows self (cur_description s) (cur_rows s) in
  (o, {| cur_description := cur_description s; cur_rows := pending;
         results_cache := results_cache s; executed := executed s |}).

(** *** The result cache *)

Fixpoint cache_get (key : list pyval) (c : list (list pyval * gmap string cell))
    : option (gmap string cell) :=
  match c with
  | [] => None
  | (k, d) :: c' => if key_eqb k key then Some d else cache_get key c'
  end.

Fixpoint cache_set (key : list pyval) (d : gmap string cell)
    (c : list (list pyval * gmap string cell)) : list (list pyval * gmap string cell) :=
  match c with
  | [] => [(key, d)]
  | (k, d') :: c' => if key_eqb k key then (k, d) :: c' else (k, d') :: cache_set key d c'
  end.

(** [_get_result_from_cache]: [self._results_cache.get(key, False)];
    [None] stands for the [False] of a miss.  An unhashable key raises. *)
Definition get_result_from_cache (key : list pyval) : M (option (gmap string cell)) := fun s =>
  if forallb hashable key then (Ret (cache_get key (results_cache s)), s)
  else (Raise TypeError, s).

(** [_add_result_to_cache]: [self._results_cache[key] = d] *)
Definition add_result_to_cache (key : list pyval) (d : gmap string cell) : M unit := fun s =>
  (Ret tt,
   {| cur_description := cur_description s; cur_rows := cur_rows s;
      results_cache := cache_set key d (results_cache s); executed := executed s |}).

(** *** Calling a method *)

(** The value a keyword argument list gives to a parameter name. *)
Definition kw_get (n : string) (kwargs : list (string * pyval)) : option pyval :=
  snd <$> find (fun p => String.eqb (fst p) n) kwargs.

(** Positional arguments fill the parameters from the left; a parameter
    that is not filled takes its keyword argument, else its default.  A
    parameter given twice, an argument too many or a missing argument
    without default is the [TypeError] of a bad call ([None] here). *)
Fixpoint bind_from (params : list (string * option pyval)) (args : list pyval)
    (kwargs : list (string * pyval)) : option (list pyval) :=
  match params with
  | [] => match args with [] => Some [] | _ :: _ => None end
  | (n, dflt) :: params' =>
      match args with
      | a :: args' =>
          match kw_get n kwargs with
          | Some _ => None
          | None => cons a <$> bind_from params' args' kwargs
          end
      | [] =>
          match kw_get n kwargs, dflt with
          | Some v, _ => cons v <$> bind_from params' [] kwargs
          | None, Some v => cons v <$> bind_from params' [] kwargs
          | None, None => None
          end
      end
  end.

(** A keyword that names no parameter is a [TypeError] as well. *)
Definition bind_params (params : list (string * option pyval)) (args : list pyval)
    (kwargs : list (string * pyval)) : option (list pyval) :=
  if forallb (fun kw => existsb (String.eqb (fst kw)) (map fst params)) kwargs
  then bind_from params args kwargs
  else None.

(** *** The lookups of the three classes *)

(** What the [if]/[elif] chain at the head of a [_get_geodata] decides:
    a statement to execute, no statement at all (the chain of
    [CountryLevel_GeoDB] has no [else] and falls through to
    [fetchall]), an early [return None], or an exception. *)
Inductive plan :=
| Execute (q : string)
| Fetch
| ReturnNone
| Fail (e : exn).

(** ['SELECT * FROM {} WHERE {} = "{}"'.format(self.name, column, value)] *)
Definition select_eq (self : resolver) (column : string) (value : pyval) : string :=
  "SELECT * FROM " +:+ name self +:+ " WHERE " +:+ column +:+ " = "
    +:+ dq +:+ format_val value +:+ dq.

(** The statement of the list form: the predicates ['"{}" = "{}"'] of
    [zip(column, value)] joined by [' {} '.format(multi_op)]. *)
Definition select_multi (self : resolver) (column value : list pyval)
    (multi_op : pyval) : string :=
  let op := " " +:+ format_val multi_op +:+ " " in
  let query := String.concat op
    (map (fun e => dq +:+ format_val (fst e) +:+ dq +:+ " = " +:+ dq +:+ format_val (snd e) +:+ dq)
         (zip column value)) in
  "SELECT * FROM " +:+ name self +:+ " WHERE " +:+ query.

(** [CountryLevel_GeoDB._get_geodata], the head. *)
Definition CountryLevel_plan (self : resolver) (column value multi_op : pyval) : plan :=
  match column, value with
  | VStr c, _ => Execute (select_eq self c value)
  | VList cols, VList vals =>
      if (length cols =? length vals)%nat
      then Execute (select_multi self cols vals multi_op)
      else Fetch
  | _, _ => Fetch
  end.

(** [x.lower()] on an element of a list argument: only a string has the
    method. *)
Definition lower_of (a : pyval) : outcome string :=
  match a with
  | VStr s => Ret (str_lower s)
  | _ => Raise AttributeError
  end.

(** The list comprehension ["{}:{}".format(c.lower(), v.lower())
    for c, v in zip(column, value)]. *)
Fixpoint match_terms (pairs : list (pyval * pyval)) : outcome (list string) :=
  match pairs with
  | [] => Ret []
  | (c, v) :: rest =>
      (lc <~ lower_of c ;;
       lv <~ lower_of v ;;
       ts <~ match_terms rest ;;
       Ret ((lc +:+ ":" +:+ lv) :: ts))%py
  end.

(** ['SELECT * FROM {} WHERE {} MATCH "{}"'.format(self.name, self.name, m)] *)
Definition select_match (self : resolver) (m : string) : string :=
  "SELECT * FROM " +:+ name self +:+ " WHERE " +:+ name self +:+ " MATCH "
    +:+ dq +:+ m +:+ dq.

(** [ZIPLevel_GeoDB._get_geodata], the head. *)
Definition ZIPLevel_plan (self : resolver) (column value multi_op : pyval) : plan :=
  match column, value with
  | VStr c, VStr v =>
      if bool_decide (c ∈ names self)
      then Execute (select_match self (str_lower c +:+ ":" +:+ str_lower v))
      else Execute (select_match self (str_lower v))
  | VList cols, VList vals =>
      if (length cols =? length vals)%nat then
        match match_terms (zip cols vals) with
        | Ret ts =>
            Execute (select_match self
                       (String.concat (" " +:+ format_val multi_op +:+ " ") ts))
        | Raise e => Fail e
        end
      else ReturnNone
  | _, _ => ReturnNone
  end.

(** The branch [column == 'ip'] of [ZIP_GeoIPDB._get_geodata] once the
    value is settled: [bisect_right], then the unguarded subscript
    [self.ip_int_to_list[idx]].  The search compares the value with the
    entries only when there are any. *)
Definition ip_plan (self : resolver) (value : pyval) : plan :=
  match ip_int_to_list self with
  | [] => Fail IndexError
  | _ :: _ =>
      match as_int value with
      | None => Fail TypeError
      | Some x =>
          let idx := bisect_right (ip_int_to_list self) x in
          match ip_int_to_list self !! idx with
          | None => Fail IndexError
          | Some ip_to => Execute (select_eq self "ip_to" (VInt ip_to))
          end
      end
  end.

(** [ZIP_GeoIPDB._get_geodata], the head. *)
Definition ZIP_GeoIPDB_plan (self : resolver) (column value multi_op str_ip : pyval) : plan :=
  if py_eqb column (VStr "ip") then
    if truthy str_ip then
      match ip2int (format_val value) with
      | None => ReturnNone
      | Some x => ip_plan self (VInt x)
      end
    else ip_plan self value
  else
    match column, value with
    | VStr c, _ => Execute (select_eq self c value)
    | VList cols, VList vals =>
        if (length cols =? length vals)%nat
        then Execute (select_multi self cols vals multi_op)
        else ReturnNone
    | _, _ => ReturnNone
    end.

(** [d[k]] and [del d[k]] *)
Definition getitem (d : gmap string cell) (k : string) : outcome cell :=
  match d !! k with
  | Some c => Ret c
  | None => Raise (KeyError k)
  end.

Definition delitem (k : string) (d : gmap string cell) : outcome (gmap string cell) :=
  match d !! k with
  | Some _ => Ret (delete k d)
  | None => Raise (KeyError k)
  end.

(** ['{},{}'.format(latitude, longitude)] *)
Definition coordinate (lat lon : cell) : string :=
  format_cell lat +:+ "," +:+ format_cell lon.

(** [[(r['latitude'], r['longitude']) for r in results]] *)
Fixpoint geo_points (results : list (gmap string cell)) : outcome (list (cell * cell)) :=
  match results with
  | [] => Ret []
  | r :: rest =>
      (lat <~ getitem r "latitude" ;;
       lon <~ getitem r "longitude" ;;
       ps <~ geo_points rest ;;
       Ret ((lat, lon) :: ps))%py
  end.

(** The lines the three lookups share word for word: [d = results[0]],
    the two synthesized fields, and the representative point of several
    rows.  [d] is [results[0]] itself, so the comprehension sees the
    updated first record. *)
Definition locate (results : list (gmap string cell)) : outcome (gmap string cell) :=
  match results with
  | [] => Raise IndexError
  | r0 :: rest =>
      (lat <~ getitem r0 "latitude" ;;
       lon <~ getitem r0 "longitude" ;;
       let location := CStr (coordinate lat lon) in
       let d := <["representative_point" := location]> (<["location" := location]> r0) in
       if (1 <? length results)%nat then
         pts <~ geo_points (d :: rest) ;;
         match representative_point pts with
         | Some (repr_lat, repr_lon) =>
             Ret (<["representative_point" :=
                      CStr (format_float repr_lat +:+ "," +:+ format_float repr_lon)]> d)
         | None => Raise GeometryError
         end
       else Ret d)%py
  end.

(** [CountryLevel_GeoDB._get_geodata], from [fetchall] on. *)
Definition CountryLevel_finish (results : list (gmap string cell))
    : outcome (option (gmap string cell)) :=
  if (length results =? 0)%nat then Ret None
  else
    (d <~ locate results ;;
     d <~ delitem "latitude" d ;;
     d <~ delitem "longitude" d ;;
     Ret (Some (if bool_decide (is_Some (d !! "index")) then delete "index" d else d)))%py.

(** [ZIPLevel_GeoDB._get_geodata], from [fetchall] on. *)
Definition ZIPLevel_finish (results : list (gmap string cell))
    : outcome (option (gmap string cell)) :=
  if (length results =? 0)%nat then Ret None
  else
    (d <~ locate results ;;
     d <~ delitem "latitude" d ;;
     d <~ delitem "longitude" d ;;
     Ret (Some (<["country_name" := CNone]> d)))%py.

(** [for k in [...]: if k in d: del d[k]] *)
Definition drop_keys (ks : list string) (d : gmap string cell) : gmap string cell :=
  foldl (fun d k => if bool_decide (is_Some (d !! k)) then delete k d else d) d ks.

(** [ZIP_GeoIPDB._get_geodata], from [fetchall] on. *)
Definition ZIP_GeoIPDB_finish (results : list (gmap string cell))
    : outcome (option (gmap string cell)) :=
  if (length results =? 0)%nat then Ret None
  else
    (d <~ locate results ;;
     Ret (Some (drop_keys ["latitude"; "longitude"; "ip_from"; "ip_to"; "index"] d)))%py.

(** The three classes. *)
Inductive variant := CountryLevel_GeoDB | ZIPLevel_GeoDB | ZIP_GeoIPDB.

(** The parameters of [_get_geodata] after [self], with their defaults. *)
Definition signature (v : variant) : list (string * option pyval) :=
  match v with
  | CountryLevel_GeoDB | ZIPLevel_GeoDB =>
      [("column", None); ("value", None); ("multi_op", Some (VStr "AND"))]
  | ZIP_GeoIPDB =>
      [("column", None); ("value", None); ("multi_op", Some (VStr "AND"));
       ("str_ip", Some (VBool true))]
  end.

Definition plan_of (v : variant) (self : resolver) (ps : list pyval) : plan :=
  match v, ps with
  | CountryLevel_GeoDB, [column; value; multi_op] =>
      CountryLevel_plan self column value multi_op
  | ZIPLevel_GeoDB, [column; value; multi_op] =>
      ZIPLevel_plan self column value multi_op
  | ZIP_GeoIPDB, [column; value; multi_op; str_ip] =>
      ZIP_GeoIPDB_plan self column value multi_op str_ip
  | _, _ => Fail TypeError
  end.

Definition finish_of (v : variant) : list (gmap string cell) -> outcome (option (gmap string cell)) :=
  match v with
  | CountryLevel_GeoDB => CountryLevel_finish
  | ZIPLevel_GeoDB => ZIPLevel_finish
  | ZIP_GeoIPDB => ZIP_GeoIPDB_finish
  end.

(** The body of a lookup: the statement, if any, then [fetchall] and the
    shaping of the rows. *)
Definition run_plan (self : resolver) (p : plan)
    (finish : list (gmap string cell) -> outcome (option (gmap string cell)))
    : M (option (gmap string cell)) :=
  match p with
  | Execute q =>
      (cursor_execute q ;;;
       results <- cursor_fetchall self ;;
       lift (finish results))%py
  | Fetch => (results <- cursor_fetchall self ;; lift (finish results))%py
  | ReturnNone => ret None
  | Fail e => raise e
  end.

(** The method [_get_geodata] of class [v], called with the positional
    and keyword arguments of [get_geodata]. *)
Definition _get_geodata (v : variant) (self : resolver) (args : list pyval)
    (kwargs : list (string * pyval)) : M (option (gmap string cell)) :=
  match bind_params (signature v) args kwargs with
  | None => raise TypeError
  | Some ps => run_plan self (plan_of v self ps) (finish_of v)
  end.

(** *** [GeoDatabase_Base.get_geodata] *)

(** [keyargs + tuple(kwargs.values())]: an argument that is a list
    becomes a tuple, every other argument is kept as it is. *)
Definition make_key (args : list pyval) (kwargs : list (string * pyval)) : list pyval :=
  map (fun arg => match arg with VList l => VTuple l | _ => arg end) args
    ++ map snd kwargs.

Definition get_geodata (v : variant) (self : resolver) (args : list pyval)
    (kwargs : list (string * pyval)) : M (option (gmap string cell)) :=
  let key := make_key args kwargs in
  (val <- get_result_from_cache key ;;
   match val with
   | Some d => ret (Some d)
   | None =>
       val <- _get_geodata v self args kwargs ;;
       match val with
       | None => ret None
       | Some d => add_result_to_cache key d ;;; ret (Some d)
       end
   end)%py.

(** The states a resolver goes through: the state after construction,
    and the state any call of [get_geodata] leaves, whether the call
    returns or raises. *)
Inductive reachable (v : variant) (self : resolver) : state -> Prop :=
| reach_init : reachable v self init_state
| reach_call s args kwargs :
    reachable v self s ->
    reachable v self (snd (get_geodata v self args kwargs s)).

(** The engine keeps its word: every row is as long as the description,
    and every column but [index] has a declared type, as the docstring
    of the constructor asks of [types]. *)
Definition engine_ok (self : resolver) : Prop :=
  forall q description rows,
    sqlite_execute q = SqlRows description rows ->
    Forall (fun row => length row = length description) rows /\
    Forall (fun k => k = "index" \/ is_Some (types self !! k)) description.

End Engine.

(** ** Construction *)

(** The class attributes [names] and [types]. *)
Definition CountryLevel_names : list string :=
  ["latitude"; "longitude"; "country_code"; "country_name"].

Definition CountryLevel_types : gmap string pytype :=
  list_to_map [("country_code", Tstr); ("country_name", Tstr);
               ("latitude", Tfloat); ("longitude", Tfloat)].

Definition ZIPLevel_names : list string :=
  ["country_code"; "zip_code"; "place_name"; "admin_name1"; "admin_code1";
   "admin_name2"; "admin_code2"; "admin_name3"; "admin_code3";
   "latitude"; "longitude"; "accuracy"].

Definition ZIPLevel_types : gmap string pytype :=
  list_to_map [("country_code", Tstr); ("zip_code", Tstr); ("place_name", Tstr);
               ("admin_name1", Tstr); ("admin_code1", Tstr); ("admin_name2", Tstr);
               ("admin_code2", Tstr); ("admin_name3", Tstr); ("admin_code3", Tstr);
               ("latitude", Tfloat); ("longitude", Tfloat); ("accuracy", Tfloat)].

Definition ZIP_GeoIPDB_names : list string :=
  ["ip_from"; "ip_to"; "country_code"; "country_name"; "region_name";
   "place_name"; "latitude"; "longitude"; "zip_code"].

Definition ZIP_GeoIPDB_types : gmap string pytype :=
  list_to_map [("ip_from", Tint); ("ip_to", Tint); ("country_code", Tstr);
               ("country_name", Tstr); ("region_name", Tstr); ("place_name", Tstr);
               ("latitude", Tfloat); ("longitude", Tfloat); ("zip_code", Tstr)].

(** What a constructor does that can be seen from outside: it logs an
    error, it loads the database. *)
Inductive event := LogError | LoadDatabase.

(** A constructor returns the object in its first state, or the process
    exits ([sys.exit(code)]). *)
Inductive construction :=
| SystemExit (code : Z)
| Built (self : resolver) (s : state).

(** [GeoDatabase_Base.__init__]: the attributes, [_load_database], a
    fresh cursor and an empty cache. *)
Definition GeoDatabase_Base_init (nm : string) (nms : list string)
    (tys : gmap string pytype) : list event * construction :=
  ([LoadDatabase],
   Built {| name := nm; names := nms; types := tys; ip_int_to_list := [] |} init_state).

(** [ZIPLevel_GeoDB.check_FTS5_support]: [available_pragmas] is what
    [pragma compile_options] returns, one 1-tuple per option. *)
Definition check_FTS5_support (available_pragmas : list (list string)) : bool :=
  if bool_decide (["ENABLE_FTS5"] ∈ available_pragmas) then true else false.

(** [ZIPLevel_GeoDB.__init__] *)
Definition ZIPLevel_GeoDB_init (available_pragmas : list (list string))
    (nm : string) (nms : list string) (tys : gmap string pytype)
    : list event * construction :=
  let nms := if (length nms =? 0)%nat then ZIPLevel_names else nms in
  let tys := if (size tys =? 0)%nat then ZIPLevel_types else tys in
  if negb (check_FTS5_support available_pragmas) then ([LogError], SystemExit 1)
  else GeoDatabase_Base_init nm nms tys.

(** ** A small instance *)

(** A range table of two rows, [0..10] in Monterrey and [11..20] in
    Madrid, behind a runtime that knows the few statements, addresses
    and numbers the examples use. *)
Module Sample.

Definition description : list string :=
  ["index"; "ip_from"; "ip_to"; "country_code"; "country_name"; "region_name";
   "place_name"; "latitude"; "longitude"; "zip_code"].

Definition monterrey : list sqlval :=
  [SInteger 0; SInteger 0; SInteger 10; SText "MX"; SText "MEXICO";
   SText "NUEVO LEON"; SText "MONTERREY"; SReal 25.66667%float;
   SReal (-100.31667)%float; SText "64830"].

Definition madrid : list sqlval :=
  [SInteger 1; SInteger 11; SInteger 20; SText "ES"; SText "SPAIN";
   SText "MADRID"; SText "MADRID"; SReal 40.4165%float;
   SReal (-3.7026)%float; SText "28001"].

(** A row whose latitude is not a number. *)
Definition broken : list sqlval :=
  [SInteger 2; SInteger 21; SInteger 30; SText "FR"; SText "FRANCE";
   SText "PARIS"; SText "PARIS"; SText "north"; SReal 2.3488%float;
   SText "75001"].

Definition where_eq (column value : string) : string :=
  "SELECT * FROM geoip WHERE " +:+ column +:+ " = " +:+ dq +:+ value +:+ dq.

Definition execute (q : string) : sql_outcome :=
  SqlRows description
    (if String.eqb q (where_eq "ip_to" "10") then [monterrey]
     else if String.eqb q (where_eq "ip_to" "20") then [madrid]
     else if String.eqb q (where_eq "country_code" "MX") then [monterrey]
     else []).

Definition lower_char (c : ascii) : ascii :=
  let n := nat_of_ascii c in
  if (65 <=? n)%nat && (n <=? 90)%nat then ascii_of_nat (n + 32) else c.

Fixpoint lower (s : string) : string :=
  match s with
  | EmptyString => EmptyString
  | String c s' => String (lower_char c) (lower s')
  end.

#[global] Instance runtime : Runtime := {|
  py_int x := match x with SInteger z => Some z | _ => None end;
  py_float x := match x with SReal f => Some f | _ => None end;
  py_str x := match x with
              | SText s => s
              | SInteger z => pretty z
              | SNull => "None"
              | _ => "?"
              end;
  format_float f :=
    if PrimFloat.eqb f 25.66667%float then "25.66667"
    else if PrimFloat.eqb f (-100.31667)%float then "-100.31667"
    else if PrimFloat.eqb f 40.4165%float then "40.4165"
    else if PrimFloat.eqb f (-3.7026)%float then "-3.7026"
    else "?";
  format_seq _ := "?";
  str_lower := lower;
  ip2int s :=
    if String.eqb s "0.0.0.5" then Some 5%Z
    else if String.eqb s "0.0.0.10" then Some 10%Z
    else if String.eqb s "0.0.0.21" then Some 21%Z
    else None;
  representative_point pts :=
    match pts with
    | (CFloat lat, CFloat lon) :: _ => Some (lat, lon)
    | _ => None
    end;
  sqlite_execute := execute
|}.

(** The [ZIP_GeoIPDB] object over the table. *)
Definition geoip : resolver :=
  {| name := "geoip"; names := ZIP_GeoIPDB_names; types := ZIP_GeoIPDB_types;
     ip_int_to_list := [10%Z; 20%Z] |}.

(** The [(ip_from, ip_to)] columns of the table. *)
Definition ranges : list (Z * Z) := [(0, 10)%Z; (11, 20)%Z].

End Sample.

(** ** The indices of the store *)

Section Indices.
Context {RT : Runtime}.

(** ['CREATE INDEX {} ON {}({})'.format(column, self.name, column)] *)
Definition create_index (self : resolver) (column : string) : string :=
  "CREATE INDEX " +:+ column +:+ " ON " +:+ name self +:+ "(" +:+ column +:+ ")".

(** [GeoDatabase_Base._create_indices]: [indices] is [self.indices] as
    [_get_indices] left it; the loop does not refresh it.  The result
    is how the loop ends together with the statements it passed to
    [cursor.execute], oldest first; a statement that fails ends the
    loop. *)
Fixpoint _create_indices (self : resolver) (indices columns : list string)
    : outcome unit * list string :=
  match columns with
  | [] => (Ret tt, [])
  | column :: rest =>
      if bool_decide (column ∈ indices) then _create_indices self indices rest
      else
        match sqlite_execute (create_index self column) with
        | SqlError => (Raise OperationalError, [create_index self column])
        | SqlRows _ _ =>
            let '(o, stmts) := _create_indices self indices rest in
            (o, create_index self column :: stmts)
        end
  end.

End Indices.

(** ** [GeoDatabase_Base._load_database] *)

(** A data frame: the column labels and the rows. *)
Record frame := {
  columns : list string;
  records : list (list sqlval)
}.

(** The calls of [_load_database] that leave the process, in the order
    in which they are made. *)
Inductive load_event :=
| Remove
| ReadCsv (names : list string) (dtype : gmap string pytype)
| Connect
| ToSql (name : string) (df : frame)
| ConnExecute (stmt : string).

(** How [_load_database] ends: it returns the connection, [self.indices]
    holding the names read by [_get_indices], or the exception of one of
    its calls leaves it; the only handler of the method is the
    [except OSError] around [os.remove]. *)
Inductive load_result :=
| Loaded (indices : list sqlval)
| LoadRaised.

(** What [_load_database] finds and calls outside the repository. *)
Class Loader := {
  (** [os.path.exists(self.db_path) and os.path.isfile(self.db_path)] *)
  db_isfile : bool;
  (** [pd.read_csv(self.original_db_path, sep=self.separator,
      names=names, dtype=dtype, ...)]: the frame, or [None] where the
      call raises *)
  read_csv : list string -> gmap string pytype -> option frame;
  (** [sqlite3.connect(self.db_path, check_same_thread=False)]: whether
      the call returns *)
  connect : bool;
  (** [df.to_sql(name, self.conn, if_exists='replace', chunksize=1000)]:
      whether the call returns *)
  to_sql : string -> frame -> bool
}.

Section Load.
Context {RT : Runtime} {LD : Loader}.

Definition select_indices : string :=
  "SELECT name FROM sqlite_master WHERE type == 'index'".

(** [[index[0] for index in cursor.fetchall()]]: the rows are tuples
    here, the row factory is set when [_load_database] ends. *)
Fixpoint first_elements (rows : list (list sqlval)) : outcome (list sqlval) :=
  match rows with
  | [] => Ret []
  | index :: rest =>
      match index with
      | [] => Raise IndexError
      | x :: _ => (xs <~ first_elements rest ;; Ret (x :: xs))%py
      end
  end.

(** [GeoDatabase_Base._get_indices] *)
Definition _get_indices : outcome (list sqlval) :=
  match sqlite_execute select_indices with
  | SqlError => Raise OperationalError
  | SqlRows _ rows => first_elements rows
  end.

(** The names among [self.indices] that a column name can be equal to:
    [column in self.indices] compares a string with each element, and
    only a text is equal to a string. *)
Definition texts (indices : list sqlval) : list string :=
  omap (fun x => match x with SText s => Some s | _ => None end) indices.

(** The four [self.conn.execute('pragma ...')] of a database that is
    opened as it is. *)
Definition pragmas : list string :=
  ["pragma journal_mode=wal"; "pragma cache_size = 500000";
   "pragma mmap_size = 500000000"; "pragma synchronous = 0"].

(** Statements executed one after the other: the first that fails ends
    the sequence. *)
Fixpoint execute_all (stmts : list string) : bool * list load_event :=
  match stmts with
  | [] => (true, [])
  | stmt :: rest =>
      match sqlite_execute stmt with
      | SqlError => (false, [ConnExecute stmt])
      | SqlRows _ _ =>
          let '(ok, evs) := execute_all rest in (ok, ConnExecute stmt :: evs)
      end
  end.

(** The end of [_load_database], common to its two branches:
    [self._get_indices()] and [self._create_indices(self.index_columns)]. *)
Definition load_indices (self : resolver) (index_columns : list string)
    : load_result * list load_event :=
  match _get_indices with
  | Raise _ => (LoadRaised, [ConnExecute select_indices])
  | Ret indices =>
      let '(o, stmts) := _create_indices self (texts indices) index_columns in
      (match o with Ret _ => Loaded indices | Raise _ => LoadRaised end,
       ConnExecute select_indices :: map ConnExecute stmts)
  end.

(** [GeoDatabase_Base._load_database]: [update] is [self.update] and
    [index_columns] is [self.index_columns], as the constructor received
    them. *)
Definition _load_database (self : resolver) (update : bool) (index_columns : list string)
    : load_result * list load_event :=
  let update := if negb db_isfile then true else update in
  if update then
    match read_csv (names self) (types self) with
    | None => (LoadRaised, [Remove; ReadCsv (names self) (types self)])
    | Some df =>
        let df := {| columns := map str_lower (columns df); records := records df |} in
        if negb connect
        then (LoadRaised, [Remove; ReadCsv (names self) (types self); Connect])
        else if negb (to_sql (name self) df)
        then (LoadRaised,
              [Remove; ReadCsv (names self) (types self); Connect; ToSql (name self) df])
        else
          let '(r, evs) := load_indices self index_columns in
          (r, [Remove; ReadCsv (names self) (types self); Connect; ToSql (name self) df]
                ++ evs)%list
    end
  else
    if negb connect then (LoadRaised, [Connect])
    else
      let '(ok, evs) := execute_all pragmas in
      if ok then
        let '(r, evs') := load_indices self index_columns in
        (r, Connect :: evs ++ evs')%list
      else (LoadRaised, Connect :: evs).

End Load.

(** ** [elasticImporter.py] *)

(** The result of a conversion builtin: a value, a [ValueError], or an
    exception that is neither a [ValueError] nor a [TypeError]
    ([OverflowError], [NameError], ...). *)
Inductive conv (A : Type) :=
| Conv (a : A)
| ValueError
| OtherError.
Arguments Conv {A} a.
Arguments ValueError {A}.
Arguments OtherError {A}.

Definition conv_map {A B} (f : A -> B) (c : conv A) : conv B :=
  match c with
  | Conv a => Conv (f a)
  | ValueError => ValueError
  | OtherError => OtherError
  end.

(** The builtins and library calls of the importer. *)
Class Builtins := {
  (** [float(s)] on a string *)
  float_of_string : string -> conv float;
  (** [int(x)] on a float *)
  int_of_float : float -> conv Z;
  (** [long(x)] on a float *)
  long_of_float : float -> conv Z;
  (** [s.rstrip()] *)
  str_rstrip : string -> string;
  (** [s.split(sep)]; [None] where it raises *)
  str_split : string -> string -> option (list string);
  (** [hashlib.md5(json.dumps(d)).hexdigest()] on the items of [d] in
      insertion order; [None] where it raises *)
  md5_json : list (string * cell) -> option string
}.

(** The classes of [elasticsearch_dsl] a property is mapped to;
    [String_not_analyzed] is [String(index="not_analyzed")]. *)
Inductive field_class :=
| Date | String_analyzed | String_not_analyzed | Text | Keyword
| Integer | Long | Float | GeoPoint | Ip.

(** [translate_cfg_property_2x]; the function ends without [return] on
    any other name, which is [None]. *)
Definition translate_cfg_property_2x (v : string) : option field_class :=
  if String.eqb v "date" then Some Date
  else if String.eqb v "text" then Some String_analyzed
  else if String.eqb v "keyword" then Some String_not_analyzed
  else if String.eqb v "integer" then Some Integer
  else if String.eqb v "long" then Some Long
  else if String.eqb v "float" then Some Float
  else if String.eqb v "geopoint" then Some GeoPoint
  else if String.eqb v "ip" then Some Ip
  else None.

(** [translate_cfg_property_std] *)
Definition translate_cfg_property_std (v : string) : option field_class :=
  if String.eqb v "date" then Some Date
  else if String.eqb v "text" then Some Text
  else if String.eqb v "keyword" then Some Keyword
  else if String.eqb v "integer" then Some Integer
  else if String.eqb v "long" then Some Long
  else if String.eqb v "float" then Some Float
  else if String.eqb v "geopoint" then Some GeoPoint
  else if String.eqb v "ip" then Some Ip
  else None.

(** [translate_cfg_property = translate_cfg_property_2x if version == 2
    else translate_cfg_property_std] *)
Definition translate_cfg_property (version : Z) : string -> option field_class :=
  if (version =? 2)%Z then translate_cfg_property_2x else translate_cfg_property_std.

(** [create_doc_class], the dictionary of the class: one entry per
    property of the configuration. *)
Definition create_doc_class (version : Z) (properties : gmap string string)
    : gmap string (option field_class) :=
  translate_cfg_property version <$> properties.

(** [is_nan_or_inf] *)
Definition is_nan_or_inf (value : float) : bool :=
  PrimFloat.is_infinity value || PrimFloat.is_nan value.

Definition numeric_properties : list string := ["integer"; "long"; "date"; "float"].

(** The command line options the generator reads. *)
Record options := {
  separator : string;
  skip_first_line : bool;
  dates_in_seconds : bool;
  md5_id : bool;
  md5_exclude : list string
}.

(** The configuration file: the type of each property and the order of
    the fields in a line. *)
Record config := {
  properties : gmap string string;
  order_in_file : list string
}.

(** An action for the bulk helper: the keys ['_source'], ['_index'],
    ['_type'] and, when asked for, ['_id']. *)
Record action := {
  _source : gmap string cell;
  _index : string;
  _type : string;
  _id : option string
}.

Section Importer.
Context {BI : Builtins}.

(** The body of the [try] of [parse_property].  [float_value] is bound
    only for a numeric type; using it unbound would be an error of
    another class than [ValueError]. *)
Definition parse_property_try (str_value t : string) (args : options) : conv cell :=
  let numeric := bool_decide (t ∈ numeric_properties) in
  if numeric && String.eqb str_value EmptyString then Conv CNone
  else
    match (if numeric then conv_map Some (float_of_string str_value) else Conv None) with
    | ValueError => ValueError
    | OtherError => OtherError
    | Conv float_value =>
        let bound (k : float -> conv cell) : conv cell :=
          match float_value with
          | Some f => k f
          | None => OtherError
          end in
        if numeric && match float_value with Some f => is_nan_or_inf f | None => false end
        then Conv CNone
        else if String.eqb t "integer" then bound (fun f => conv_map CInt (int_of_float f))
        else if String.eqb t "long" then bound (fun f => conv_map CInt (long_of_float f))
        else if String.eqb t "date" then
          bound (fun f =>
                   if dates_in_seconds args
                   then conv_map CInt (int_of_float (f * 1000)%float)
                   else conv_map CInt (int_of_float f))
        else if String.eqb t "float" then bound (fun f => Conv (CFloat f))
        else Conv (CStr str_value)
    end.

(** [parse_property]: [except ValueError] returns [None]; an exception
    of another class leaves the function. *)
Definition parse_property (str_value t : string) (args : options) : conv cell :=
  match parse_property_try str_value t args with
  | ValueError => Conv CNone
  | r => r
  end.

(** The dictionary comprehension [{fields[i]: parse_property(value,
    properties[fields[i]], args) for i, value in enumerate(sline)}];
    [None] where it raises ([fields[i]] out of range, a field without
    a property, an exception out of [parse_property]). *)
Fixpoint build_dicc (cfg : config) (args : options) (i : nat) (sline : list string)
    (dicc : gmap string cell) : option (gmap string cell) :=
  match sline with
  | [] => Some dicc
  | value :: rest =>
      match order_in_file cfg !! i with
      | None => None
      | Some field =>
          match properties cfg !! field with
          | None => None
          | Some t =>
              match parse_property value t args with
              | Conv c => build_dicc cfg args (S i) rest (<[field := c]> dicc)
              | _ => None
              end
          end
      end
  end.

(** [d[k] = v] on a dictionary kept in insertion order. *)
Fixpoint dict_set (k : string) (v : cell) (d : list (string * cell)) : list (string * cell) :=
  match d with
  | [] => [(k, v)]
  | (k', v') :: d' => if String.eqb k' k then (k', v) :: d' else (k', v') :: dict_set k v d'
  end.

(** The loop that fills [md5_dicc]: [dicc[field]] of every field that
    is not excluded; [None] where a field is missing from [dicc]. *)
Fixpoint build_md5_dicc (args : options) (dicc : gmap string cell) (fields : list string)
    (md5_dicc : list (string * cell)) : option (list (string * cell)) :=
  match fields with
  | [] => Some md5_dicc
  | field :: rest =>
      if bool_decide (field ∈ md5_exclude args) then build_md5_dicc args dicc rest md5_dicc
      else
        match dicc !! field with
        | None => None
        | Some v => build_md5_dicc args dicc rest (dict_set field v md5_dicc)
        end
  end.

(** The body of the inner [try] of [input_generator] after the counter:
    the action of a line, or [None] when an exception makes the loop
    go on to the next line. *)
Definition line_action (cfg : config) (index doc_type : string) (args : options)
    (line : string) : option action :=
  sline ← str_split (str_rstrip line) (separator args);
  dicc ← build_dicc cfg args 0 sline ∅;
  if md5_id args then
    md5_dicc ← build_md5_dicc args dicc (order_in_file cfg) [];
    id ← md5_json md5_dicc;
    Some {| _source := dicc; _index := index; _type := doc_type; _id := Some id |}
  else
    Some {| _source := dicc; _index := index; _type := doc_type; _id := None |}.

(** The loop [for line in f] with its counter. *)
Fixpoint input_loop (cfg : config) (index doc_type : string) (args : options)
    (ctr : nat) (lines : list string) : list action :=
  match lines with
  | [] => []
  | line :: rest =>
      if (ctr =? 0)%nat && skip_first_line args
      then input_loop cfg index doc_type args ctr rest
      else
        match line_action cfg index doc_type args line with
        | Some a => a :: input_loop cfg index doc_type args (S ctr) rest
        | None => input_loop cfg index doc_type args (S ctr) rest
        end
  end.

(** [input_generator]: the actions it yields, in order.  [input] is
    [None] when the file cannot be opened. *)
Definition input_generator (cfg : config) (index doc_type : string) (args : options)
    (input : option (list string)) : list action :=
  match input with
  | None => []
  | Some lines => input_loop cfg index doc_type args 0 lines
  end.

End Importer.

(** A second small instance: an engine that answers one statement with
    the row whose latitude is malformed and another with two rows, and
    builtins for lines of digits separated by [;]. *)
Module Sample2.

Definition execute (q : string) : sql_outcome :=
  SqlRows Sample.description
    (if String.eqb q (Sample.where_eq "country_code" "FR") then [Sample.broken]
     else if String.eqb q (Sample.where_eq "country_name" "BOTH")
          then [Sample.monterrey; Sample.madrid]
     else if String.eqb q (Sample.where_eq (dq +:+ "country_code" +:+ dq) "MX")
          then [Sample.monterrey]
     else []).

Definition runtime : Runtime := {|
  py_int := @py_int Sample.runtime;
  py_float := @py_float Sample.runtime;
  py_str := @py_str Sample.runtime;
  format_float := @format_float Sample.runtime;
  format_seq := @format_seq Sample.runtime;
  str_lower := Sample.lower;
  ip2int := @ip2int Sample.runtime;
  representative_point := @representative_point Sample.runtime;
  sqlite_execute := execute
|}.

(** A full-text table of one row, whose cells are all text. *)
Definition zip_description : list string := ZIPLevel_names.

Definition zip_madrid : list sqlval :=
  [SText "ES"; SText "28001"; SText "MADRID"; SText "MADRID"; SText "MD";
   SText "MADRID"; SText "M"; SText "MADRID"; SText "28079";
   SText "40.4165"; SText "-3.7026"; SText "4"].

Definition zip_execute (q : string) : sql_outcome :=
  SqlRows zip_description
    (if String.eqb q ("SELECT * FROM geoinfo WHERE geoinfo MATCH "
                        +:+ dq +:+ "place_name:madrid" +:+ dq)
     then [zip_madrid] else []).

Definition zip_runtime : Runtime := {|
  py_int := @py_int Sample.runtime;
  py_float x :=
    match x with
    | SReal f => Some f
    | SText s =>
        if String.eqb s "40.4165" then Some 40.4165%float
        else if String.eqb s "-3.7026" then Some (-3.7026)%float
        else if String.eqb s "4" then Some 4%float
        else None
    | _ => None
    end;
  py_str := @py_str Sample.runtime;
  format_float := @format_float Sample.runtime;
  format_seq := @format_seq Sample.runtime;
  str_lower := Sample.lower;
  ip2int := @ip2int Sample.runtime;
  representative_point := @representative_point Sample.runtime;
  sqlite_execute := zip_execute
|}.

Definition geoinfo : resolver :=
  {| name := "geoinfo"; names := ZIPLevel_names; types := ZIPLevel_types;
     ip_int_to_list := [] |}.

(** A country table. *)
Definition countries : resolver :=
  {| name := "countries"; names := CountryLevel_names; types := CountryLevel_types;
     ip_int_to_list := [] |}.

(** Splitting at a one-character separator. *)
Fixpoint split_char (sep : ascii) (s : string) (cur : string) : list string :=
  match s with
  | EmptyString => [cur]
  | String c s' =>
      if Ascii.eqb c sep then cur :: split_char sep s' EmptyString
      else split_char sep s' (cur +:+ String c EmptyString)
  end.

Definition builtins : Builtins := {|
  float_of_string s :=
    if String.eqb s "1" then Conv 1%float
    else if String.eqb s "2" then Conv 2%float
    else if String.eqb s "inf" then Conv PrimFloat.infinity
    else ValueError;
  int_of_float f :=
    if PrimFloat.eqb f 1%float then Conv 1%Z
    else if PrimFloat.eqb f 2%float then Conv 2%Z
    else if PrimFloat.eqb f 1000%float then Conv 1000%Z
    else if PrimFloat.eqb f 2000%float then Conv 2000%Z
    else OtherError;
  long_of_float _ := OtherError;
  str_rstrip s := s;
  str_split s sep :=
    match sep with
    | String c EmptyString => Some (split_char c s EmptyString)
    | _ => None
    end;
  md5_json d := Some "d41d8cd9"
|}.

Definition cfg : config :=
  {| properties := list_to_map [("n", "integer"); ("label", "keyword")];
     order_in_file := ["n"; "label"] |}.

Definition cfg_long : config :=
  {| properties := list_to_map [("n", "long"); ("label", "keyword")];
     order_in_file := ["n"; "label"] |}.

Definition plain : options :=
  {| separator := ";"; skip_first_line := false; dates_in_seconds := false;
     md5_id := false; md5_exclude := [] |}.

Definition skipping : options :=
  {| separator := ";"; skip_first_line := true; dates_in_seconds := false;
     md5_id := false; md5_exclude := [] |}.

Definition hashed : options :=
  {| separator := ";"; skip_first_line := false; dates_in_seconds := false;
     md5_id := true; md5_exclude := [] |}.

End Sample2.

(** More of the sample: a runtime whose aggregator gives the last of
    the points, and the snapshot of the table in three states of the
    disk. *)
Module Sample3.

(** The runtime of the second sample, with the last point as the
    representative one. *)
Definition centroid_runtime : Runtime := {|
  py_int := @py_int Sample.runtime;
  py_float := @py_float Sample.runtime;
  py_str := @py_str Sample.runtime;
  format_float := @format_float Sample.runtime;
  format_seq := @format_seq Sample.runtime;
  str_lower := Sample.lower;
  ip2int := @ip2int Sample.runtime;
  representative_point pts :=
    match last pts with
    | Some (CFloat lat, CFloat lon) => Some (lat, lon)
    | _ => None
    end;
  sqlite_execute := Sample2.execute
|}.

(** The snapshot of the sample table, as text. *)
Definition snapshot : list (list string) :=
  [["0"; "10"; "MX"; "MEXICO"; "NUEVO LEON"; "MONTERREY"; "25.66667"; "-100.31667"; "64830"];
   ["11"; "20"; "ES"; "SPAIN"; "MADRID"; "MADRID"; "40.4165"; "-3.7026"; "28001"];
   ["21"; "30"; "FR"; "FRANCE"; "PARIS"; "PARIS"; "north"; "2.3488"; "75001"]].

(** The numbers of the snapshot. *)
Definition number (s : string) : option sqlval :=
  if String.eqb s "0" then Some (SInteger 0)
  else if String.eqb s "10" then Some (SInteger 10)
  else if String.eqb s "11" then Some (SInteger 11)
  else if String.eqb s "20" then Some (SInteger 20)
  else if String.eqb s "21" then Some (SInteger 21)
  else if String.eqb s "30" then Some (SInteger 30)
  else if String.eqb s "25.66667" then Some (SReal 25.66667%float)
  else if String.eqb s "-100.31667" then Some (SReal (-100.31667)%float)
  else if String.eqb s "40.4165" then Some (SReal 40.4165%float)
  else if String.eqb s "-3.7026" then Some (SReal (-3.7026)%float)
  else if String.eqb s "2.3488" then Some (SReal 2.3488%float)
  else None.

(** A reader that converts every value of a column to the type declared
    for it and raises when a value of an [int] or [float] column is not
    a number. *)
Definition read_value (dtype : gmap string pytype) (column value : string) : option sqlval :=
  match dtype !! column with
  | Some Tint | Some Tfloat => number value
  | _ => Some (SText value)
  end.

Definition read_lines (lines : list (list string)) (names : list string)
    (dtype : gmap string pytype) : option frame :=
  rows ← mapM (fun line => mapM (fun cv => read_value dtype cv.1 cv.2) (zip names line)) lines;
  Some {| columns := names; records := rows |}.

(** No database file yet, and the whole snapshot to read. *)
Definition first_run : Loader :=
  {| db_isfile := false; read_csv := read_lines snapshot;
     connect := true; to_sql _ _ := true |}.

(** No database file yet, and a snapshot of the two rows that are
    well formed. *)
Definition clean_run : Loader :=
  {| db_isfile := false; read_csv := read_lines (take 2 snapshot);
     connect := true; to_sql _ _ := true |}.

(** The database file is there. *)
Definition next_run : Loader :=
  {| db_isfile := true; read_csv := read_lines snapshot;
     connect := true; to_sql _ _ := true |}.

End Sample3.

(** ** Predicates the statements use *)

(** The position a search returns splits the array: everything before
    it is at most [x], everything from it on is greater. *)
Definition splits (a : list Z) (x : Z) (r : nat) : Prop :=
  (r <= length a)%nat /\
  (forall i y, (i < r)%nat -> a !! i = Some y -> (y <= x)%Z) /\
  (forall i y, (r <= i)%nat -> a !! i = Some y -> (x < y)%Z).

(** A range table as the loader expects it: every range is non-empty
    and lies entirely below the ranges after it. *)
Fixpoint ranges_ok (table : list (Z * Z)) : Prop :=
  match table with
  | [] => True
  | (ip_from, ip_to) :: rest =>
      (ip_from <= ip_to)%Z /\
      Forall (fun r => (ip_to < fst r)%Z) rest /\
      ranges_ok rest
  end.

(** What the row factory makes of a cell of a column declared with type
    [t]; [None] where the conversion raises. *)
Definition coerce {RT : Runtime} (t : pytype) (x : sqlval) : option cell :=
  match t with
  | Tint => CInt <$> py_int x
  | Tfloat => CFloat <$> py_float x
  | Tstr => Some (CStr (py_str x))
  end.

(** A field holds a value of the declared type of its column. *)
Definition has_type (t : pytype) (c : cell) : Prop :=
  match t, c with
  | Tint, CInt _ => True
  | Tfloat, CFloat _ => True
  | Tstr, CStr _ => True
  | _, _ => False
  end.

(** The columns of a statement all have a declared type, [index] apart. *)
Definition typed (tys : gmap string pytype) (description : list string) : Prop :=
  Forall (fun k => k = "index" \/ is_Some (tys !! k)) description.

(** The shape of a record [get_geodata] returns: the two synthesized
    fields are there, the raw coordinates and the row identifiers are
    not. *)
Definition shaped (v : variant) (d : gmap string cell) : Prop :=
  is_Some (d !! "location") /\
  is_Some (d !! "representative_point") /\
  d !! "latitude" = None /\
  d !! "longitude" = None /\
  d !! "index" = None /\
  (v = ZIP_GeoIPDB -> d !! "ip_from" = None /\ d !! "ip_to" = None).

(** ** Properties of [bisect_right] *)

Section Bisect.

Local Open Scope Z_scope.

Lemma ascending_lookup (a : list Z) :
  ascending a ->
  forall (i j : nat) (y z : Z),
    (i <= j)%nat -> a !! i = Some y -> a !! j = Some z -> y <= z.
Proof.
  induction a as [|h a IH]; intros Hasc i j y z Hij Hi Hj.
  - rewrite lookup_nil in Hi. discriminate.
  - destruct Hasc as [Hh Hasc]. rewrite Forall_forall in Hh.
    destruct i as [|i], j as [|j]; simpl in Hi, Hj.
    + simplify_eq. lia.
    + injection Hi as <-. apply Hh. eapply list_elem_of_lookup_2; eauto.
    + lia.
    + apply (IH Hasc i j); [lia | assumption | assumption].
Qed.

Lemma midpoint_between (lo hi : nat) :
  (lo < hi)%nat -> (lo <= Nat.div (lo + hi) 2 < hi)%nat.
Proof.
  intros Hlt. split.
  - apply Nat.div_le_lower_bound; lia.
  - apply Nat.Div0.div_lt_upper_bound; lia.
Qed.

Lemma splits_unique (a : list Z) (x : Z) (r1 r2 : nat) :
  splits a x r1 -> splits a x r2 -> r1 = r2.
Proof.
  intros (Hl1 & Hlo1 & Hhi1) (Hl2 & Hlo2 & Hhi2).
  destruct (Nat.lt_trichotomy r1 r2) as [Hlt | [Heq | Hlt]]; [|exact Heq|].
  - destruct (lookup_lt_is_Some_2 a r1) as [y Hy]; [lia|].
    specialize (Hlo2 _ _ Hlt Hy). specialize (Hhi1 r1 y (le_n _) Hy). lia.
  - destruct (lookup_lt_is_Some_2 a r2) as [y Hy]; [lia|].
    specialize (Hlo1 _ _ Hlt Hy). specialize (Hhi2 r2 y (le_n _) Hy). lia.
Qed.

Lemma bisect_loop_splits (a : list Z) (x : Z) (Hasc : ascending a) :
  forall fuel lo hi,
    (lo <= hi <= length a)%nat -> (hi - lo <= fuel)%nat ->
    (forall i y, (i < lo)%nat -> a !! i = Some y -> y <= x) ->
    (forall i y, (hi <= i)%nat -> a !! i = Some y -> x < y) ->
    splits a x (bisect_loop fuel a x lo hi).
Proof.
  induction fuel as [|fuel IH]; intros lo hi Hb Hf Hlo Hhi; cbn [bisect_loop].
  - assert (lo = hi) by lia. subst. split; [lia|]. split; assumption.
  - destruct (Nat.ltb_spec lo hi) as [Hlt|Hge].
    + pose proof (midpoint_between lo hi Hlt) as Hmid.
      destruct (lookup_lt_is_Some_2 a (Nat.div (lo + hi) 2)) as [am Ham]; [lia|].
      rewrite Ham. destruct (Z.ltb_spec x am) as [Hx|Hx].
      * apply IH; [lia | lia | assumption |].
        intros i y Hi Hy.
        pose proof (ascending_lookup a Hasc _ _ _ _ Hi Ham Hy). lia.
      * apply IH; [lia | lia | | assumption].
        intros i y Hi Hy.
        assert (Hle : (i <= Nat.div (lo + hi) 2)%nat) by lia.
        pose proof (ascending_lookup a Hasc _ _ _ _ Hle Hy Ham). lia.
    + assert (lo = hi) by lia. subst. split; [lia|]. split; assumption.
Qed.

Lemma bisect_right_splits (a : list Z) (x : Z) :
  ascending a -> splits a x (bisect_right a x).
Proof.
  intros Hasc. unfold bisect_right. apply bisect_loop_splits.
  - exact Hasc.
  - lia.
  - lia.
  - intros i y Hi. lia.
  - intros i y Hi Hy. apply lookup_lt_Some in Hy. lia.
Qed.

Lemma scan_right_splits (a : list Z) (x : Z) :
  ascending a -> splits a x (scan_right a x).
Proof.
  induction a as [|h a IH]; intros Hasc.
  - split; [simpl; lia|]. split; intros i y _ Hy; rewrite lookup_nil in Hy; discriminate.
  - destruct Hasc as [Hh Hasc]. rewrite Forall_forall in Hh.
    cbn [scan_right]. destruct (Z.ltb_spec x h) as [Hx|Hx].
    + split; [simpl; lia|]. split; [intros i y Hi; lia|].
      intros i y _ Hy. destruct i as [|i]; simpl in Hy.
      * simplify_eq. lia.
      * assert (h <= y); [|lia]. apply Hh. eapply list_elem_of_lookup_2; eauto.
    + destruct (IH Hasc) as (Hl & Hlo & Hhi).
      split; [simpl; lia|]. split.
      * intros i y Hi Hy. destruct i as [|i]; simpl in Hy.
        -- simplify_eq. lia.
        -- apply (Hlo i y); [lia | assumption].
      * intros i y Hi Hy. destruct i as [|i]; [lia|]. simpl in Hy.
        apply (Hhi i y); [lia | assumption].
Qed.

(** On a sorted array the binary search and the scan from the left
    stop at the same position. *)
Lemma bisect_right_scan (a : list Z) (x : Z) :
  ascending a -> bisect_right a x = scan_right a x.
Proof.
  intros Hasc. eapply splits_unique.
  - apply bisect_right_splits, Hasc.
  - apply scan_right_splits, Hasc.
Qed.

(** A value above every entry sends the search to the end of the array,
    sorted or not. *)
Lemma bisect_loop_above (a : list Z) (x : Z) :
  Forall (fun y => y < x) a ->
  forall fuel lo hi,
    (lo <= hi <= length a)%nat -> (hi - lo <= fuel)%nat ->
    bisect_loop fuel a x lo hi = hi.
Proof.
  intros Hall. induction fuel as [|fuel IH]; intros lo hi Hb Hf; cbn [bisect_loop].
  - lia.
  - destruct (Nat.ltb_spec lo hi) as [Hlt|Hge]; [|lia].
    pose proof (midpoint_between lo hi Hlt) as Hmid.
    destruct (lookup_lt_is_Some_2 a (Nat.div (lo + hi) 2)) as [am Ham]; [lia|].
    rewrite Ham.
    assert (am < x).
    { rewrite Forall_forall in Hall. apply Hall.
      eapply list_elem_of_lookup_2; eauto. }
    destruct (Z.ltb_spec x am); [lia|]. apply IH; lia.
Qed.

Lemma bisect_right_above (a : list Z) (x : Z) :
  Forall (fun y => y < x) a -> bisect_right a x = length a.
Proof.
  intros Hall. unfold bisect_right. apply bisect_loop_above; [assumption | lia | lia].
Qed.

(** A value equal to the entry at [i], with larger entries after it,
    sends the search one position past [i]. *)
Lemma bisect_right_boundary (a : list Z) (x : Z) (i : nat) :
  ascending a -> a !! i = Some x ->
  (forall j y, (i < j)%nat -> a !! j = Some y -> x < y) ->
  bisect_right a x = S i.
Proof.
  intros Hasc Hi Habove. eapply splits_unique; [apply bisect_right_splits, Hasc|].
  split; [apply lookup_lt_Some in Hi; lia|]. split.
  - intros j y Hj Hy. apply (ascending_lookup a Hasc j i); [lia | assumption | assumption].
  - intros j y Hj Hy. eapply Habove; eauto.
Qed.

(** The inclusive scan against the search over the upper bounds of a
    range table: they agree on a value strictly inside a range, and the
    search is one row ahead on a value that is the upper bound of its
    range. *)
Lemma between_scan_found (table : list (Z * Z)) (x : Z) (i : nat) :
  between_scan table x = Some i ->
  exists ip_from ip_to,
    table !! i = Some (ip_from, ip_to) /\ ip_from <= x <= ip_to.
Proof.
  revert i. induction table as [|[f t] rest IH]; intros i H; cbn [between_scan] in H.
  - discriminate.
  - destruct (Z.leb_spec f x) as [Hf|Hf]; cbn [andb] in H.
    + destruct (Z.leb_spec x t) as [Ht|Ht].
      * injection H as <-. exists f, t. split; [reflexivity | lia].
      * destruct (between_scan rest x) as [i'|] eqn:E; [|discriminate].
        injection H as <-. exact (IH i' eq_refl).
    + destruct (between_scan rest x) as [i'|] eqn:E; [|discriminate].
      injection H as <-. exact (IH i' eq_refl).
Qed.

Lemma scan_right_between (table : list (Z * Z)) (x : Z) :
  ranges_ok table ->
  forall i ip_from ip_to,
    between_scan table x = Some i ->
    table !! i = Some (ip_from, ip_to) ->
    scan_right (map snd table) x = if x <? ip_to then i else S i.
Proof.
  induction table as [|[f t] rest IH]; intros Hok i ip_from ip_to Hscan Hrow.
  - discriminate.
  - destruct Hok as (Hft & Hbelow & Hok). rewrite Forall_forall in Hbelow.
    cbn [between_scan] in Hscan. cbn [map snd scan_right].
    destruct ((f <=? x) && (x <=? t)) eqn:Hin.
    + injection Hscan as <-. cbn in Hrow. injection Hrow as <- <-.
      apply andb_true_iff in Hin as [_ Hxt]. apply Z.leb_le in Hxt.
      destruct (Z.ltb_spec x t) as [Hlt|Hge]; [reflexivity|].
      f_equal. destruct rest as [|[f1 t1] rest']; [reflexivity|].
      cbn [map snd scan_right].
      assert (Hf1 : t < f1) by (apply (Hbelow (f1, t1)); left).
      destruct Hok as (Hf1t1 & _ & _).
      destruct (Z.ltb_spec x t1); [reflexivity | lia].
    + destruct (between_scan rest x) as [i'|] eqn:E; [|discriminate].
      injection Hscan as <-. cbn in Hrow.
      destruct (between_scan_found rest x i' E) as (f' & t' & Hrow' & Hx).
      assert (Hin' : (f', t') ∈ rest) by (eapply list_elem_of_lookup_2; exact Hrow').
      pose proof (Hbelow _ Hin') as Hbelow'. cbn [fst] in Hbelow'.
      destruct (Z.ltb_spec x t) as [Hlt|Hge]; [lia|].
      rewrite (IH Hok i' ip_from ip_to eq_refl Hrow).
      destruct (x <? ip_to); reflexivity.
Qed.

End Bisect.

(** ** The range lookup of [ZIP_GeoIPDB] *)

Section RangeLookup.
Context {RT : Runtime}.

Local Open Scope Z_scope.

(** On a sorted range array the position [ip_plan] uses is the one a
    scan from the left finds: the first upper bound strictly greater
    than the value. *)
Lemma ip_plan_scan (self : resolver) (x : Z) :
  ascending (ip_int_to_list self) ->
  ip_int_to_list self <> [] ->
  ip_plan self (VInt x) =
    match ip_int_to_list self !! scan_right (ip_int_to_list self) x with
    | Some ip_to => Execute (select_eq self "ip_to" (VInt ip_to))
    | None => Fail IndexError
    end.
Proof.
  intros Hasc Hne. unfold ip_plan.
  destruct (ip_int_to_list self) as [|h a] eqn:Ha; [congruence|].
  cbn [as_int]. rewrite (bisect_right_scan _ x Hasc). reflexivity.
Qed.

Lemma ip_plan_above (self : resolver) (x : Z) :
  Forall (fun y => y < x) (ip_int_to_list self) ->
  ip_plan self (VInt x) = Fail IndexError.
Proof.
  intros Hall. unfold ip_plan.
  destruct (ip_int_to_list self) as [|h a] eqn:Ha; [reflexivity|].
  cbn [as_int]. rewrite (bisect_right_above _ x Hall).
  rewrite lookup_ge_None_2; [reflexivity | lia].
Qed.

Lemma ranges_ok_ascending (table : list (Z * Z)) :
  ranges_ok table -> ascending (map snd table).
Proof.
  induction table as [|[f t] rest IH]; intros Hok; [exact I|].
  destruct Hok as (Hft & Hbelow & Hok). cbn [map snd ascending].
  split; [|exact (IH Hok)].
  apply Forall_map. clear IH. induction rest as [|[f1 t1] rest IH']; constructor.
  - apply Forall_cons in Hbelow as [H1 _]. destruct Hok as (H2 & _ & _). cbn in *. lia.
  - apply Forall_cons in Hbelow as [_ Hbelow]. destruct Hok as (_ & _ & Hok).
    exact (IH' Hbelow Hok).
Qed.

(** The lookup against the inclusive scan of the table, row by row: for
    a value that the scan finds in row [i], the lookup asks for the
    upper bound of row [i] when the value is below that bound, and for
    the upper bound of row [i + 1] when the value is that bound. *)
Lemma ip_plan_between (self : resolver) (table : list (Z * Z)) (x : Z) (i : nat)
    (ip_from ip_to : Z) :
  ranges_ok table ->
  ip_int_to_list self = map snd table ->
  between_scan table x = Some i ->
  table !! i = Some (ip_from, ip_to) ->
  ip_plan self (VInt x) =
    if x <? ip_to then Execute (select_eq self "ip_to" (VInt ip_to))
    else match table !! S i with
         | Some (_, above) => Execute (select_eq self "ip_to" (VInt above))
         | None => Fail IndexError
         end.
Proof.
  intros Hok Harr Hscan Hrow.
  assert (Hne : ip_int_to_list self <> []).
  { rewrite Harr. destruct table; [discriminate|]. discriminate. }
  rewrite (ip_plan_scan self x); [|rewrite Harr; apply ranges_ok_ascending, Hok | exact Hne].
  rewrite Harr, (scan_right_between table x Hok i ip_from ip_to Hscan Hrow).
  rewrite !list_lookup_fmap.
  destruct (x <? ip_to).
  - rewrite Hrow. reflexivity.
  - destruct (table !! S i) as [[f' t']|]; reflexivity.
Qed.

(** C1, as the code has it: a dotted address whose integer is greater
    than every upper bound of the range array makes [get_geodata] raise
    [IndexError] out of the subscript [ip_int_to_list[idx]]; it does not
    return [None]. *)
Theorem C1_past_end_raises (self : resolver) (ip : string) (x : Z) (s : state) :
  ip2int ip = Some x ->
  Forall (fun y => y < x) (ip_int_to_list self) ->
  cache_get [VStr "ip"; VStr ip] (results_cache s) = None ->
  get_geodata ZIP_GeoIPDB self [VStr "ip"; VStr ip] [] s = (Raise IndexError, s).
Proof.
  intros Hip Hall Hmiss.
  unfold get_geodata, bind, get_result_from_cache. cbn [make_key map app snd].
  cbn [forallb hashable andb]. rewrite Hmiss.
  unfold _get_geodata. cbn. rewrite Hip, (ip_plan_above self x Hall). reflexivity.
Qed.

(** C2, as the code has it: a dotted address whose integer equals the
    upper bound at position [i] of the sorted range array is looked up
    under the upper bound at position [i + 1], the range above its own,
    and under none at all when [i] is the last position. *)
Theorem C2_boundary_selects_range_above (self : resolver) (ip : string) (x : Z)
    (i : nat) (multi_op : pyval) :
  ascending (ip_int_to_list self) ->
  ip2int ip = Some x ->
  ip_int_to_list self !! i = Some x ->
  (forall j y, (i < j)%nat -> ip_int_to_list self !! j = Some y -> x < y) ->
  ZIP_GeoIPDB_plan self (VStr "ip") (VStr ip) multi_op (VBool true) =
    match ip_int_to_list self !! S i with
    | Some ip_to => Execute (select_eq self "ip_to" (VInt ip_to))
    | None => Fail IndexError
    end.
Proof.
  intros Hasc Hip Hi Habove. unfold ZIP_GeoIPDB_plan. cbn. rewrite Hip.
  unfold ip_plan. destruct (ip_int_to_list self) as [|h a] eqn:Ha.
  - rewrite lookup_nil in Hi. discriminate.
  - cbn [as_int]. rewrite (bisect_right_boundary _ x i Hasc Hi Habove). reflexivity.
Qed.

End RangeLookup.

(** The address [0.0.0.21] lies above both ranges of the sample table. *)
Lemma C1_past_end_raises_witness :
  get_geodata ZIP_GeoIPDB Sample.geoip [VStr "ip"; VStr "0.0.0.21"] [] init_state
    = (Raise IndexError, init_state).
Proof.
  apply (C1_past_end_raises Sample.geoip "0.0.0.21" 21 init_state).
  - reflexivity.
  - repeat constructor.
  - reflexivity.
Defined.

(** The address [0.0.0.10] is the last one of the range [0..10]: the
    inclusive scan finds row 0, the lookup asks for the row whose upper
    bound is 20. *)
Lemma C2_boundary_selects_range_above_witness :
  between_scan Sample.ranges 10 = Some 0%nat /\
  ZIP_GeoIPDB_plan Sample.geoip (VStr "ip") (VStr "0.0.0.10") (VStr "AND") (VBool true)
    = Execute (Sample.where_eq "ip_to" "20").
Proof.
  split; [reflexivity|].
  rewrite (C2_boundary_selects_range_above Sample.geoip "0.0.0.10" 10 0 (VStr "AND")).
  - reflexivity.
  - simpl. repeat constructor; lia.
  - reflexivity.
  - reflexivity.
  - intros j y Hj Hy. destruct j as [|[|j]]; [lia| |]; simpl in Hy; simplify_eq; lia.
Defined.

(** C3 fails on the code: the country code [FR] matches no row of the
    sample table; after the call the cache holds nothing under the key
    of the query, and the same query a second time executes the
    statement once more. *)
Lemma C3_counterexample :
  cache_get [VStr "country_code"; VStr "FR"]
    (results_cache
       (snd (get_geodata ZIP_GeoIPDB Sample.geoip [VStr "country_code"; VStr "FR"] []
               init_state))) = None /\
  executed
    (snd (get_geodata ZIP_GeoIPDB Sample.geoip [VStr "country_code"; VStr "FR"] []
            (snd (get_geodata ZIP_GeoIPDB Sample.geoip [VStr "country_code"; VStr "FR"] []
                    init_state))))
  = [Sample.where_eq "country_code" "FR"; Sample.where_eq "country_code" "FR"].
Proof. split; vm_compute; reflexivity. Qed.

(** C4 fails on the code: the key of [('country_code', 'MX')] and the key
    of [(['country_code'], ['MX'])] are not equal. *)
Lemma C4_counterexample :
  key_eqb (make_key [VStr "country_code"; VStr "MX"] [])
          (make_key [VList [VStr "country_code"]; VList [VStr "MX"]] []) = false.
Proof. reflexivity. Qed.

(** ** The result cache and [get_geodata] *)

Section Cache.
Context {RT : Runtime}.

(** A lookup never writes the cache. *)
Lemma run_plan_cache (self : resolver) (p : plan) finish (s : state) :
  results_cache (snd (run_plan self p finish s)) = results_cache s.
Proof.
  destruct p as [q | | |e]; cbn; try reflexivity.
  - unfold bind, cursor_execute. destruct (sqlite_execute q) as [|description rows]; cbn.
    + reflexivity.
    + unfold cursor_fetchall. cbn. destruct (fetch_rows self description rows) as [[ds|e] pending]; reflexivity.
  - unfold bind, cursor_fetchall.
    destruct (fetch_rows self (cur_description s) (cur_rows s)) as [[ds|e] pending]; reflexivity.
Qed.

Lemma _get_geodata_cache (v : variant) (self : resolver) args kwargs (s : state) :
  results_cache (snd (_get_geodata v self args kwargs s)) = results_cache s.
Proof.
  unfold _get_geodata. destruct (bind_params (signature v) args kwargs) as [ps|].
  - apply run_plan_cache.
  - reflexivity.
Qed.

(** [get_geodata] when the key is not in the cache. *)
Lemma get_geodata_miss (v : variant) (self : resolver) args kwargs (s : state) :
  forallb hashable (make_key args kwargs) = true ->
  cache_get (make_key args kwargs) (results_cache s) = None ->
  get_geodata v self args kwargs s =
    match _get_geodata v self args kwargs s with
    | (Ret (Some d), s') => (Ret (Some d), snd (add_result_to_cache (make_key args kwargs) d s'))
    | (Ret None, s') => (Ret None, s')
    | (Raise e, s') => (Raise e, s')
    end.
Proof.
  intros Hh Hmiss. unfold get_geodata, bind, get_result_from_cache.
  rewrite Hh, Hmiss.
  destruct (_get_geodata v self args kwargs s) as [[[d|]|e] s']; reflexivity.
Qed.

(** [get_geodata] when the key is in the cache. *)
Lemma get_geodata_hit (v : variant) (self : resolver) args kwargs (s : state) d :
  forallb hashable (make_key args kwargs) = true ->
  cache_get (make_key args kwargs) (results_cache s) = Some d ->
  get_geodata v self args kwargs s = (Ret (Some d), s).
Proof.
  intros Hh Hhit. unfold get_geodata, bind, get_result_from_cache.
  rewrite Hh, Hhit. reflexivity.
Qed.

(** A statement that matches no row makes the lookup return [None]. *)
Lemma run_plan_zero_rows (v : variant) (self : resolver) (q : string)
    (description : list string) (s : state) :
  sqlite_execute q = SqlRows description [] ->
  run_plan self (Execute q) (finish_of v) s =
    (Ret None,
     {| cur_description := description; cur_rows := [];
        results_cache := results_cache s; executed := executed s ++ [q] |}).
Proof.
  intros Hq. cbn. unfold bind, cursor_execute. rewrite Hq. cbn.
  destruct v; reflexivity.
Qed.

(** C3, as the code has it: when the statement of a query matches zero
    rows, [get_geodata] returns [None] and leaves the cache as it was
    (the guard [if val is None: return None] comes before the cache is
    written); the same query a second time executes the statement again
    and returns [None] again. *)
Theorem C3_zero_rows_not_cached (v : variant) (self : resolver) args kwargs ps
    (q : string) (description : list string) (s : state) :
  forallb hashable (make_key args kwargs) = true ->
  cache_get (make_key args kwargs) (results_cache s) = None ->
  bind_params (signature v) args kwargs = Some ps ->
  plan_of v self ps = Execute q ->
  sqlite_execute q = SqlRows description [] ->
  exists s1 s2,
    get_geodata v self args kwargs s = (Ret None, s1) /\
    results_cache s1 = results_cache s /\
    executed s1 = (executed s ++ [q])%list /\
    get_geodata v self args kwargs s1 = (Ret None, s2) /\
    results_cache s2 = results_cache s /\
    executed s2 = (executed s ++ [q; q])%list.
Proof.
  intros Hh Hmiss Hps Hplan Hq.
  assert (Hcall : forall s0, cache_get (make_key args kwargs) (results_cache s0) = None ->
            get_geodata v self args kwargs s0 =
              (Ret None,
               {| cur_description := description; cur_rows := [];
                  results_cache := results_cache s0; executed := executed s0 ++ [q] |})).
  { intros s0 Hm. rewrite (get_geodata_miss v self args kwargs s0 Hh Hm).
    unfold _get_geodata. rewrite Hps, Hplan.
    rewrite (run_plan_zero_rows v self q description s0 Hq). reflexivity. }
  eexists _, _. split; [apply (Hcall s Hmiss)|].
  split; [reflexivity|]. split; [reflexivity|].
  split; [apply Hcall; exact Hmiss|].
  split; [reflexivity|]. cbn. rewrite <- app_assoc. reflexivity.
Qed.

Lemma key_head_str_not_tuple (k : list pyval) (c : string) (l k1 k2 : list pyval) :
  key_eqb k (VStr c :: k1) = true -> key_eqb k (VTuple l :: k2) = false.
Proof.
  destruct k as [|h t]; [discriminate|].
  destruct h; cbn; try discriminate. reflexivity.
Qed.

(** A record stored under a key that starts with a string is not found
    under a key that starts with a tuple. *)
Lemma cache_slots_apart (c : string) (l : list pyval) (k1 k2 : list pyval)
    (d : gmap string cell) (cache : list (list pyval * gmap string cell)) :
  cache_get (VTuple l :: k2) (cache_set (VStr c :: k1) d cache)
    = cache_get (VTuple l :: k2) cache.
Proof.
  induction cache as [|[k d'] cache IH]; [reflexivity|].
  cbn [cache_set cache_get].
  destruct (key_eqb k (VStr c :: k1)) eqn:Hk.
  - cbn [cache_get]. rewrite (key_head_str_not_tuple k c l k1 k2 Hk). reflexivity.
  - cbn [cache_get]. rewrite IH. reflexivity.
Qed.

(** C4, as the code has it: [get_geodata] only turns list arguments into
    tuples, so the single-field form [(c, v)] keeps the string [c] as
    the head of its key while the list form [([c], [v])] has the tuple
    [(c,)] there; the two keys are never equal, and a record cached
    under the first is not found under the second. *)
Theorem C4_styles_have_distinct_keys (c : string) (v : pyval)
    (kwargs : list (string * pyval)) (d : gmap string cell)
    (cache : list (list pyval * gmap string cell)) :
  key_eqb (make_key [VStr c; v] kwargs) (make_key [VList [VStr c]; VList [v]] kwargs) = false /\
  make_key [VList [VStr c]; VList [v]] kwargs
    = VTuple [VStr c] :: VTuple [v] :: map snd kwargs /\
  cache_get (make_key [VList [VStr c]; VList [v]] kwargs)
            (cache_set (make_key [VStr c; v] kwargs) d cache)
    = cache_get (make_key [VList [VStr c]; VList [v]] kwargs) cache.
Proof.
  split; [reflexivity|]. split; [reflexivity|].
  cbn [make_key map app]. apply cache_slots_apart.
Qed.

(** C10: in [ZIP_GeoIPDB], a lookup by ['ip'] with a true [str_ip] whose
    value [ip2int] rejects does not raise and changes nothing, the cache
    included; when the key is not cached the answer is [None]. *)
Theorem C10_bad_ip_returns_None (self : resolver) args kwargs
    (column value multi_op str_ip : pyval) (s : state) :
  bind_params (signature ZIP_GeoIPDB) args kwargs = Some [column; value; multi_op; str_ip] ->
  py_eqb column (VStr "ip") = true ->
  truthy str_ip = true ->
  ip2int (format_val value) = None ->
  forallb hashable (make_key args kwargs) = true ->
  exists r,
    get_geodata ZIP_GeoIPDB self args kwargs s = (Ret r, s) /\
    (cache_get (make_key args kwargs) (results_cache s) = None -> r = None).
Proof.
  intros Hps Hcol Hstr Hip Hh.
  destruct (cache_get (make_key args kwargs) (results_cache s)) as [d|] eqn:Hc.
  - exists (Some d). split; [|discriminate].
    apply get_geodata_hit; assumption.
  - exists None. split; [|reflexivity].
    rewrite (get_geodata_miss _ _ _ _ _ Hh Hc).
    unfold _get_geodata. rewrite Hps. cbn [plan_of].
    unfold ZIP_GeoIPDB_plan. rewrite Hcol, Hstr, Hip. reflexivity.
Qed.

End Cache.

(** The country code [FR] matches no row of the sample table. *)
Lemma C3_zero_rows_not_cached_witness :
  exists s1 s2,
    get_geodata ZIP_GeoIPDB Sample.geoip [VStr "country_code"; VStr "FR"] [] init_state
      = (Ret None, s1) /\
    results_cache s1 = results_cache init_state /\
    executed s1 = (executed init_state ++ [Sample.where_eq "country_code" "FR"])%list /\
    get_geodata ZIP_GeoIPDB Sample.geoip [VStr "country_code"; VStr "FR"] [] s1
      = (Ret None, s2) /\
    results_cache s2 = results_cache init_state /\
    executed s2 = (executed init_state
                    ++ [Sample.where_eq "country_code" "FR"; Sample.where_eq "country_code" "FR"])%list.
Proof.
  apply (C3_zero_rows_not_cached ZIP_GeoIPDB Sample.geoip
           [VStr "country_code"; VStr "FR"] []
           [VStr "country_code"; VStr "FR"; VStr "AND"; VBool true]
           (Sample.where_eq "country_code" "FR") Sample.description init_state);
    reflexivity.
Defined.

(** The string [not-an-ip] is no address. *)
Lemma C10_bad_ip_returns_None_witness :
  exists r,
    get_geodata ZIP_GeoIPDB Sample.geoip [VStr "ip"; VStr "not-an-ip"] [] init_state
      = (Ret r, init_state) /\
    (cache_get (make_key [VStr "ip"; VStr "not-an-ip"] []) (results_cache init_state) = None
     -> r = None).
Proof.
  apply (C10_bad_ip_returns_None Sample.geoip [VStr "ip"; VStr "not-an-ip"] []
           (VStr "ip") (VStr "not-an-ip") (VStr "AND") (VBool true) init_state);
    reflexivity.
Defined.

(** ** Construction of [ZIPLevel_GeoDB] *)

(** C6: without the compile option [ENABLE_FTS5] the constructor of
    [ZIPLevel_GeoDB] logs an error and exits with status 1; the base
    constructor does not run, so no database is loaded and no object
    exists that could answer with another kind of match. *)
Theorem C6_no_FTS5_halts (available_pragmas : list (list string)) (nm : string)
    (nms : list string) (tys : gmap string pytype) :
  ["ENABLE_FTS5"] ∉ available_pragmas ->
  ZIPLevel_GeoDB_init available_pragmas nm nms tys = ([LogError], SystemExit 1).
Proof.
  intros Hno. unfold ZIPLevel_GeoDB_init, check_FTS5_support.
  rewrite bool_decide_eq_false_2; [reflexivity | exact Hno].
Qed.

(** With the option the object is built by the base constructor. *)
Lemma ZIPLevel_GeoDB_init_FTS5 (available_pragmas : list (list string)) (nm : string)
    (nms : list string) (tys : gmap string pytype) :
  ["ENABLE_FTS5"] ∈ available_pragmas ->
  exists self,
    ZIPLevel_GeoDB_init available_pragmas nm nms tys = ([LoadDatabase], Built self init_state).
Proof.
  intros Hyes. unfold ZIPLevel_GeoDB_init, check_FTS5_support.
  rewrite bool_decide_eq_true_2; [|exact Hyes]. eexists. reflexivity.
Qed.

(** An engine compiled with FTS3 and FTS4 only. *)
Lemma C6_no_FTS5_halts_witness :
  ZIPLevel_GeoDB_init [["ENABLE_FTS3"]; ["ENABLE_FTS4"]; ["THREADSAFE=1"]] "geoinfo" [] ∅
    = ([LogError], SystemExit 1).
Proof.
  apply (C6_no_FTS5_halts [["ENABLE_FTS3"]; ["ENABLE_FTS4"]; ["THREADSAFE=1"]] "geoinfo" [] ∅).
  apply (bool_decide_unpack _). vm_compute. reflexivity.
Defined.

(** ** The row factory *)

Section RowFactory.
Context {RT : Runtime}.

(** The loop of the row factory never raises on a well-formed row, and
    the record it returns is described field by field. *)
Lemma dict_factory_loop_spec (tys : gmap string pytype) (row : list sqlval) :
  forall (description : list string) (idx : nat) (d0 : gmap string cell),
    NoDup description ->
    typed tys description ->
    idx + length description <= length row ->
    exists d,
      dict_factory_loop tys row idx description d0 = Ret d /\
      (forall k, k ∉ description \/ k = "index" -> d !! k = d0 !! k) /\
      (forall j k x t,
          description !! j = Some k -> k <> "index" ->
          row !! (idx + j) = Some x -> tys !! k = Some t ->
          d !! k = match coerce t x with Some c => Some c | None => d0 !! k end).
Proof.
  induction description as [|k rest IH]; intros idx d0 Hnd Hty Hlen.
  - exists d0. split; [reflexivity|]. split; [reflexivity|].
    intros j k x t Hj. rewrite lookup_nil in Hj. discriminate.
  - apply NoDup_cons in Hnd as [Hk Hnd]. apply Forall_cons in Hty as [Hkty Hty].
    cbn [length] in Hlen.
    assert (Hstep : forall d1,
      (forall k', k' <> "index" -> k' <> k -> d1 !! k' = d0 !! k') ->
      d1 !! "index" = d0 !! "index" ->
      (forall x t, k <> "index" -> row !! idx = Some x -> tys !! k = Some t ->
         d1 !! k = match coerce t x with Some c => Some c | None => d0 !! k end) ->
      exists d,
        dict_factory_loop tys row (S idx) rest d1 = Ret d /\
        (forall k', k' ∉ k :: rest \/ k' = "index" -> d !! k' = d0 !! k') /\
        (forall j k' x t,
            (k :: rest) !! j = Some k' -> k' <> "index" ->
            row !! (idx + j) = Some x -> tys !! k' = Some t ->
            d !! k' = match coerce t x with Some c => Some c | None => d0 !! k' end)).
    { intros d1 Hother Hindex Hself.
      destruct (IH (S idx) d1 Hnd Hty ltac:(lia)) as (d & Hd & Hout & Hin).
      exists d. split; [exact Hd|]. split.
      - intros k' [Hk'|Hk'].
        + apply not_elem_of_cons in Hk' as [Hk1 Hk2].
          rewrite Hout by (left; exact Hk2).
          destruct (decide (k' = "index")) as [->|Hne]; [exact Hindex|].
          apply Hother; [exact Hne | exact Hk1].
        + subst k'. rewrite Hout by (right; reflexivity). exact Hindex.
      - intros j k' x t Hj Hne Hx Ht. destruct j as [|j]; cbn in Hj.
        + injection Hj as ->. rewrite Nat.add_0_r in Hx.
          rewrite Hout by (left; exact Hk). apply Hself; assumption.
        + replace (idx + S j) with (S idx + j) in Hx by lia.
          rewrite (Hin j k' x t Hj Hne Hx Ht).
          destruct (coerce t x); [reflexivity|].
          apply Hother; [exact Hne|].
          intros ->. apply Hk. eapply list_elem_of_lookup_2; eauto. }
    cbn [dict_factory_loop]. destruct (String.eqb_spec k "index") as [->|Hne].
    + apply Hstep; [reflexivity | reflexivity | congruence].
    + destruct Hkty as [?|[t Ht]]; [contradiction|]. rewrite Ht.
      destruct (lookup_lt_is_Some_2 row idx) as [x Hx]; [lia|]. rewrite Hx. cbn.
      assert (Hins : forall c,
        exists d,
          dict_factory_loop tys row (S idx) rest (<[k:=c]> d0) = Ret d /\
          (forall k', k' ∉ k :: rest \/ k' = "index" -> d !! k' = d0 !! k') /\
          (forall j k' x' t',
              (k :: rest) !! j = Some k' -> k' <> "index" ->
              row !! (idx + j) = Some x' -> tys !! k' = Some t' ->
              d !! k' = match coerce t' x' with Some c' => Some c' | None => d0 !! k' end
              \/ (j = 0 /\ d !! k' = Some c))).
      { intros c.
        destruct (IH (S idx) (<[k:=c]> d0) Hnd Hty ltac:(lia)) as (d & Hd & Hout & Hin).
        exists d. split; [exact Hd|]. split.
        - intros k' [Hk'|Hk'].
          + apply not_elem_of_cons in Hk' as [Hk1 Hk2].
            rewrite Hout by (left; exact Hk2).
            apply lookup_insert_ne. congruence.
          + subst k'. rewrite Hout by (right; reflexivity).
            apply lookup_insert_ne. exact Hne.
        - intros j k' x' t' Hj Hne' Hx' Ht'. destruct j as [|j]; cbn in Hj.
          + injection Hj as ->. right. split; [reflexivity|].
            rewrite Hout by (left; exact Hk). apply lookup_insert_eq.
          + left. replace (idx + S j) with (S idx + j) in Hx' by lia.
            rewrite (Hin j k' x' t' Hj Hne' Hx' Ht').
            destruct (coerce t' x'); [reflexivity|].
            apply lookup_insert_ne.
            intros ->. apply Hk. eapply list_elem_of_lookup_2; eauto. }
      assert (Hfin : forall c, coerce t x = Some c ->
        exists d,
          dict_factory_loop tys row (S idx) rest (<[k:=c]> d0) = Ret d /\
          (forall k', k' ∉ k :: rest \/ k' = "index" -> d !! k' = d0 !! k') /\
          (forall j k' x' t',
              (k :: rest) !! j = Some k' -> k' <> "index" ->
              row !! (idx + j) = Some x' -> tys !! k' = Some t' ->
              d !! k' = match coerce t' x' with Some c' => Some c' | None => d0 !! k' end)).
      { intros c Hc. destruct (Hins c) as (d & Hd & Hout & Hin).
        exists d. split; [exact Hd|]. split; [exact Hout|].
        intros j k' x' t' Hj Hne' Hx' Ht'.
        destruct (Hin j k' x' t' Hj Hne' Hx' Ht') as [H|[-> H]]; [exact H|].
        cbn in Hj. injection Hj as ->. rewrite Nat.add_0_r in Hx'.
        assert (x' = x) by congruence. assert (t' = t) by congruence. subst.
        rewrite Hc. exact H. }
      destruct t; cbn [coerce] in Hfin.
      * destruct (py_int x) as [z|] eqn:Hz.
        -- apply Hfin. reflexivity.
        -- apply Hstep; [reflexivity | reflexivity |].
           intros x' t' _ Hx' Ht'. assert (x' = x) by congruence.
           assert (t' = Tint) by congruence. subst. cbn [coerce]. rewrite Hz. reflexivity.
      * destruct (py_float x) as [f|] eqn:Hf.
        -- apply Hfin. reflexivity.
        -- apply Hstep; [reflexivity | reflexivity |].
           intros x' t' _ Hx' Ht'. assert (x' = x) by congruence.
           assert (t' = Tfloat) by congruence. subst. cbn [coerce]. rewrite Hf. reflexivity.
      * apply Hfin. reflexivity.
Qed.

(** The row factory on a well-formed row: a record, with exactly the
    fields whose conversion succeeds. *)
Lemma dict_factory_spec (self : resolver) (description : list string) (row : list sqlval) :
  NoDup description ->
  typed (types self) description ->
  length row = length description ->
  exists d,
    dict_factory self description row = Ret d /\
    d !! "index" = None /\
    (forall j k x t,
        description !! j = Some k -> k <> "index" ->
        row !! j = Some x -> types self !! k = Some t ->
        d !! k = coerce t x).
Proof.
  intros Hnd Hty Hlen. unfold dict_factory.
  destruct (dict_factory_loop_spec (types self) row description 0 ∅ Hnd Hty ltac:(lia))
    as (d & Hd & Hout & Hin).
  exists d. split; [exact Hd|]. split.
  - rewrite Hout by (right; reflexivity). apply lookup_empty.
  - intros j k x t Hj Hne Hx Ht. rewrite (Hin j k x t Hj Hne Hx Ht).
    destruct (coerce t x); [reflexivity | apply lookup_empty].
Qed.

(** C7, for the rows read back: when the value of a numeric column
    cannot be converted ([int] or [float] raises), the row factory still
    returns the record of the row; the field of that column is absent
    from it and every other field holds its converted value. *)
Theorem C7_malformed_field_absent (self : resolver) (description : list string)
    (row : list sqlval) (idx : nat) (k : string) (x : sqlval) :
  NoDup description ->
  typed (types self) description ->
  length row = length description ->
  description !! idx = Some k -> k <> "index" ->
  row !! idx = Some x ->
  (types self !! k = Some Tint /\ py_int x = None) \/
  (types self !! k = Some Tfloat /\ py_float x = None) ->
  exists d,
    dict_factory self description row = Ret d /\
    d !! k = None /\
    (forall j k' x' t,
        description !! j = Some k' -> k' <> "index" ->
        row !! j = Some x' -> types self !! k' = Some t ->
        d !! k' = coerce t x').
Proof.
  intros Hnd Hty Hlen Hk Hne Hx Hbad.
  destruct (dict_factory_spec self description row Hnd Hty Hlen) as (d & Hd & _ & Hin).
  exists d. split; [exact Hd|]. split; [|exact Hin].
  destruct Hbad as [[Ht Hz]|[Ht Hf]].
  - rewrite (Hin idx k x Tint Hk Hne Hx Ht). cbn [coerce]. rewrite Hz. reflexivity.
  - rewrite (Hin idx k x Tfloat Hk Hne Hx Ht). cbn [coerce]. rewrite Hf. reflexivity.
Qed.

End RowFactory.

(** In the sample table the latitude of the third row is the text
    [north]. *)
Lemma C7_malformed_field_absent_witness :
  exists d,
    dict_factory Sample.geoip Sample.description Sample.broken = Ret d /\
    d !! "latitude" = None /\
    (forall j k' x' t,
        Sample.description !! j = Some k' -> k' <> "index" ->
        Sample.broken !! j = Some x' -> types Sample.geoip !! k' = Some t ->
        d !! k' = coerce t x').
Proof.
  apply (C7_malformed_field_absent Sample.geoip Sample.description Sample.broken
           7 "latitude" (SText "north")).
  - apply (bool_decide_unpack _). vm_compute. reflexivity.
  - unfold typed, Sample.description.
    repeat (apply Forall_cons; split;
            [first [left; reflexivity | right; eexists; vm_compute; reflexivity]|]).
    apply Forall_nil_2.
  - reflexivity.
  - reflexivity.
  - discriminate.
  - reflexivity.
  - right. split; [vm_compute; reflexivity | reflexivity].
Defined.

(** C7 fails on the code: the latitude of the third row of the sample is
    the text [north] in a column declared [float]; the row factory
    returns the record of the row without that field, and the lookup
    that matches the row then stops with [KeyError('latitude')], which
    [get_geodata] lets through: the malformed value has aborted the
    processing of the query. *)
Lemma C7_counterexample :
  Sample.description !! 7%nat = Some "latitude" /\
  types Sample.geoip !! "latitude" = Some Tfloat /\
  Sample.broken !! 7%nat = Some (SText "north") /\
  (exists d,
     @dict_factory Sample2.runtime Sample.geoip Sample.description Sample.broken = Ret d /\
     d !! "latitude" = None /\
     d !! "longitude" = Some (CFloat 2.3488%float)) /\
  @sqlite_execute Sample2.runtime (Sample.where_eq "country_code" "FR")
    = SqlRows Sample.description [Sample.broken] /\
  fst (@get_geodata Sample2.runtime CountryLevel_GeoDB Sample.geoip
         [VStr "country_code"; VStr "FR"] [] init_state) = Raise (KeyError "latitude") /\
  fst (@get_geodata Sample2.runtime ZIP_GeoIPDB Sample.geoip
         [VStr "country_code"; VStr "FR"] [] init_state) = Raise (KeyError "latitude").
Proof.
  split; [reflexivity|]. split; [vm_compute; reflexivity|]. split; [reflexivity|].
  split; [eexists; split; [vm_compute; reflexivity | split; vm_compute; reflexivity]|].
  split; [reflexivity|]. split; vm_compute; reflexivity.
Qed.

(** ** What every state of a resolver satisfies *)

Section Invariants.
Context {RT : Runtime}.

Lemma bind_from_length params : forall args kwargs ps,
  bind_from params args kwargs = Some ps -> length ps = length params.
Proof.
  induction params as [|[n dflt] params IH]; intros args kwargs ps H; cbn in H.
  - destruct args; simplify_eq. reflexivity.
  - destruct args as [|a args].
    + destruct (kw_get n kwargs) as [w|], dflt as [w'|]; try discriminate;
        destruct (bind_from params [] kwargs) as [ps'|] eqn:E; cbn in H; simplify_eq;
        cbn; f_equal; eapply IH; eauto.
    + destruct (kw_get n kwargs); [discriminate|].
      destruct (bind_from params args kwargs) as [ps'|] eqn:E; cbn in H; simplify_eq.
      cbn. f_equal. eapply IH; eauto.
Qed.

Lemma bind_params_length params args kwargs ps :
  bind_params params args kwargs = Some ps -> length ps = length params.
Proof.
  unfold bind_params. destruct (forallb _ kwargs); [|discriminate].
  apply bind_from_length.
Qed.

(** The row factory does not raise on a row of the right length whose
    columns are typed. *)
Lemma dict_factory_loop_total (tys : gmap string pytype) (row : list sqlval) :
  forall (description : list string) (idx : nat) (d0 : gmap string cell),
    typed tys description ->
    idx + length description <= length row ->
    exists d, dict_factory_loop tys row idx description d0 = Ret d.
Proof.
  induction description as [|k rest IH]; intros idx d0 Hty Hlen.
  - exists d0. reflexivity.
  - apply Forall_cons in Hty as [Hkty Hty]. cbn [length] in Hlen.
    cbn [dict_factory_loop]. destruct (String.eqb_spec k "index") as [->|Hne].
    + apply IH; [exact Hty | lia].
    + destruct Hkty as [?|[t Ht]]; [contradiction|]. rewrite Ht.
      destruct (lookup_lt_is_Some_2 row idx) as [x Hx]; [lia|]. rewrite Hx. cbn.
      destruct t.
      * destruct (py_int x); apply IH; first [exact Hty | lia].
      * destruct (py_float x); apply IH; first [exact Hty | lia].
      * apply IH; [exact Hty | lia].
Qed.

(** The row factory never puts the column [index] in a record. *)
Lemma dict_factory_loop_no_index (tys : gmap string pytype) (row : list sqlval) :
  forall (description : list string) (idx : nat) (d0 d : gmap string cell),
    d0 !! "index" = None ->
    dict_factory_loop tys row idx description d0 = Ret d ->
    d !! "index" = None.
Proof.
  induction description as [|k rest IH]; intros idx d0 d H0 H; cbn [dict_factory_loop] in H.
  - congruence.
  - destruct (String.eqb_spec k "index") as [->|Hne]; [exact (IH _ _ _ H0 H)|].
    assert (Hins : forall c, <[k:=c]> d0 !! "index" = None).
    { intros c. rewrite lookup_insert_ne by exact Hne. exact H0. }
    destruct (tys !! k) as [[| |]|]; [| | |discriminate].
    + destruct (row !! idx ≫= py_int);
        [exact (IH _ _ _ (Hins _) H) | exact (IH _ _ _ H0 H)].
    + destruct (row !! idx ≫= py_float);
        [exact (IH _ _ _ (Hins _) H) | exact (IH _ _ _ H0 H)].
    + destruct (row !! idx); [|discriminate]. exact (IH _ _ _ (Hins _) H).
Qed.

Lemma fetch_rows_no_index (self : resolver) (description : list string) :
  forall rows ds pending,
    fetch_rows self description rows = (Ret ds, pending) ->
    Forall (fun r => r !! "index" = None) ds.
Proof.
  induction rows as [|row rows IH]; intros ds pending H; cbn [fetch_rows] in H.
  - simplify_eq. constructor.
  - destruct (dict_factory self description row) as [d|e] eqn:Hd; [|discriminate].
    destruct (fetch_rows self description rows) as [[ds'|e] pending'] eqn:Hr; [|discriminate].
    simplify_eq. constructor.
    + eapply dict_factory_loop_no_index; [|exact Hd]. apply lookup_empty.
    + eapply IH. reflexivity.
Qed.

(** Fetching well-formed rows returns one record per row and leaves
    nothing pending. *)
Lemma fetch_rows_total (self : resolver) (description : list string) :
  typed (types self) description ->
  forall rows,
    Forall (fun row => length row = length description) rows ->
    exists ds, fetch_rows self description rows = (Ret ds, []).
Proof.
  intros Hty. induction rows as [|row rows IH]; intros Hrows.
  - exists []. reflexivity.
  - apply Forall_cons in Hrows as [Hrow Hrows]. cbn [fetch_rows].
    destruct (dict_factory_loop_total (types self) row description 0 ∅ Hty ltac:(lia))
      as [d Hd].
    unfold dict_factory. rewrite Hd. destruct (IH Hrows) as [ds Hds]. rewrite Hds.
    exists (d :: ds). reflexivity.
Qed.

(** What [locate] returns, field by field. *)
Lemma locate_fields (results : list (gmap string cell)) (d : gmap string cell) :
  locate results = Ret d ->
  exists r0 rest lat lon,
    results = r0 :: rest /\
    r0 !! "latitude" = Some lat /\
    r0 !! "longitude" = Some lon /\
    d !! "location" = Some (CStr (coordinate lat lon)) /\
    is_Some (d !! "representative_point") /\
    (rest = [] -> d !! "representative_point" = Some (CStr (coordinate lat lon))) /\
    (forall k, k <> "location" -> k <> "representative_point" -> d !! k = r0 !! k).
Proof.
  destruct results as [|r0 rest]; [discriminate|].
  unfold locate, getitem. cbn [obind].
  destruct (r0 !! "latitude") as [lat|] eqn:Hlat; [|discriminate].
  destruct (r0 !! "longitude") as [lon|] eqn:Hlon; [|discriminate].
  cbn [obind]. intros H. exists r0, rest, lat, lon.
  split; [reflexivity|]. split; [exact Hlat|]. split; [exact Hlon|].
  destruct rest as [|r1 rest'].
  - cbn in H. injection H as <-.
    rewrite lookup_insert_ne by discriminate. rewrite !lookup_insert_eq.
    split; [reflexivity|]. split; [eexists; reflexivity|]. split; [reflexivity|].
    intros k Hk1 Hk2. rewrite !lookup_insert_ne by congruence. reflexivity.
  - cbn [length Nat.ltb Nat.leb] in H.
    destruct (geo_points _) as [pts|e]; [|discriminate]. cbn [obind] in H.
    destruct (representative_point pts) as [[repr_lat repr_lon]|]; [|discriminate].
    injection H as <-.
    rewrite lookup_insert_eq. do 2 rewrite lookup_insert_ne by discriminate.
    rewrite lookup_insert_eq.
    split; [reflexivity|]. split; [eexists; reflexivity|]. split; [discriminate|].
    intros k Hk1 Hk2. rewrite !lookup_insert_ne by congruence. reflexivity.
Qed.

Lemma drop_key_eq (k : string) (d : gmap string cell) :
  (if bool_decide (is_Some (d !! k)) then delete k d else d) !! k = None.
Proof.
  case_bool_decide as Hs.
  - apply lookup_delete_eq.
  - destruct (d !! k) eqn:E; [|reflexivity]. exfalso. apply Hs. eexists. reflexivity.
Qed.

Lemma drop_key_ne (k k' : string) (d : gmap string cell) :
  k <> k' ->
  (if bool_decide (is_Some (d !! k)) then delete k d else d) !! k' = d !! k'.
Proof.
  intros Hne. case_bool_decide; [apply lookup_delete_ne; exact Hne | reflexivity].
Qed.

(** Push a lookup through the updates of a record with constant keys. *)
Ltac lookups :=
  repeat first
    [ rewrite drop_key_eq
    | rewrite drop_key_ne by discriminate
    | rewrite lookup_delete_eq
    | rewrite lookup_insert_eq
    | rewrite lookup_delete_ne by discriminate
    | rewrite lookup_insert_ne by discriminate ].

(** The record a lookup shapes out of fetched rows has the shape of a
    result. *)
Lemma finish_shaped (v : variant) (results : list (gmap string cell)) (d : gmap string cell) :
  Forall (fun r => r !! "index" = None) results ->
  finish_of v results = Ret (Some d) ->
  shaped v d.
Proof.
  intros Hidx H.
  assert (Hloc : exists d1, locate results = Ret d1 /\
            match v with
            | CountryLevel_GeoDB =>
                exists d2 d3, delitem "latitude" d1 = Ret d2 /\ delitem "longitude" d2 = Ret d3 /\
                  d = (if bool_decide (is_Some (d3 !! "index")) then delete "index" d3 else d3)
            | ZIPLevel_GeoDB =>
                exists d2 d3, delitem "latitude" d1 = Ret d2 /\ delitem "longitude" d2 = Ret d3 /\
                  d = <["country_name" := CNone]> d3
            | ZIP_GeoIPDB =>
                d = drop_keys ["latitude"; "longitude"; "ip_from"; "ip_to"; "index"] d1
            end).
  { destruct v; cbn [finish_of] in H;
      unfold CountryLevel_finish, ZIPLevel_finish, ZIP_GeoIPDB_finish in H;
      destruct (length results =? 0)%nat; try discriminate;
      destruct (locate results) as [d1|e]; try discriminate; cbn [obind] in H;
      exists d1; (split; [reflexivity|]).
    - destruct (delitem "latitude" d1) as [d2|e] eqn:E2; [|discriminate]. cbn [obind] in H.
      destruct (delitem "longitude" d2) as [d3|e] eqn:E3; [|discriminate]. cbn [obind] in H.
      exists d2, d3. simplify_eq. auto.
    - destruct (delitem "latitude" d1) as [d2|e] eqn:E2; [|discriminate]. cbn [obind] in H.
      destruct (delitem "longitude" d2) as [d3|e] eqn:E3; [|discriminate]. cbn [obind] in H.
      exists d2, d3. simplify_eq. auto.
    - simplify_eq. reflexivity. }
  destruct Hloc as (d1 & Hd1 & Hv).
  destruct (locate_fields results d1 Hd1)
    as (r0 & rest & lat & lon & -> & Hlat & Hlon & Hl & [rp Hrp] & _ & Hother).
  apply Forall_cons in Hidx as [Hidx0 _].
  assert (Hdel : forall k d2 d3, delitem k d2 = Ret d3 -> d3 = delete k d2).
  { intros k d2 d3. unfold delitem. destruct (d2 !! k); congruence. }
  assert (Hindex : d1 !! "index" = None).
  { rewrite (Hother "index") by discriminate. exact Hidx0. }
  unfold shaped. destruct v.
  - destruct Hv as (d2 & d3 & H2 & H3 & ->).
    apply Hdel in H2, H3. subst d3 d2.
    repeat split; try discriminate; lookups;
      first [reflexivity | exact Hindex | rewrite Hl; eexists; reflexivity
            | rewrite Hrp; eexists; reflexivity].
  - destruct Hv as (d2 & d3 & H2 & H3 & ->).
    apply Hdel in H2, H3. subst d3 d2.
    repeat split; try discriminate; lookups;
      first [reflexivity | exact Hindex | rewrite Hl; eexists; reflexivity
            | rewrite Hrp; eexists; reflexivity].
  - subst d. unfold drop_keys. cbn [foldl].
    repeat split; lookups;
      first [reflexivity | exact Hindex | rewrite Hl; eexists; reflexivity
            | rewrite Hrp; eexists; reflexivity].
Qed.

(** Whatever [fetchall] returns went through the row factory. *)
Lemma cursor_fetchall_no_index (self : resolver) (s s' : state) results :
  cursor_fetchall self s = (Ret results, s') ->
  Forall (fun r => r !! "index" = None) results.
Proof.
  unfold cursor_fetchall.
  destruct (fetch_rows self (cur_description s) (cur_rows s)) as [o pending] eqn:Hf.
  intros H. injection H as -> _. eapply fetch_rows_no_index. exact Hf.
Qed.

Lemma run_plan_shaped (v : variant) (self : resolver) (p : plan) (s s' : state)
    (d : gmap string cell) :
  run_plan self p (finish_of v) s = (Ret (Some d), s') -> shaped v d.
Proof.
  assert (Hfetch : forall s0 s1,
            bind (cursor_fetchall self) (fun results => lift (finish_of v results)) s0
              = (Ret (Some d), s1) -> shaped v d).
  { intros s0 s1. unfold bind, lift.
    destruct (cursor_fetchall self s0) as [[results|e] s2] eqn:Hf; [|discriminate].
    intros H. injection H as H _.
    eapply finish_shaped; [|exact H]. eapply cursor_fetchall_no_index. exact Hf. }
  destruct p as [q | | |e]; cbn [run_plan].
  - unfold bind at 1. destruct (cursor_execute q s) as [[[]|e] s1]; [|discriminate].
    apply Hfetch.
  - apply Hfetch.
  - discriminate.
  - discriminate.
Qed.

Lemma _get_geodata_shaped (v : variant) (self : resolver) args kwargs (s s' : state)
    (d : gmap string cell) :
  _get_geodata v self args kwargs s = (Ret (Some d), s') -> shaped v d.
Proof.
  unfold _get_geodata. destruct (bind_params (signature v) args kwargs) as [ps|].
  - apply run_plan_shaped.
  - discriminate.
Qed.

Lemma cache_get_Forall (P : gmap string cell -> Prop) (key : list pyval)
    (c : list (list pyval * gmap string cell)) (d : gmap string cell) :
  Forall (fun e => P (snd e)) c -> cache_get key c = Some d -> P d.
Proof.
  induction c as [|[k d'] c IH]; intros Hall H; cbn [cache_get] in H; [discriminate|].
  apply Forall_cons in Hall as [Hd' Hall].
  destruct (key_eqb k key); [injection H as <-; exact Hd' | exact (IH Hall H)].
Qed.

Lemma cache_set_Forall (P : gmap string cell -> Prop) (key : list pyval)
    (c : list (list pyval * gmap string cell)) (d : gmap string cell) :
  Forall (fun e => P (snd e)) c -> P d -> Forall (fun e => P (snd e)) (cache_set key d c).
Proof.
  intros Hall Hd. induction c as [|[k d'] c IH]; cbn [cache_set].
  - repeat constructor. exact Hd.
  - apply Forall_cons in Hall as [Hd' Hall].
    destruct (key_eqb k key); constructor; auto.
Qed.

(** One call of [get_geodata] on a cache of well-shaped records returns
    a well-shaped record, if any, and leaves such a cache. *)
Lemma get_geodata_shaped (v : variant) (self : resolver) args kwargs (s : state) :
  Forall (fun e => shaped v (snd e)) (results_cache s) ->
  (forall d, fst (get_geodata v self args kwargs s) = Ret (Some d) -> shaped v d) /\
  Forall (fun e => shaped v (snd e)) (results_cache (snd (get_geodata v self args kwargs s))).
Proof.
  intros Hc. unfold get_geodata, bind, get_result_from_cache.
  destruct (forallb hashable (make_key args kwargs)); [|split; [discriminate | exact Hc]].
  destruct (cache_get (make_key args kwargs) (results_cache s)) as [d0|] eqn:Hget.
  - split; [|exact Hc]. cbn. intros d H. injection H as <-.
    eapply (cache_get_Forall (shaped v)); eauto.
  - pose proof (_get_geodata_cache v self args kwargs s) as Hsame.
    destruct (_get_geodata v self args kwargs s) as [[[d0|]|e] s1] eqn:Hg; cbn in Hsame |- *.
    + pose proof (_get_geodata_shaped v self args kwargs s s1 d0 Hg) as Hd0.
      split.
      * intros d H. injection H as <-. exact Hd0.
      * rewrite Hsame. apply cache_set_Forall; assumption.
    + split; [discriminate | rewrite Hsame; exact Hc].
    + split; [discriminate | rewrite Hsame; exact Hc].
Qed.

Lemma reachable_shaped (v : variant) (self : resolver) (s : state) :
  reachable v self s -> Forall (fun e => shaped v (snd e)) (results_cache s).
Proof.
  induction 1 as [|s args kwargs _ IH].
  - constructor.
  - apply get_geodata_shaped. exact IH.
Qed.

(** C9: whatever the state of the resolver, a record returned by
    [get_geodata] holds [location] and [representative_point] and holds
    neither [latitude], [longitude] nor [index], nor, for
    [ZIP_GeoIPDB], [ip_from] or [ip_to]. *)
Theorem C9_result_shape (v : variant) (self : resolver) args kwargs (s s' : state)
    (d : gmap string cell) :
  reachable v self s ->
  get_geodata v self args kwargs s = (Ret (Some d), s') ->
  is_Some (d !! "location") /\
  is_Some (d !! "representative_point") /\
  d !! "latitude" = None /\
  d !! "longitude" = None /\
  d !! "index" = None /\
  (v = ZIP_GeoIPDB -> d !! "ip_from" = None /\ d !! "ip_to" = None).
Proof.
  intros Hreach Hcall.
  destruct (get_geodata_shaped v self args kwargs s (reachable_shaped v self s Hreach))
    as [Hret _].
  apply Hret. rewrite Hcall. reflexivity.
Qed.

(** With an engine that keeps its word the cursor holds no unfetched
    row between two calls. *)
Lemma run_plan_drains (self : resolver) (p : plan) finish (s : state) :
  engine_ok self -> cur_rows s = [] ->
  cur_rows (snd (run_plan self p finish s)) = [].
Proof.
  intros Hok Hs. destruct p as [q | | |e]; cbn [run_plan]; try exact Hs.
  - unfold bind, cursor_execute.
    destruct (sqlite_execute q) as [|description rows] eqn:Hq; [reflexivity|].
    destruct (Hok q description rows Hq) as [Hrows Hty].
    destruct (fetch_rows_total self description Hty rows Hrows) as [ds Hds].
    unfold cursor_fetchall. cbn. rewrite Hds. reflexivity.
  - unfold bind, cursor_fetchall. rewrite Hs. reflexivity.
Qed.

Lemma get_geodata_drains (v : variant) (self : resolver) args kwargs (s : state) :
  engine_ok self -> cur_rows s = [] ->
  cur_rows (snd (get_geodata v self args kwargs s)) = [].
Proof.
  intros Hok Hs. unfold get_geodata, bind, get_result_from_cache.
  destruct (forallb hashable (make_key args kwargs)); [|exact Hs].
  destruct (cache_get (make_key args kwargs) (results_cache s)); [exact Hs|].
  assert (Hg : cur_rows (snd (_get_geodata v self args kwargs s)) = []).
  { unfold _get_geodata. destruct (bind_params (signature v) args kwargs).
    - apply run_plan_drains; assumption.
    - exact Hs. }
  destruct (_get_geodata v self args kwargs s) as [[[d0|]|e] s1]; exact Hg.
Qed.

Lemma reachable_drained (v : variant) (self : resolver) (s : state) :
  engine_ok self -> reachable v self s -> cur_rows s = [].
Proof.
  intros Hok. induction 1 as [|s args kwargs _ IH].
  - reflexivity.
  - apply get_geodata_drains; assumption.
Qed.

(** C5: in each of the three classes a lookup with a list of columns and
    a list of values of different lengths returns [None] and leaves the
    resolver as it was: no statement is executed.  [ZIPLevel_GeoDB] and
    [ZIP_GeoIPDB] return from their [else] branch; [CountryLevel_GeoDB]
    has none and goes on to [fetchall], which finds no row because no
    call leaves one unfetched. *)
Theorem C5_mismatched_lists (v : variant) (self : resolver) args kwargs
    (cols vals rest : list pyval) (s : state) :
  engine_ok self ->
  reachable v self s ->
  bind_params (signature v) args kwargs = Some (VList cols :: VList vals :: rest) ->
  length cols <> length vals ->
  _get_geodata v self args kwargs s = (Ret None, s) /\
  (forallb hashable (make_key args kwargs) = true ->
   cache_get (make_key args kwargs) (results_cache s) = None ->
   get_geodata v self args kwargs s = (Ret None, s)).
Proof.
  intros Hok Hreach Hps Hlen.
  assert (Hg : _get_geodata v self args kwargs s = (Ret None, s)).
  { pose proof (bind_params_length _ _ _ _ Hps) as Hn.
    pose proof (reachable_drained v self s Hok Hreach) as Hrows.
    apply Nat.eqb_neq in Hlen.
    unfold _get_geodata. rewrite Hps.
    destruct v; cbn in Hn.
    - destruct rest as [|multi_op [|? ?]]; try discriminate.
      cbn [plan_of CountryLevel_plan]. rewrite Hlen. cbn [run_plan].
      unfold bind, cursor_fetchall. rewrite Hrows. cbn.
      destruct s; cbn in *; subst; reflexivity.
    - destruct rest as [|multi_op [|? ?]]; try discriminate.
      cbn [plan_of ZIPLevel_plan]. rewrite Hlen. reflexivity.
    - destruct rest as [|multi_op [|str_ip [|? ?]]]; try discriminate.
      cbn [plan_of]. unfold ZIP_GeoIPDB_plan. cbn [py_eqb]. rewrite Hlen. reflexivity. }
  split; [exact Hg|].
  intros Hh Hmiss. rewrite (get_geodata_miss v self args kwargs s Hh Hmiss), Hg. reflexivity.
Qed.



End Invariants.

(** ** The sample table as an instance *)

Lemma sample_typed : typed (types Sample.geoip) Sample.description.
Proof.
  unfold typed, Sample.description.
  repeat (apply Forall_cons; split;
          [first [left; reflexivity | right; eexists; vm_compute; reflexivity]|]).
  apply Forall_nil_2.
Qed.

Lemma sample_engine_ok : engine_ok Sample.geoip.
Proof.
  intros q description rows H. cbn [sqlite_execute Sample.runtime] in H.
  unfold Sample.execute in H. injection H as <- <-.
  split; [|exact sample_typed].
  repeat case_match; repeat constructor.
Qed.

(** Two columns against one value. *)
Lemma C5_mismatched_lists_witness :
  _get_geodata ZIP_GeoIPDB Sample.geoip
    [VList [VStr "country_code"; VStr "zip_code"]; VList [VStr "MX"]] [] init_state
    = (Ret None, init_state) /\
  (forallb hashable
     (make_key [VList [VStr "country_code"; VStr "zip_code"]; VList [VStr "MX"]] []) = true ->
   cache_get
     (make_key [VList [VStr "country_code"; VStr "zip_code"]; VList [VStr "MX"]] [])
     (results_cache init_state) = None ->
   get_geodata ZIP_GeoIPDB Sample.geoip
     [VList [VStr "country_code"; VStr "zip_code"]; VList [VStr "MX"]] [] init_state
     = (Ret None, init_state)).
Proof.
  apply (C5_mismatched_lists ZIP_GeoIPDB Sample.geoip
           [VList [VStr "country_code"; VStr "zip_code"]; VList [VStr "MX"]] []
           [VStr "country_code"; VStr "zip_code"] [VStr "MX"]
           [VStr "AND"; VBool true] init_state).
  - exact sample_engine_ok.
  - apply reach_init.
  - reflexivity.
  - cbn. lia.
Defined.



(** The country code [MX] matches the row of Monterrey. *)
Lemma C9_result_shape_witness :
  exists d s',
    get_geodata ZIP_GeoIPDB Sample.geoip [VStr "country_code"; VStr "MX"] [] init_state
      = (Ret (Some d), s') /\
    is_Some (d !! "location") /\
    is_Some (d !! "representative_point") /\
    d !! "latitude" = None /\
    d !! "longitude" = None /\
    d !! "index" = None /\
    (ZIP_GeoIPDB = ZIP_GeoIPDB -> d !! "ip_from" = None /\ d !! "ip_to" = None).
Proof.
  destruct (get_geodata ZIP_GeoIPDB Sample.geoip [VStr "country_code"; VStr "MX"] []
              init_state) as [[[d|]|e] s'] eqn:Hcall;
    [|vm_compute in Hcall; discriminate|vm_compute in Hcall; discriminate].
  exists d, s'. split; [reflexivity|].
  apply (C9_result_shape ZIP_GeoIPDB Sample.geoip [VStr "country_code"; VStr "MX"] []
           init_state s' d).
  - apply reach_init.
  - exact Hcall.
Defined.

(** ** The sample table, end to end *)

(** An address inside the first range is answered with the row of that
    range. *)
Example sample_inside :
  match fst (get_geodata ZIP_GeoIPDB Sample.geoip [VStr "ip"; VStr "0.0.0.5"] [] init_state) with
  | Ret (Some d) => d !! "place_name"
  | _ => None
  end = Some (CStr "MONTERREY").
Proof. vm_compute. reflexivity. Qed.

(** The last address of the first range is answered with the row of the
    second range. *)
Example sample_boundary :
  match fst (get_geodata ZIP_GeoIPDB Sample.geoip [VStr "ip"; VStr "0.0.0.10"] [] init_state) with
  | Ret (Some d) => d !! "place_name"
  | _ => None
  end = Some (CStr "MADRID").
Proof. vm_compute. reflexivity. Qed.

(** A record is cached: the same query a second time executes nothing. *)
Example sample_cached :
  executed
    (snd (get_geodata ZIP_GeoIPDB Sample.geoip [VStr "ip"; VStr "0.0.0.5"] []
            (snd (get_geodata ZIP_GeoIPDB Sample.geoip [VStr "ip"; VStr "0.0.0.5"] []
                    init_state))))
  = [Sample.where_eq "ip_to" "10"].
Proof. vm_compute. reflexivity. Qed.

(** The list form of a query is built and answered like the single
    form, under a key of its own. *)
Example sample_list_form :
  executed
    (snd (get_geodata ZIP_GeoIPDB Sample.geoip
            [VList [VStr "country_code"]; VList [VStr "MX"]] []
            (snd (get_geodata ZIP_GeoIPDB Sample.geoip [VStr "country_code"; VStr "MX"] []
                    init_state))))
  = [Sample.where_eq "country_code" "MX";
     "SELECT * FROM geoip WHERE " +:+ dq +:+ "country_code" +:+ dq +:+ " = "
       +:+ dq +:+ "MX" +:+ dq].
Proof. vm_compute. reflexivity. Qed.

(** ** More about the result cache *)

Section CacheLaws.
Context {RT : Runtime}.

Lemma py_eqb_refl : forall a : pyval, py_eqb a a = true.
Proof.
  fix IH 1. intros a.
  assert (Hall : forall l : list pyval,
            (fix all2 (xs ys : list pyval) {struct xs} : bool :=
               match xs, ys with
               | [], [] => true
               | x :: xs', y :: ys' => py_eqb x y && all2 xs' ys'
               | _, _ => false
               end) l l = true).
  { fix IHl 1. intros l. destruct l as [|x l]; [reflexivity|].
    rewrite (IH x), (IHl l). reflexivity. }
  destruct a as [|b|z|s0|l|l]; cbn.
  - reflexivity.
  - destruct b; reflexivity.
  - apply Z.eqb_refl.
  - apply String.eqb_refl.
  - apply Hall.
  - apply Hall.
Qed.

Lemma key_eqb_refl (key : list pyval) : key_eqb key key = true.
Proof.
  induction key as [|a key IH]; [reflexivity|].
  cbn [key_eqb]. rewrite py_eqb_refl, IH. reflexivity.
Qed.

Lemma cache_get_set_same (key : list pyval) (d : gmap string cell)
    (c : list (list pyval * gmap string cell)) :
  cache_get key (cache_set key d c) = Some d.
Proof.
  induction c as [|[k d'] c IH]; cbn [cache_set cache_get].
  - rewrite key_eqb_refl. reflexivity.
  - destruct (key_eqb k key) eqn:Hk; cbn [cache_get]; rewrite Hk; [reflexivity | exact IH].
Qed.

Lemma cache_get_set_kept (key k' : list pyval) (d d' : gmap string cell)
    (c : list (list pyval * gmap string cell)) :
  cache_get key c = None ->
  cache_get k' c = Some d' ->
  cache_get k' (cache_set key d c) = Some d'.
Proof.
  induction c as [|[k dk] c IH]; cbn [cache_set cache_get]; intros Hmiss Hk'.
  - discriminate.
  - destruct (key_eqb k key) eqn:Hk; [discriminate|].
    cbn [cache_get]. destruct (key_eqb k k'); [exact Hk' | exact (IH Hmiss Hk')].
Qed.

(** How [get_geodata] comes to return a record: from the cache, or from
    the lookup followed by the cache write. *)
Lemma get_geodata_record (v : variant) (self : resolver) args kwargs (s s1 : state)
    (d : gmap string cell) :
  get_geodata v self args kwargs s = (Ret (Some d), s1) ->
  forallb hashable (make_key args kwargs) = true /\
  ((cache_get (make_key args kwargs) (results_cache s) = Some d /\ s1 = s) \/
   (cache_get (make_key args kwargs) (results_cache s) = None /\
    exists s', _get_geodata v self args kwargs s = (Ret (Some d), s') /\
               s1 = snd (add_result_to_cache (make_key args kwargs) d s'))).
Proof.
  unfold get_geodata, bind, get_result_from_cache.
  destruct (forallb hashable (make_key args kwargs)); [|discriminate].
  destruct (cache_get (make_key args kwargs) (results_cache s)) as [d0|] eqn:Hget.
  - cbn. intros H. injection H as <- <-. split; [reflexivity|]. left. split; reflexivity.
  - destruct (_get_geodata v self args kwargs s) as [[[d0|]|e] s'] eqn:Hg; cbn;
      intros H; try discriminate.
    injection H as <- <-. split; [reflexivity|]. right. split; [reflexivity|].
    exists s'. split; reflexivity.
Qed.

Lemma get_geodata_cached_after (v : variant) (self : resolver) args kwargs (s s1 : state)
    (d : gmap string cell) :
  get_geodata v self args kwargs s = (Ret (Some d), s1) ->
  forallb hashable (make_key args kwargs) = true /\
  cache_get (make_key args kwargs) (results_cache s1) = Some d.
Proof.
  intros H. destruct (get_geodata_record v self args kwargs s s1 d H)
    as [Hh [[Hhit ->]|[Hmiss (s' & Hg & ->)]]].
  - split; assumption.
  - split; [exact Hh|]. cbn. apply cache_get_set_same.
Qed.

(** X1: a query that was answered with a record is answered with the
    same record when it is repeated, out of the cache: the second call
    executes no statement and leaves the resolver as it was. *)
Theorem repeated_query_from_cache (v : variant) (self : resolver) args kwargs
    (s s1 : state) (d : gmap string cell) :
  get_geodata v self args kwargs s = (Ret (Some d), s1) ->
  get_geodata v self args kwargs s1 = (Ret (Some d), s1).
Proof.
  intros H. destruct (get_geodata_cached_after v self args kwargs s s1 d H) as [Hh Hc].
  apply get_geodata_hit; assumption.
Qed.

(** X2: the cache never loses or changes an answer: a key found in the
    cache before a call of [get_geodata], whatever the call and however
    it ends, is found after it with the same record. *)
Theorem cached_answer_kept (v : variant) (self : resolver) args kwargs (s : state)
    (key : list pyval) (d : gmap string cell) :
  cache_get key (results_cache s) = Some d ->
  cache_get key (results_cache (snd (get_geodata v self args kwargs s))) = Some d.
Proof.
  intros Hkey. unfold get_geodata, bind, get_result_from_cache.
  destruct (forallb hashable (make_key args kwargs)); [|exact Hkey].
  destruct (cache_get (make_key args kwargs) (results_cache s)) as [d0|] eqn:Hget;
    [exact Hkey|].
  pose proof (_get_geodata_cache v self args kwargs s) as Hsame.
  destruct (_get_geodata v self args kwargs s) as [[[d0|]|e] s'] eqn:Hg;
    cbn in Hsame |- *; rewrite Hsame; try exact Hkey.
  apply cache_get_set_kept; assumption.
Qed.

(** X4: the key of a call with two tuples is the key of the call with
    the two lists of the same elements.  Once the list form has been
    answered with a record, the tuple form is answered with that record
    out of the cache, although the lookup of the tuple form itself,
    which takes no branch for tuples, yields no record. *)
Theorem tuple_form_served_from_list_form (v : variant) (self : resolver)
    (cols vals : list pyval) kwargs (s s1 : state) (d : gmap string cell) :
  engine_ok self ->
  reachable v self s ->
  get_geodata v self [VList cols; VList vals] kwargs s = (Ret (Some d), s1) ->
  get_geodata v self [VTuple cols; VTuple vals] kwargs s1 = (Ret (Some d), s1) /\
  forall d', fst (_get_geodata v self [VTuple cols; VTuple vals] kwargs s1) <> Ret (Some d').
Proof.
  intros Hok Hreach H.
  destruct (get_geodata_cached_after v self _ kwargs s s1 d H) as [Hh Hc].
  split; [apply get_geodata_hit; assumption|].
  assert (Hreach1 : reachable v self s1).
  { replace s1 with (snd (get_geodata v self [VList cols; VList vals] kwargs s))
      by (rewrite H; reflexivity).
    apply reach_call. exact Hreach. }
  pose proof (reachable_drained v self s1 Hok Hreach1) as Hrows.
  intros d'. unfold _get_geodata.
  destruct (bind_params (signature v) [VTuple cols; VTuple vals] kwargs) as [ps|] eqn:Hps;
    [|discriminate].
  pose proof (bind_params_length _ _ _ _ Hps) as Hn.
  assert (Hhead : exists rest, ps = VTuple cols :: VTuple vals :: rest).
  { unfold bind_params in Hps. destruct (forallb _ kwargs); [|discriminate].
    destruct v; cbn in Hps;
      repeat (match type of Hps with
              | context [kw_get ?n ?k] => destruct (kw_get n k)
              end; try discriminate);
      cbn in Hps; simplify_eq; eexists; reflexivity. }
  destruct Hhead as [rest ->].
  destruct v; cbn in Hn.
  - destruct rest as [|multi_op [|? ?]]; try discriminate Hn.
    cbn [plan_of CountryLevel_plan run_plan].
    unfold bind, cursor_fetchall. rewrite Hrows. cbn. discriminate.
  - destruct rest as [|multi_op [|? ?]]; try discriminate Hn.
    cbn. discriminate.
  - destruct rest as [|multi_op [|str_ip [|? ?]]]; try discriminate Hn.
    cbn. discriminate.
Qed.

End CacheLaws.

(** ** More about the lookups *)

Section Lookups.
Context {RT : Runtime}.

Local Open Scope Z_scope.

Ltac lookups :=
  repeat first
    [ rewrite drop_key_eq
    | rewrite drop_key_ne by discriminate
    | rewrite lookup_delete_eq
    | rewrite lookup_insert_eq
    | rewrite lookup_delete_ne by discriminate
    | rewrite lookup_insert_ne by discriminate ].

Lemma run_plan_executed (self : resolver) (p : plan) finish (s : state) :
  executed (snd (run_plan self p finish s)) =
    match p with
    | Execute q => (executed s ++ [q])%list
    | _ => executed s
    end.
Proof.
  destruct p as [q | | |e]; cbn; try reflexivity.
  - unfold bind, cursor_execute. destruct (sqlite_execute q) as [|description rows]; cbn.
    + reflexivity.
    + unfold cursor_fetchall. cbn.
      destruct (fetch_rows self description rows) as [[ds|e] pending]; reflexivity.
  - unfold bind, cursor_fetchall.
    destruct (fetch_rows self (cur_description s) (cur_rows s)) as [[ds|e] pending]; reflexivity.
Qed.

(** Every statement a lookup builds selects from the table of the
    resolver. *)
Lemma plan_of_select (v : variant) (self : resolver) (ps : list pyval) (q : string) :
  plan_of v self ps = Execute q ->
  exists rest, q = "SELECT * FROM " +:+ name self +:+ " WHERE " +:+ rest.
Proof.
  intros H.
  destruct v; destruct ps as [|column [|value [|multi_op [|str_ip [|? ?]]]]];
    cbn [plan_of] in H; try discriminate.
  - unfold CountryLevel_plan in H. repeat case_match; simplify_eq;
      unfold select_eq, select_multi; eexists; reflexivity.
  - unfold ZIPLevel_plan in H. repeat case_match; simplify_eq;
      unfold select_match; eexists; reflexivity.
  - unfold ZIP_GeoIPDB_plan, ip_plan in H. repeat case_match; simplify_eq;
      unfold select_eq, select_multi; eexists; reflexivity.
Qed.

(** X3: a call of [get_geodata] passes at most one statement to the
    store, and that statement starts with [SELECT * FROM], the name of
    the table of the resolver and [WHERE]. *)
Theorem lookup_only_selects (v : variant) (self : resolver) args kwargs (s : state) :
  executed (snd (get_geodata v self args kwargs s)) = executed s \/
  exists rest,
    executed (snd (get_geodata v self args kwargs s))
      = (executed s ++ ["SELECT * FROM " +:+ name self +:+ " WHERE " +:+ rest])%list.
Proof.
  assert (Hg : executed (snd (_get_geodata v self args kwargs s)) = executed s \/
               exists rest,
                 executed (snd (_get_geodata v self args kwargs s))
                   = (executed s ++ ["SELECT * FROM " +:+ name self +:+ " WHERE " +:+ rest])%list).
  { unfold _get_geodata. destruct (bind_params (signature v) args kwargs) as [ps|];
      [|left; reflexivity].
    rewrite run_plan_executed. destruct (plan_of v self ps) as [q| | |e] eqn:Hp;
      try (left; reflexivity).
    destruct (plan_of_select v self ps q Hp) as [rest ->]. right. exists rest. reflexivity. }
  unfold get_geodata, bind, get_result_from_cache.
  destruct (forallb hashable (make_key args kwargs)); [|left; reflexivity].
  destruct (cache_get (make_key args kwargs) (results_cache s)); [left; reflexivity|].
  destruct (_get_geodata v self args kwargs s) as [[[d0|]|e] s']; exact Hg.
Qed.

(** A statement whose rows all pass the row factory: the lookup is the
    shaping of the records. *)
Lemma run_plan_fetched (self : resolver) (q : string) finish (description : list string)
    (rows pending : list (list sqlval)) (results : list (gmap string cell)) (s : state) :
  sqlite_execute q = SqlRows description rows ->
  fetch_rows self description rows = (Ret results, pending) ->
  run_plan self (Execute q) finish s =
    (finish results,
     {| cur_description := description; cur_rows := pending;
        results_cache := results_cache s; executed := (executed s ++ [q])%list |}).
Proof.
  intros Hq Hf. cbn [run_plan]. unfold bind, cursor_execute. rewrite Hq.
  unfold cursor_fetchall. cbn [cur_description cur_rows results_cache executed].
  rewrite Hf. reflexivity.
Qed.

(** X5: when the first record of a result has no [latitude] (the row
    factory leaves the field out when its value is not a number), the
    lookup raises [KeyError] out of [results[0]['latitude']];
    [get_geodata] lets it through and caches nothing. *)
Theorem missing_latitude_raises (v : variant) (self : resolver) args kwargs ps (q : string)
    (description : list string) (rows pending : list (list sqlval))
    (r0 : gmap string cell) (rest : list (gmap string cell)) (s : state) :
  forallb hashable (make_key args kwargs) = true ->
  cache_get (make_key args kwargs) (results_cache s) = None ->
  bind_params (signature v) args kwargs = Some ps ->
  plan_of v self ps = Execute q ->
  sqlite_execute q = SqlRows description rows ->
  fetch_rows self description rows = (Ret (r0 :: rest), pending) ->
  r0 !! "latitude" = None ->
  exists s',
    get_geodata v self args kwargs s = (Raise (KeyError "latitude"), s') /\
    results_cache s' = results_cache s.
Proof.
  intros Hh Hmiss Hps Hplan Hq Hf Hlat.
  rewrite (get_geodata_miss v self args kwargs s Hh Hmiss).
  unfold _get_geodata. rewrite Hps, Hplan.
  rewrite (run_plan_fetched self q (finish_of v) description rows pending (r0 :: rest) s Hq Hf).
  assert (Hfin : finish_of v (r0 :: rest) = Raise (KeyError "latitude")).
  { destruct v; cbn [finish_of];
      unfold CountryLevel_finish, ZIPLevel_finish, ZIP_GeoIPDB_finish, locate, getitem;
      cbn [length Nat.eqb]; rewrite Hlat; reflexivity. }
  rewrite Hfin. eexists. split; reflexivity.
Qed.

Lemma geo_points_head (r0 d : gmap string cell) (rest : list (gmap string cell)) :
  d !! "latitude" = r0 !! "latitude" ->
  d !! "longitude" = r0 !! "longitude" ->
  geo_points (d :: rest) = geo_points (r0 :: rest).
Proof.
  intros Hlat Hlon. cbn [geo_points]. unfold getitem. rewrite Hlat, Hlon. reflexivity.
Qed.

Lemma geo_points_cons (r : gmap string cell) (rest : list (gmap string cell))
    (lat lon : cell) (pts : list (cell * cell)) :
  geo_points (r :: rest) = Ret ((lat, lon) :: pts) ->
  r !! "latitude" = Some lat /\ r !! "longitude" = Some lon.
Proof.
  change (geo_points (r :: rest))
    with (obind (getitem r "latitude") (fun a =>
          obind (getitem r "longitude") (fun b =>
          obind (geo_points rest) (fun ps => Ret ((a, b) :: ps))))).
  unfold getitem.
  destruct (r !! "latitude") as [a|]; [|discriminate].
  destruct (r !! "longitude") as [b|]; [|discriminate].
  cbn [obind]. destruct (geo_points rest) as [ps|e]; [|discriminate].
  cbn [obind]. intros H. simplify_eq. split; reflexivity.
Qed.

(** The comprehension over rows that all have their coordinates. *)
Lemma geo_points_Forall2 (rs : list (gmap string cell)) (pts : list (cell * cell)) :
  Forall2 (fun r p => r !! "latitude" = Some (fst p) /\ r !! "longitude" = Some (snd p))
          rs pts ->
  geo_points rs = Ret pts.
Proof.
  induction 1 as [|r [a b] rs pts [Ha Hb] _ IH]; [reflexivity|].
  change (geo_points (r :: rs))
    with (obind (getitem r "latitude") (fun a =>
          obind (getitem r "longitude") (fun b =>
          obind (geo_points rs) (fun ps => Ret ((a, b) :: ps))))).
  unfold getitem. cbn [fst snd] in Ha, Hb. rewrite Ha, Hb, IH. reflexivity.
Qed.

(** X6: when a statement matches several rows that all have their
    coordinates, the record returned is built on the first row:
    [location] is the text ['{},{}'.format(latitude, longitude)] of the
    first row, [representative_point] is the point shapely computes
    from the coordinates of all the rows, in the order of the rows,
    [latitude], [longitude] and [index] are not in the record, and
    every other field is the one of the first row, but for
    [country_name], which [ZIPLevel_GeoDB] sets to [None], and
    [ip_from] and [ip_to], which [ZIP_GeoIPDB] deletes. *)
Theorem several_rows_first_location (v : variant) (self : resolver) args kwargs ps
    (q : string) (description : list string) (rows pending : list (list sqlval))
    (r0 r1 : gmap string cell) (rest : list (gmap string cell))
    (lat lon : cell) (pts : list (cell * cell)) (repr_lat repr_lon : float) (s : state) :
  bind_params (signature v) args kwargs = Some ps ->
  plan_of v self ps = Execute q ->
  sqlite_execute q = SqlRows description rows ->
  fetch_rows self description rows = (Ret (r0 :: r1 :: rest), pending) ->
  r0 !! "latitude" = Some lat ->
  r0 !! "longitude" = Some lon ->
  Forall2 (fun r p => r !! "latitude" = Some (fst p) /\ r !! "longitude" = Some (snd p))
          (r1 :: rest) pts ->
  representative_point ((lat, lon) :: pts) = Some (repr_lat, repr_lon) ->
  exists d s',
    _get_geodata v self args kwargs s = (Ret (Some d), s') /\
    d !! "location"
      = Some (CStr (match lat with
                    | CNone => "None"
                    | CInt z => pretty z
                    | CFloat f => format_float f
                    | CStr t => t
                    end
                    +:+ "," +:+
                    match lon with
                    | CNone => "None"
                    | CInt z => pretty z
                    | CFloat f => format_float f
                    | CStr t => t
                    end)) /\
    d !! "representative_point"
      = Some (CStr (format_float repr_lat +:+ "," +:+ format_float repr_lon)) /\
    d !! "latitude" = None /\
    d !! "longitude" = None /\
    d !! "index" = None /\
    match v with
    | CountryLevel_GeoDB =>
        forall k, k ∉ ["location"; "representative_point"; "latitude"; "longitude"] ->
                  d !! k = r0 !! k
    | ZIPLevel_GeoDB =>
        d !! "country_name" = Some CNone /\
        forall k, k ∉ ["location"; "representative_point"; "latitude"; "longitude";
                       "country_name"] ->
                  d !! k = r0 !! k
    | ZIP_GeoIPDB =>
        d !! "ip_from" = None /\
        d !! "ip_to" = None /\
        forall k, k ∉ ["location"; "representative_point"; "latitude"; "longitude";
                       "ip_from"; "ip_to"] ->
                  d !! k = r0 !! k
    end.
Proof.
  intros Hps Hplan Hq Hf Hlat Hlon Hrest Hrepr.
  assert (Hidx : r0 !! "index" = None).
  { pose proof (fetch_rows_no_index self description rows _ pending Hf) as Hall.
    inversion Hall; assumption. }
  assert (Hpts : geo_points (r0 :: r1 :: rest) = Ret ((lat, lon) :: pts)).
  { apply geo_points_Forall2. constructor; [split; assumption | exact Hrest]. }
  set (loc := CStr (coordinate lat lon)).
  set (d0 := <["representative_point" := loc]> (<["location" := loc]> r0)).
  set (d1 := <["representative_point" :=
                 CStr (format_float repr_lat +:+ "," +:+ format_float repr_lon)]> d0).
  assert (Hloc : locate (r0 :: r1 :: rest) = Ret d1).
  { unfold locate. unfold getitem at 1 2. rewrite Hlat, Hlon. cbn [obind].
    cbn [length Nat.ltb Nat.leb]. fold loc. fold d0.
    rewrite (geo_points_head r0 d0 (r1 :: rest)); [| unfold d0; lookups; reflexivity
                                                   | unfold d0; lookups; reflexivity].
    rewrite Hpts. cbn [obind]. rewrite Hrepr. reflexivity. }
  assert (H1 : delitem "latitude" d1 = Ret (delete "latitude" d1)).
  { unfold delitem, d1, d0. lookups. rewrite Hlat. reflexivity. }
  assert (H2 : delitem "longitude" (delete "latitude" d1)
               = Ret (delete "longitude" (delete "latitude" d1))).
  { unfold delitem, d1, d0. lookups. rewrite Hlon. reflexivity. }
  assert (Hk : forall (k : string) (l : list string), k ∉ l -> Forall (fun k' => k <> k') l).
  { intros k l Hnot. apply Forall_forall. intros k' Hin ->. exact (Hnot Hin). }
  assert (Hfin : exists d, finish_of v (r0 :: r1 :: rest) = Ret (Some d) /\
            d !! "location" = Some loc /\
            d !! "representative_point"
              = Some (CStr (format_float repr_lat +:+ "," +:+ format_float repr_lon)) /\
            d !! "latitude" = None /\
            d !! "longitude" = None /\
            d !! "index" = None /\
            match v with
            | CountryLevel_GeoDB =>
                forall k, k ∉ ["location"; "representative_point"; "latitude"; "longitude"] ->
                          d !! k = r0 !! k
            | ZIPLevel_GeoDB =>
                d !! "country_name" = Some CNone /\
                forall k, k ∉ ["location"; "representative_point"; "latitude"; "longitude";
                               "country_name"] ->
                          d !! k = r0 !! k
            | ZIP_GeoIPDB =>
                d !! "ip_from" = None /\
                d !! "ip_to" = None /\
                forall k, k ∉ ["location"; "representative_point"; "latitude"; "longitude";
                               "ip_from"; "ip_to"] ->
                          d !! k = r0 !! k
            end).
  { destruct v; cbn [finish_of];
      unfold CountryLevel_finish, ZIPLevel_finish, ZIP_GeoIPDB_finish;
      cbn [length Nat.eqb]; rewrite Hloc; cbn [obind].
    - rewrite H1. cbn [obind]. rewrite H2. cbn [obind].
      eexists. split; [reflexivity|]. unfold d1, d0.
      split; [lookups; reflexivity|]. split; [lookups; reflexivity|].
      split; [lookups; reflexivity|]. split; [lookups; reflexivity|].
      split; [lookups; reflexivity|].
      intros k Hnot. apply Hk in Hnot.
      repeat match goal with H : Forall _ (_ :: _) |- _ =>
               apply Forall_cons in H; destruct H as [? H] end.
      destruct (decide (k = "index")) as [->|Hi].
      + rewrite drop_key_eq. symmetry. exact Hidx.
      + rewrite drop_key_ne by congruence. rewrite !lookup_delete_ne by congruence.
        rewrite !lookup_insert_ne by congruence. reflexivity.
    - rewrite H1. cbn [obind]. rewrite H2. cbn [obind].
      eexists. split; [reflexivity|]. unfold d1, d0.
      split; [lookups; reflexivity|]. split; [lookups; reflexivity|].
      split; [lookups; reflexivity|]. split; [lookups; reflexivity|].
      split; [lookups; exact Hidx|].
      split; [lookups; reflexivity|].
      intros k Hnot. apply Hk in Hnot.
      repeat match goal with H : Forall _ (_ :: _) |- _ =>
               apply Forall_cons in H; destruct H as [? H] end.
      rewrite lookup_insert_ne by congruence. rewrite !lookup_delete_ne by congruence.
      rewrite !lookup_insert_ne by congruence. reflexivity.
    - eexists. split; [reflexivity|]. unfold drop_keys, d1, d0. cbn [foldl].
      split; [lookups; reflexivity|]. split; [lookups; reflexivity|].
      split; [lookups; reflexivity|]. split; [lookups; reflexivity|].
      split; [lookups; reflexivity|].
      split; [lookups; reflexivity|]. split; [lookups; reflexivity|].
      intros k Hnot. apply Hk in Hnot.
      repeat match goal with H : Forall _ (_ :: _) |- _ =>
               apply Forall_cons in H; destruct H as [? H] end.
      destruct (decide (k = "index")) as [->|Hi].
      + rewrite drop_key_eq. symmetry. exact Hidx.
      + rewrite !drop_key_ne by congruence.
        rewrite !lookup_insert_ne by congruence. reflexivity. }
  destruct Hfin as (d & Hd & Hl & Hrest').
  exists d. eexists. split; [|split; [exact Hl | exact Hrest']].
  unfold _get_geodata. rewrite Hps, Hplan.
  rewrite (run_plan_fetched self q (finish_of v) description rows pending _ s Hq Hf).
  rewrite Hd. reflexivity.
Qed.

(** In a well-formed range table a value lies in one row only. *)
Lemma between_scan_row (table : list (Z * Z)) (x : Z) :
  ranges_ok table ->
  forall i ip_from ip_to,
    table !! i = Some (ip_from, ip_to) -> ip_from <= x <= ip_to ->
    between_scan table x = Some i.
Proof.
  induction table as [|[f t] rest IH]; intros Hok i ip_from ip_to Hrow Hx.
  - discriminate.
  - destruct Hok as (Hft & Hbelow & Hok). rewrite Forall_forall in Hbelow.
    cbn [between_scan]. destruct i as [|i]; cbn in Hrow.
    + injection Hrow as -> ->.
      destruct (Z.leb_spec ip_from x); [|lia]. destruct (Z.leb_spec x ip_to); [|lia].
      reflexivity.
    + assert (Hin : (ip_from, ip_to) ∈ rest) by (eapply list_elem_of_lookup_2; exact Hrow).
      pose proof (Hbelow _ Hin) as Hb. cbn [fst] in Hb.
      destruct (Z.leb_spec f x); cbn [andb].
      * destruct (Z.leb_spec x t); [lia|].
        rewrite (IH Hok i ip_from ip_to Hrow Hx). reflexivity.
      * rewrite (IH Hok i ip_from ip_to Hrow Hx). reflexivity.
Qed.

(** X7: over a well-formed range table, an address whose integer lies
    in a range and below its upper bound is looked up with the
    statement that selects the upper bound of that range. *)
Theorem address_inside_range (self : resolver) (table : list (Z * Z)) (ip : string)
    (x : Z) (i : nat) (ip_from ip_to : Z) (multi_op : pyval) :
  ranges_ok table ->
  ip_int_to_list self = map snd table ->
  ip2int ip = Some x ->
  table !! i = Some (ip_from, ip_to) ->
  ip_from <= x < ip_to ->
  ZIP_GeoIPDB_plan self (VStr "ip") (VStr ip) multi_op (VBool true)
    = Execute (select_eq self "ip_to" (VInt ip_to)).
Proof.
  intros Hok Harr Hip Hrow Hx. unfold ZIP_GeoIPDB_plan. cbn. rewrite Hip.
  rewrite (ip_plan_between self table x i ip_from ip_to Hok Harr
             (between_scan_row table x Hok i ip_from ip_to Hrow ltac:(lia)) Hrow).
  destruct (Z.ltb_spec x ip_to); [reflexivity | lia].
Qed.

(** X13: over a sorted range array the statement of an address is the
    one a scan from the left chooses: it selects the first upper bound
    strictly greater than the integer of the address, and there is no
    statement but an [IndexError] when no bound is greater. *)
Theorem address_lookup_is_scan (self : resolver) (ip : string) (x : Z) (multi_op : pyval) :
  ascending (ip_int_to_list self) ->
  ip2int ip = Some x ->
  ZIP_GeoIPDB_plan self (VStr "ip") (VStr ip) multi_op (VBool true) =
    match ip_int_to_list self !! scan_right (ip_int_to_list self) x with
    | Some ip_to => Execute (select_eq self "ip_to" (VInt ip_to))
    | None => Fail IndexError
    end.
Proof.
  intros Hasc Hip. unfold ZIP_GeoIPDB_plan. cbn. rewrite Hip.
  destruct (ip_int_to_list self) as [|h a] eqn:Ha.
  - unfold ip_plan. rewrite Ha. reflexivity.
  - rewrite <- Ha in *. apply ip_plan_scan; [exact Hasc | rewrite Ha; discriminate].
Qed.

End Lookups.

(** ** More about the records *)

Section Records.
Context {RT : Runtime}.

Lemma coerce_has_type (t : pytype) (x : sqlval) (c : cell) :
  coerce t x = Some c -> has_type t c.
Proof.
  destruct t; cbn [coerce].
  - destruct (py_int x); cbn; intros H; simplify_eq. exact I.
  - destruct (py_float x); cbn; intros H; simplify_eq. exact I.
  - intros H. simplify_eq. exact I.
Qed.

Lemma dict_factory_loop_fields (tys : gmap string pytype) (row : list sqlval)
    (Q : string -> cell -> Prop) :
  forall (description : list string) (idx : nat) (d0 d : gmap string cell),
    (forall k c, d0 !! k = Some c -> Q k c) ->
    (forall k t x c, k ∈ description -> k <> "index" -> tys !! k = Some t ->
                     coerce t x = Some c -> Q k c) ->
    dict_factory_loop tys row idx description d0 = Ret d ->
    forall k c, d !! k = Some c -> Q k c.
Proof.
  induction description as [|k0 rest IH]; intros idx d0 d H0 Hnew H;
    cbn [dict_factory_loop] in H.
  - simplify_eq. exact H0.
  - assert (Hrest : forall k t x c, k ∈ rest -> k <> "index" -> tys !! k = Some t ->
                      coerce t x = Some c -> Q k c).
    { intros k t x c Hk. apply Hnew. right. exact Hk. }
    destruct (String.eqb_spec k0 "index") as [->|Hne]; [exact (IH _ _ _ H0 Hrest H)|].
    assert (Hins : forall t x c, tys !! k0 = Some t -> coerce t x = Some c ->
                     forall k c', <[k0:=c]> d0 !! k = Some c' -> Q k c').
    { intros t x c Ht Hc k c' Hk. destruct (decide (k0 = k)) as [<-|Hkk].
      - rewrite lookup_insert_eq in Hk. simplify_eq.
        apply (Hnew k0 t x c'); [left | exact Hne | exact Ht | exact Hc].
      - rewrite lookup_insert_ne in Hk by exact Hkk. exact (H0 k c' Hk). }
    destruct (tys !! k0) as [[| |]|] eqn:Ht; [| | |discriminate].
    + destruct (row !! idx) as [x|]; cbn in H; [|exact (IH _ _ _ H0 Hrest H)].
      destruct (py_int x) as [z|] eqn:Hz; [|exact (IH _ _ _ H0 Hrest H)].
      refine (IH _ _ _ (Hins Tint x (CInt z) eq_refl _) Hrest H).
      cbn [coerce]. rewrite Hz. reflexivity.
    + destruct (row !! idx) as [x|]; cbn in H; [|exact (IH _ _ _ H0 Hrest H)].
      destruct (py_float x) as [f|] eqn:Hf; [|exact (IH _ _ _ H0 Hrest H)].
      refine (IH _ _ _ (Hins Tfloat x (CFloat f) eq_refl _) Hrest H).
      cbn [coerce]. rewrite Hf. reflexivity.
    + destruct (row !! idx) as [x|]; [|discriminate].
      exact (IH _ _ _ (Hins Tstr x (CStr (py_str x)) eq_refl eq_refl) Hrest H).
Qed.

(** X10: a record the row factory returns has no field but the columns
    of the statement, the column [index] left out, and every field
    holds a value of the type declared for its column: an integer for
    [int], a float for [float], a string for [str]. *)
Theorem record_fields_typed (self : resolver) (description : list string)
    (row : list sqlval) (d : gmap string cell) (k : string) (c : cell) :
  dict_factory self description row = Ret d ->
  d !! k = Some c ->
  k ∈ description /\ k <> "index" /\
  exists t, types self !! k = Some t /\ has_type t c.
Proof.
  intros Hd Hk.
  apply (dict_factory_loop_fields (types self) row
           (fun k c => k ∈ description /\ k <> "index" /\
                       exists t, types self !! k = Some t /\ has_type t c)
           description 0 ∅ d); [| |exact Hd|exact Hk].
  - intros k' c' H. rewrite lookup_empty in H. discriminate.
  - intros k' t x c' Hin Hne Ht Hc. split; [exact Hin|]. split; [exact Hne|].
    exists t. split; [exact Ht | exact (coerce_has_type t x c' Hc)].
Qed.

Lemma dict_factory_loop_untyped (tys : gmap string pytype) (row : list sqlval) :
  forall (description : list string) (idx : nat) (d0 : gmap string cell),
    idx + length description <= length row ->
    Exists (fun k => k <> "index" /\ tys !! k = None) description ->
    exists k, dict_factory_loop tys row idx description d0 = Raise (KeyError k) /\
              k ∈ description /\ k <> "index" /\ tys !! k = None.
Proof.
  induction description as [|k0 rest IH]; intros idx d0 Hlen Hex.
  - inversion Hex.
  - cbn [length] in Hlen. cbn [dict_factory_loop].
    assert (Hnext : forall d1,
              Exists (fun k => k <> "index" /\ tys !! k = None) rest ->
              exists k, dict_factory_loop tys row (S idx) rest d1 = Raise (KeyError k) /\
                        k ∈ k0 :: rest /\ k <> "index" /\ tys !! k = None).
    { intros d1 Hex'. destruct (IH (S idx) d1 ltac:(lia) Hex') as (k & Hk & Hin & Hrest).
      exists k. split; [exact Hk|]. split; [right; exact Hin | exact Hrest]. }
    destruct (String.eqb_spec k0 "index") as [->|Hne].
    + apply Hnext. apply Exists_cons in Hex as [[Habs _]|Hex]; [congruence | exact Hex].
    + destruct (tys !! k0) as [t|] eqn:Ht.
      * assert (Hex' : Exists (fun k => k <> "index" /\ tys !! k = None) rest).
        { apply Exists_cons in Hex as [[_ Habs]|Hex]; [congruence | exact Hex]. }
        destruct (lookup_lt_is_Some_2 row idx) as [x Hx]; [lia|]. rewrite Hx. cbn.
        destruct t.
        -- destruct (py_int x); apply Hnext; exact Hex'.
        -- destruct (py_float x); apply Hnext; exact Hex'.
        -- apply Hnext; exact Hex'.
      * exists k0. split; [reflexivity|]. split; [left|]. split; assumption.
Qed.

(** X11: when the statement has a column, other than [index], for
    which [types] declares nothing, the row factory raises [KeyError]
    on every row, whatever the row holds; so [fetchall] raises as soon
    as the statement matches a row. *)
Theorem undeclared_column_raises (self : resolver) (description : list string)
    (row : list sqlval) (rows : list (list sqlval)) :
  length row = length description ->
  Exists (fun k => k <> "index" /\ types self !! k = None) description ->
  exists k,
    dict_factory self description row = Raise (KeyError k) /\
    fetch_rows self description (row :: rows) = (Raise (KeyError k), rows) /\
    k ∈ description /\ types self !! k = None.
Proof.
  intros Hlen Hex.
  destruct (dict_factory_loop_untyped (types self) row description 0 ∅ ltac:(lia) Hex)
    as (k & Hk & Hin & _ & Hnone).
  exists k. split; [exact Hk|]. split; [|split; assumption].
  cbn [fetch_rows]. unfold dict_factory. rewrite Hk. reflexivity.
Qed.

(** Where a lookup returns, its answer is a shaping of fetched rows. *)
Lemma run_plan_finished (self : resolver) (p : plan) finish (s s' : state)
    (d : gmap string cell) :
  run_plan self p finish s = (Ret (Some d), s') ->
  exists results, finish results = Ret (Some d).
Proof.
  assert (Hfetch : forall s0 s1,
            bind (cursor_fetchall self) (fun results => lift (finish results)) s0
              = (Ret (Some d), s1) -> exists results, finish results = Ret (Some d)).
  { intros s0 s1. unfold bind, lift.
    destruct (cursor_fetchall self s0) as [[results|e] s2]; [|discriminate].
    intros H. injection H as H _. exists results. exact H. }
  destruct p as [q | | |e]; cbn [run_plan].
  - unfold bind at 1. destruct (cursor_execute q s) as [[[]|e] s1]; [|discriminate].
    apply Hfetch.
  - apply Hfetch.
  - discriminate.
  - discriminate.
Qed.

(** A property of every record the lookup returns holds of every
    record [get_geodata] returns, cached ones included. *)
Lemma get_geodata_keeps (v : variant) (self : resolver) (P : gmap string cell -> Prop) :
  (forall args kwargs s s' d,
      _get_geodata v self args kwargs s = (Ret (Some d), s') -> P d) ->
  forall s, reachable v self s ->
    Forall (fun e => P (snd e)) (results_cache s) /\
    forall args kwargs s' d,
      get_geodata v self args kwargs s = (Ret (Some d), s') -> P d.
Proof.
  intros HP.
  assert (Hstep : forall s args kwargs,
            Forall (fun e => P (snd e)) (results_cache s) ->
            (forall s' d, get_geodata v self args kwargs s = (Ret (Some d), s') -> P d) /\
            Forall (fun e => P (snd e))
                   (results_cache (snd (get_geodata v self args kwargs s)))).
  { intros s args kwargs Hc. split.
    - intros s' d H.
      destruct (get_geodata_record v self args kwargs s s' d H)
        as [_ [[Hhit _]|[_ (s0 & Hg & _)]]].
      + exact (cache_get_Forall P _ _ _ Hc Hhit).
      + exact (HP _ _ _ _ _ Hg).
    - unfold get_geodata, bind, get_result_from_cache.
      destruct (forallb hashable (make_key args kwargs)); [|exact Hc].
      destruct (cache_get (make_key args kwargs) (results_cache s)); [exact Hc|].
      pose proof (_get_geodata_cache v self args kwargs s) as Hsame.
      destruct (_get_geodata v self args kwargs s) as [[[d0|]|e] s1] eqn:Hg;
        cbn in Hsame |- *; rewrite Hsame; try exact Hc.
      apply cache_set_Forall; [exact Hc | exact (HP _ _ _ _ _ Hg)]. }
  intros s Hreach. induction Hreach as [|s args kwargs _ IH].
  - split; [constructor|]. intros args kwargs s' d H.
    exact (proj1 (Hstep init_state args kwargs (Forall_nil_2 _)) s' d H).
  - destruct IH as [IHc _].
    destruct (Hstep s args kwargs IHc) as [_ Hc']. split; [exact Hc'|].
    intros args' kwargs' s' d H. exact (proj1 (Hstep _ args' kwargs' Hc') s' d H).
Qed.

(** X8: every record a [ZIPLevel_GeoDB] resolver returns has the field
    [country_name], and its value is [None]. *)
Theorem ZIPLevel_country_name_is_None (self : resolver) args kwargs (s s' : state)
    (d : gmap string cell) :
  reachable ZIPLevel_GeoDB self s ->
  get_geodata ZIPLevel_GeoDB self args kwargs s = (Ret (Some d), s') ->
  d !! "country_name" = Some CNone.
Proof.
  intros Hreach H.
  refine (proj2 (get_geodata_keeps ZIPLevel_GeoDB self
                   (fun d => d !! "country_name" = Some CNone) _ s Hreach)
                args kwargs s' d H).
  clear. intros args kwargs s s' d Hg. unfold _get_geodata in Hg.
  destruct (bind_params (signature ZIPLevel_GeoDB) args kwargs) as [ps|]; [|discriminate].
  destruct (run_plan_finished self _ _ s s' d Hg) as [results Hfin].
  cbn [finish_of] in Hfin. unfold ZIPLevel_finish in Hfin.
  destruct (length results =? 0)%nat; [discriminate|].
  destruct (locate results) as [d1|e]; [|discriminate]. cbn [obind] in Hfin.
  destruct (delitem "latitude" d1) as [d2|e]; [|discriminate]. cbn [obind] in Hfin.
  destruct (delitem "longitude" d2) as [d3|e]; [|discriminate]. cbn [obind] in Hfin.
  simplify_eq. apply lookup_insert_eq.
Qed.

Lemma match_terms_raises (pairs : list (pyval * pyval)) (i : nat) (c v : pyval) :
  pairs !! i = Some (c, v) ->
  (forall t, c <> VStr t) \/ (forall t, v <> VStr t) ->
  match_terms pairs = Raise AttributeError.
Proof.
  revert i. induction pairs as [|[c0 v0] pairs IH]; intros i Hi Hbad.
  - discriminate.
  - cbn [match_terms]. destruct i as [|i]; cbn in Hi.
    + injection Hi as -> ->. destruct Hbad as [Hc|Hv].
      * destruct c; try reflexivity. exfalso. exact (Hc _ eq_refl).
      * destruct c; try reflexivity. cbn.
        destruct v; try reflexivity. exfalso. exact (Hv _ eq_refl).
    + rewrite (IH i Hi Hbad).
      destruct c0; try reflexivity. cbn. destruct v0; reflexivity.
Qed.

(** X9: [ZIPLevel_GeoDB] lowers every column and every value of a list
    query with [.lower()]: when the two lists have the same length and
    one of their elements is not a string, the lookup raises
    [AttributeError] before any statement is executed, and nothing is
    cached. *)
Theorem ZIPLevel_list_of_strings_only (self : resolver) (cols vals : list pyval)
    (i : nat) (c v : pyval) (s : state) :
  length cols = length vals ->
  cols !! i = Some c -> vals !! i = Some v ->
  (forall t, c <> VStr t) \/ (forall t, v <> VStr t) ->
  _get_geodata ZIPLevel_GeoDB self [VList cols; VList vals] [] s = (Raise AttributeError, s) /\
  (forallb hashable (make_key [VList cols; VList vals] []) = true ->
   cache_get (make_key [VList cols; VList vals] []) (results_cache s) = None ->
   get_geodata ZIPLevel_GeoDB self [VList cols; VList vals] [] s = (Raise AttributeError, s)).
Proof.
  intros Hlen Hc Hv Hbad.
  assert (Hg : _get_geodata ZIPLevel_GeoDB self [VList cols; VList vals] [] s
               = (Raise AttributeError, s)).
  { unfold _get_geodata. cbn [bind_params signature forallb bind_from kw_get find fmap
                              option_fmap option_map].
    cbn. rewrite Hlen, Nat.eqb_refl.
    rewrite (match_terms_raises (zip cols vals) i c v); [reflexivity| |exact Hbad].
    apply lookup_zip_with_Some. exists c, v. auto. }
  split; [exact Hg|]. intros Hh Hmiss.
  rewrite (get_geodata_miss _ _ _ _ _ Hh Hmiss), Hg. reflexivity.
Qed.

(** X12: [_create_indices] creates no index that [self.indices] already
    lists: every statement it executes is the [CREATE INDEX] of a
    requested column that is not listed, and when all the requested
    columns are listed it executes nothing and returns. *)
Theorem existing_indices_not_recreated (self : resolver) (indices columns : list string) :
  Forall (fun stmt => exists column,
            column ∈ columns /\ (column ∉ indices) /\ stmt = create_index self column)
         (snd (_create_indices self indices columns)) /\
  (columns ⊆ indices -> _create_indices self indices columns = (Ret tt, [])).
Proof.
  induction columns as [|column rest [IHs IHe]].
  - split; [constructor | reflexivity].
  - assert (Hmono : Forall (fun stmt => exists column0,
                      column0 ∈ column :: rest /\ (column0 ∉ indices) /\
                      stmt = create_index self column0)
                      (snd (_create_indices self indices rest))).
    { eapply Forall_impl; [exact IHs|]. intros stmt (c0 & Hin & Hnot & ->).
      exists c0. split; [right; exact Hin | split; [exact Hnot | reflexivity]]. }
    cbn [_create_indices]. case_bool_decide as Hidx.
    + split; [exact Hmono|]. intros Hsub. apply IHe.
      intros c0 Hc0. apply Hsub. right. exact Hc0.
    + split.
      * assert (Hhere : exists column0, column0 ∈ column :: rest /\ (column0 ∉ indices) /\
                          create_index self column = create_index self column0).
        { exists column. split; [left | split; [exact Hidx | reflexivity]]. }
        destruct (sqlite_execute (create_index self column)); cbn [snd].
        -- constructor; [exact Hhere | constructor].
        -- destruct (_create_indices self indices rest) as [o stmts]. cbn [snd] in *.
           constructor; [exact Hhere | exact Hmono].
      * intros Hsub. exfalso. apply Hidx, Hsub. left.
Qed.

End Records.

(** ** The importer *)

Section ImporterLaws.
Context {BI : Builtins}.

(** X14: for a numeric type ([integer], [long], [date], [float]) an
    empty text, a text [float] cannot read, and a text that reads as
    NaN or as an infinity all give [None]; none of them raises. *)
Theorem parse_numeric_rejects (str_value t : string) (args : options) :
  t ∈ numeric_properties ->
  str_value = EmptyString \/
  float_of_string str_value = ValueError \/
  (exists f, float_of_string str_value = Conv f /\ is_nan_or_inf f = true) ->
  parse_property str_value t args = Conv CNone.
Proof.
  intros Hnum Hbad. unfold parse_property, parse_property_try.
  rewrite (bool_decide_eq_true_2 _ Hnum). cbn [andb].
  destruct (String.eqb str_value EmptyString) eqn:He; [reflexivity|].
  destruct Hbad as [->|[Hv|(f & Hf & Hnan)]].
  - discriminate.
  - rewrite Hv. reflexivity.
  - rewrite Hf. cbn [conv_map]. rewrite Hnan. reflexivity.
Qed.

Lemma not_numeric (t : string) :
  t ∉ numeric_properties ->
  String.eqb t "integer" = false /\ String.eqb t "long" = false /\
  String.eqb t "date" = false /\ String.eqb t "float" = false.
Proof.
  intros Hnot. repeat split; apply String.eqb_neq; intros ->; apply Hnot;
    repeat first [apply list_elem_of_here | apply list_elem_of_further].
Qed.

(** X15: any other type name, [text], [keyword], [ip] and [geopoint]
    among them, leaves the text as it is: the value is not parsed, not
    checked and never refused, the empty text included. *)
Theorem parse_text_unchanged (str_value t : string) (args : options) :
  t ∉ numeric_properties ->
  parse_property str_value t args = Conv (CStr str_value).
Proof.
  intros Hnot. destruct (not_numeric t Hnot) as (H1 & H2 & H3 & H4).
  unfold parse_property, parse_property_try.
  rewrite (bool_decide_eq_false_2 _ Hnot). cbn [andb].
  rewrite H1, H2, H3, H4. reflexivity.
Qed.

(** X16: a float comes out of [parse_property] only for the type
    [float], it is the float that [float(str_value)] read, and it is
    finite: neither NaN nor an infinity is ever handed on. *)
Theorem parse_float_finite (str_value t : string) (args : options) (f : float) :
  parse_property str_value t args = Conv (CFloat f) ->
  t = "float" /\ float_of_string str_value = Conv f /\ PrimFloat.is_finite f = true.
Proof.
  unfold parse_property, parse_property_try. intros H.
  destruct (decide (t ∈ numeric_properties)) as [Hnum|Hnot].
  - rewrite (bool_decide_eq_true_2 _ Hnum) in H. cbn [andb] in H.
    destruct (String.eqb str_value EmptyString); [discriminate|].
    destruct (float_of_string str_value) as [f0| |]; cbn [conv_map] in H; try discriminate.
    destruct (is_nan_or_inf f0) eqn:Hfin; [discriminate|].
    destruct (String.eqb t "integer");
      [destruct (int_of_float f0); discriminate|].
    destruct (String.eqb t "long");
      [destruct (long_of_float f0); discriminate|].
    destruct (String.eqb t "date").
    { destruct (dates_in_seconds args);
        [destruct (int_of_float (f0 * 1000)%float) | destruct (int_of_float f0)];
        discriminate. }
    destruct (String.eqb_spec t "float") as [->|Hne]; [|discriminate].
    injection H as <-. split; [reflexivity|]. split; [reflexivity|].
    unfold PrimFloat.is_finite. unfold is_nan_or_inf in Hfin.
    rewrite orb_comm, Hfin. reflexivity.
  - destruct (not_numeric t Hnot) as (H1 & H2 & H3 & H4).
    rewrite (bool_decide_eq_false_2 _ Hnot) in H. cbn [andb] in H.
    rewrite H1, H2, H3, H4 in H. discriminate.
Qed.

(** More values than fields: the comprehension runs out of fields. *)
Lemma build_dicc_too_long (cfg : config) (args : options) :
  forall (sline : list string) (i : nat) (dicc : gmap string cell),
    i <= length (order_in_file cfg) ->
    length (order_in_file cfg) < i + length sline ->
    build_dicc cfg args i sline dicc = None.
Proof.
  induction sline as [|value rest IH]; intros i dicc Hi Hlen; cbn [length] in Hlen.
  - lia.
  - cbn [build_dicc].
    destruct (order_in_file cfg !! i) as [field|] eqn:Hf; [|reflexivity].
    apply lookup_lt_Some in Hf.
    destruct (properties cfg !! field) as [t|]; [|reflexivity].
    destruct (parse_property value t args); try reflexivity.
    apply IH; lia.
Qed.

(** X17: a line that splits into more values than the configuration
    has fields gives no document: [fields[i]] raises and the line is
    passed over.  The values before the surplus one are lost with it. *)
Theorem surplus_value_drops_line (cfg : config) (index doc_type : string) (args : options)
    (line : string) (sline : list string) :
  str_split (str_rstrip line) (separator args) = Some sline ->
  length (order_in_file cfg) < length sline ->
  line_action cfg index doc_type args line = None.
Proof.
  intros Hsplit Hlen. unfold line_action. rewrite Hsplit. cbn.
  rewrite (build_dicc_too_long cfg args sline 0 ∅); [reflexivity | lia | lia].
Qed.

Lemma build_dicc_raise (cfg : config) (args : options) :
  forall (sline : list string) (i : nat) (dicc : gmap string cell) (j : nat)
         (value field t : string),
    sline !! j = Some value ->
    order_in_file cfg !! (i + j) = Some field ->
    properties cfg !! field = Some t ->
    parse_property value t args = OtherError ->
    build_dicc cfg args i sline dicc = None.
Proof.
  induction sline as [|value0 rest IH]; intros i dicc j value field t Hj Hf Ht Hp.
  - discriminate.
  - cbn [build_dicc]. destruct j as [|j]; cbn in Hj.
    + injection Hj as ->. rewrite Nat.add_0_r in Hf. rewrite Hf, Ht, Hp. reflexivity.
    + destruct (order_in_file cfg !! i) as [field0|]; [|reflexivity].
      destruct (properties cfg !! field0) as [t0|]; [|reflexivity].
      destruct (parse_property value0 t0 args); try reflexivity.
      apply (IH (S i) _ j value field t Hj); [|exact Ht|exact Hp].
      replace (S i + j) with (i + S j) by lia. exact Hf.
Qed.

(** X18: [parse_property] catches [ValueError] and [TypeError] only.
    When the conversion of one value of a line raises anything else
    (the [OverflowError] of [int] on a date in seconds that overflows,
    the [NameError] of [long] where the name does not exist), the line
    gives no document at all. *)
Theorem uncaught_conversion_drops_line (cfg : config) (index doc_type : string)
    (args : options) (line : string) (sline : list string) (j : nat)
    (value field t : string) :
  str_split (str_rstrip line) (separator args) = Some sline ->
  sline !! j = Some value ->
  order_in_file cfg !! j = Some field ->
  properties cfg !! field = Some t ->
  parse_property value t args = OtherError ->
  line_action cfg index doc_type args line = None.
Proof.
  intros Hsplit Hj Hf Ht Hp. unfold line_action. rewrite Hsplit. cbn.
  rewrite (build_dicc_raise cfg args sline 0 ∅ j value field t Hj Hf Ht Hp). reflexivity.
Qed.

Lemma input_loop_skipping (cfg : config) (index doc_type : string) (args : options)
    (lines : list string) :
  skip_first_line args = true ->
  input_loop cfg index doc_type args 0 lines = [].
Proof.
  intros Hskip. induction lines as [|line rest IH]; [reflexivity|].
  cbn [input_loop Nat.eqb andb]. rewrite Hskip. exact IH.
Qed.

(** X19: with [--skip_first_line] the generator yields nothing at all,
    whatever the input: the test [ctr == 0 and args.skip_first_line]
    comes before [ctr += 1], so the counter stays at 0 and every line
    is passed over like the first. *)
Theorem skip_first_line_skips_all (cfg : config) (index doc_type : string) (args : options)
    (input : option (list string)) :
  skip_first_line args = true ->
  input_generator cfg index doc_type args input = [].
Proof.
  intros Hskip. destruct input as [lines|]; [|reflexivity].
  apply input_loop_skipping. exact Hskip.
Qed.

Lemma input_loop_counter (cfg : config) (index doc_type : string) (args : options)
    (lines : list string) (ctr : nat) :
  skip_first_line args = false ->
  input_loop cfg index doc_type args ctr lines
    = omap (line_action cfg index doc_type args) lines.
Proof.
  intros Hskip. revert ctr. induction lines as [|line rest IH]; intros ctr; [reflexivity|].
  cbn [input_loop omap list_omap]. rewrite Hskip, andb_false_r.
  destruct (line_action cfg index doc_type args line); rewrite IH; reflexivity.
Qed.

(** X20: without [--skip_first_line] every line is handled on its own:
    the documents of two inputs one after the other are the documents
    of the first followed by the documents of the second, and there is
    at most one document per line. *)
Theorem input_generator_app (cfg : config) (index doc_type : string) (args : options)
    (lines1 lines2 : list string) :
  skip_first_line args = false ->
  input_generator cfg index doc_type args (Some (lines1 ++ lines2)%list)
    = (input_generator cfg index doc_type args (Some lines1)
       ++ input_generator cfg index doc_type args (Some lines2))%list /\
  length (input_generator cfg index doc_type args (Some lines1)) <= length lines1.
Proof.
  intros Hskip. cbn [input_generator]. rewrite !input_loop_counter by exact Hskip.
  split.
  - induction lines1 as [|line rest IH]; [reflexivity|].
    cbn [app omap list_omap]. destruct (line_action cfg index doc_type args line);
      cbn [app]; rewrite IH; reflexivity.
  - induction lines1 as [|line rest IH]; [reflexivity|].
    cbn [omap list_omap length]. destruct (line_action cfg index doc_type args line);
      cbn [length]; lia.
Qed.

Lemma build_dicc_keys (cfg : config) (args : options) :
  forall (sline : list string) (i : nat) (dicc d : gmap string cell),
    build_dicc cfg args i sline dicc = Some d ->
    forall k, is_Some (d !! k) -> is_Some (dicc !! k) \/ k ∈ order_in_file cfg.
Proof.
  induction sline as [|value rest IH]; intros i dicc d H k Hk; cbn [build_dicc] in H.
  - simplify_eq. left. exact Hk.
  - destruct (order_in_file cfg !! i) as [field|] eqn:Hf; [|discriminate].
    destruct (properties cfg !! field) as [t|]; [|discriminate].
    destruct (parse_property value t args) as [c| |]; try discriminate.
    destruct (IH _ _ _ H k Hk) as [Hin|Hin]; [|right; exact Hin].
    destruct (decide (field = k)) as [<-|Hne].
    + right. eapply list_elem_of_lookup_2. exact Hf.
    + rewrite lookup_insert_ne in Hin by exact Hne. left. exact Hin.
Qed.

Lemma build_md5_dicc_present (args : options) (dicc : gmap string cell) :
  forall (fields : list string) (acc md5_dicc : list (string * cell)),
    build_md5_dicc args dicc fields acc = Some md5_dicc ->
    forall field, field ∈ fields -> field ∉ md5_exclude args -> is_Some (dicc !! field).
Proof.
  induction fields as [|field0 rest IH]; intros acc md5_dicc H field Hin Hnot.
  - inversion Hin.
  - cbn [build_md5_dicc] in H. apply elem_of_cons in Hin as [->|Hin].
    + rewrite (bool_decide_eq_false_2 _ Hnot) in H.
      destruct (dicc !! field0); [eexists; reflexivity | discriminate].
    + case_bool_decide; [exact (IH _ _ H field Hin Hnot)|].
      destruct (dicc !! field0); [|discriminate]. exact (IH _ _ H field Hin Hnot).
Qed.

(** X21: every action the generator yields carries the given index and
    document type; it has an [_id] exactly when [--md5_id] is set; its
    [_source] has no key but fields of [order_in_file]; and with
    [--md5_id] its [_source] has every field of [order_in_file] that is
    not excluded from the hash (a line too short for that is passed
    over). *)
Theorem yielded_actions_shape (cfg : config) (index doc_type : string) (args : options)
    (input : option (list string)) (a : action) :
  a ∈ input_generator cfg index doc_type args input ->
  _index a = index /\ _type a = doc_type /\
  (is_Some (_id a) <-> md5_id args = true) /\
  (forall k, is_Some (_source a !! k) -> k ∈ order_in_file cfg) /\
  (md5_id args = true ->
   forall field, field ∈ order_in_file cfg -> field ∉ md5_exclude args ->
                 is_Some (_source a !! field)).
Proof.
  intros Hin.
  assert (Hline : exists line, line_action cfg index doc_type args line = Some a).
  { destruct input as [lines|]; [|inversion Hin]. cbn [input_generator] in Hin.
    generalize dependent 0. induction lines as [|line rest IH]; intros ctr Hin.
    - inversion Hin.
    - cbn [input_loop] in Hin. destruct ((ctr =? 0)%nat && skip_first_line args).
      + exact (IH _ Hin).
      + destruct (line_action cfg index doc_type args line) as [a0|] eqn:Ha.
        * apply elem_of_cons in Hin as [->|Hin]; [exists line; exact Ha | exact (IH _ Hin)].
        * exact (IH _ Hin). }
  destruct Hline as [line Ha]. unfold line_action in Ha.
  destruct (str_split (str_rstrip line) (separator args)) as [sline|]; [|discriminate].
  cbn in Ha. destruct (build_dicc cfg args 0 sline ∅) as [dicc|] eqn:Hd; [|discriminate].
  cbn in Ha.
  assert (Hkeys : forall k, is_Some (dicc !! k) -> k ∈ order_in_file cfg).
  { intros k Hk. destruct (build_dicc_keys cfg args sline 0 ∅ dicc Hd k Hk) as [H|H];
      [|exact H]. rewrite lookup_empty in H. destruct H as [? H]. discriminate. }
  destruct (md5_id args) eqn:Hmd5.
  - destruct (build_md5_dicc args dicc (order_in_file cfg) []) as [md5_dicc|] eqn:Hm;
      [|discriminate].
    cbn in Ha. destruct (md5_json md5_dicc) as [id|]; [|discriminate].
    cbn in Ha. injection Ha as <-. cbn.
    split; [reflexivity|]. split; [reflexivity|].
    split; [split; [reflexivity | eexists; reflexivity]|].
    split; [exact Hkeys|]. intros _.
    exact (build_md5_dicc_present args dicc _ _ _ Hm).
  - injection Ha as <-. cbn.
    split; [reflexivity|]. split; [reflexivity|].
    split; [split; [intros [? H]; discriminate | discriminate]|].
    split; [exact Hkeys | discriminate].
Qed.

(** X22: the two translations of a property type differ on [text] and
    [keyword] only: on every other name, known or not, they give the
    same class, and a name that is none of the eight known ones gives
    none under either. *)
Theorem translations_agree (v : string) :
  v <> "text" -> v <> "keyword" ->
  translate_cfg_property_2x v = translate_cfg_property_std v /\
  (v ∉ ["date"; "integer"; "long"; "float"; "geopoint"; "ip"] ->
   translate_cfg_property_std v = None).
Proof.
  intros Htext Hkw. apply String.eqb_neq in Htext, Hkw.
  unfold translate_cfg_property_2x, translate_cfg_property_std. rewrite Htext, Hkw.
  split; [reflexivity|]. intros Hnot.
  assert (Hk : forall k, k ∈ ["date"; "integer"; "long"; "float"; "geopoint"; "ip"] ->
                 String.eqb v k = false).
  { intros k Hk. apply String.eqb_neq. intros ->. exact (Hnot Hk). }
  rewrite !Hk by (repeat first [apply list_elem_of_here | apply list_elem_of_further]).
  reflexivity.
Qed.

End ImporterLaws.

(** ** Loading the database *)

Section LoadLaws.
Context {RT : Runtime} {LD : Loader}.

Lemma execute_all_on_connection (stmts : list string) :
  Forall (fun ev => ev = Connect \/ exists stmt, ev = ConnExecute stmt)
         (snd (execute_all stmts)).
Proof.
  induction stmts as [|stmt rest IH]; cbn [execute_all].
  - constructor.
  - destruct (sqlite_execute stmt).
    + constructor; [right; eexists; reflexivity | constructor].
    + destruct (execute_all rest) as [ok evs]. cbn [snd] in *.
      constructor; [right; eexists; reflexivity | exact IH].
Qed.

Lemma execute_all_ok (stmts : list string) :
  Forall (fun stmt => sqlite_execute stmt <> SqlError) stmts ->
  execute_all stmts = (true, map ConnExecute stmts).
Proof.
  induction 1 as [|stmt rest Hok _ IH]; cbn [execute_all map]; [reflexivity|].
  destruct (sqlite_execute stmt); [contradiction|]. rewrite IH. reflexivity.
Qed.

Lemma load_indices_on_connection (self : resolver) (index_columns : list string) :
  exists evs,
    snd (load_indices self index_columns) = ConnExecute select_indices :: evs /\
    Forall (fun ev => ev = Connect \/ exists stmt, ev = ConnExecute stmt) evs.
Proof.
  unfold load_indices. destruct _get_indices as [indices|e].
  - destruct (_create_indices self (texts indices) index_columns) as [o stmts]. cbn [snd].
    eexists. split; [reflexivity|]. apply Forall_map, Forall_forall.
    intros stmt _. right. eexists. reflexivity.
  - eexists. split; [reflexivity | constructor].
Qed.

(** X23: when the database is built from the snapshot (there is no
    database file, or an update is asked for) and [pandas.read_csv]
    raises, [_load_database] raises: the old file has been removed, no
    connection is opened and nothing is written. *)
Theorem load_failure_propagates (self : resolver) (update : bool)
    (index_columns : list string) :
  db_isfile = false \/ update = true ->
  read_csv (names self) (types self) = None ->
  _load_database self update index_columns
    = (LoadRaised, [Remove; ReadCsv (names self) (types self)]).
Proof.
  intros Hup Hread. unfold _load_database.
  assert (Hu : (if negb db_isfile then true else update) = true).
  { destruct Hup as [-> | ->]; [reflexivity | destruct db_isfile; reflexivity]. }
  rewrite Hu, Hread. reflexivity.
Qed.

(** X24: when the database is built from the snapshot, the frame that
    [pandas.read_csv] returns for the declared names and types is
    written under the name of the resolver with its rows as they are
    and its column labels in lower case, after the old file is removed;
    every later call is a statement on the connection, the first of
    them the one that lists the indices. *)
Theorem load_writes_frame_as_read (self : resolver) (update : bool)
    (index_columns : list string) (df : frame) :
  db_isfile = false \/ update = true ->
  read_csv (names self) (types self) = Some df ->
  connect = true ->
  to_sql (name self) {| columns := map str_lower (columns df); records := records df |}
    = true ->
  exists evs,
    snd (_load_database self update index_columns)
      = ([Remove; ReadCsv (names self) (types self); Connect;
          ToSql (name self)
            {| columns := map str_lower (columns df); records := records df |};
          ConnExecute "SELECT name FROM sqlite_master WHERE type == 'index'"]
           ++ evs)%list /\
    Forall (fun ev => ev = Connect \/ exists stmt, ev = ConnExecute stmt) evs.
Proof.
  intros Hup Hread Hconn Hsql. unfold _load_database.
  assert (Hu : (if negb db_isfile then true else update) = true).
  { destruct Hup as [-> | ->]; [reflexivity | destruct db_isfile; reflexivity]. }
  rewrite Hu, Hread, Hconn. cbn [negb]. rewrite Hsql. cbn [negb].
  destruct (load_indices_on_connection self index_columns) as (evs & He & Hall).
  destruct (load_indices self index_columns) as [r evs0]. cbn [snd] in *. subst evs0.
  exists evs. split; [reflexivity | exact Hall].
Qed.

(** X25: when the database file is there and no update is asked for,
    [_load_database] neither removes the file nor reads the snapshot
    nor writes a table: it connects and executes statements; when the
    connection opens and the four pragmas pass, these are the first
    statements, in the order of the source, followed by the one that
    lists the indices. *)
Theorem existing_database_not_reread (self : resolver) (index_columns : list string) :
  db_isfile = true ->
  Forall (fun ev => ev = Connect \/ exists stmt, ev = ConnExecute stmt)
         (snd (_load_database self false index_columns)) /\
  (connect = true ->
   Forall (fun stmt => sqlite_execute stmt <> SqlError)
          ["pragma journal_mode=wal"; "pragma cache_size = 500000";
           "pragma mmap_size = 500000000"; "pragma synchronous = 0"] ->
   exists evs,
     snd (_load_database self false index_columns)
       = ([Connect;
           ConnExecute "pragma journal_mode=wal";
           ConnExecute "pragma cache_size = 500000";
           ConnExecute "pragma mmap_size = 500000000";
           ConnExecute "pragma synchronous = 0";
           ConnExecute "SELECT name FROM sqlite_master WHERE type == 'index'"]
            ++ evs)%list).
Proof.
  intros Hfile. unfold _load_database. rewrite Hfile. cbn [negb].
  destruct (load_indices_on_connection self index_columns) as (evs & He & Hall).
  split.
  - destruct connect; cbn [negb snd].
    + pose proof (execute_all_on_connection pragmas) as Hp.
      destruct (execute_all pragmas) as [[|] evp]; cbn [snd] in Hp.
      * destruct (load_indices self index_columns) as [r evs0]. cbn [snd] in *. subst evs0.
        constructor; [left; reflexivity|]. apply Forall_app. split; [exact Hp|].
        constructor; [right; eexists; reflexivity | exact Hall].
      * cbn [snd]. constructor; [left; reflexivity | exact Hp].
    + constructor; [left; reflexivity | constructor].
  - intros Hconn Hok. rewrite Hconn. cbn [negb].
    rewrite (execute_all_ok pragmas Hok).
    destruct (load_indices self index_columns) as [r evs0]. cbn [snd] in *. subst evs0.
    exists evs. reflexivity.
Qed.

End LoadLaws.

(** ** The added properties on the sample tables *)

Lemma sample2_engine_ok : @engine_ok Sample2.runtime Sample.geoip.
Proof.
  intros q description rows H. cbn [sqlite_execute Sample2.runtime] in H.
  unfold Sample2.execute in H. injection H as <- <-.
  split; [|exact sample_typed].
  repeat case_match; repeat constructor.
Qed.

Lemma repeated_query_from_cache_witness :
  exists d s1,
    get_geodata ZIP_GeoIPDB Sample.geoip [VStr "country_code"; VStr "MX"] [] init_state
      = (Ret (Some d), s1) /\
    get_geodata ZIP_GeoIPDB Sample.geoip [VStr "country_code"; VStr "MX"] [] s1
      = (Ret (Some d), s1).
Proof.
  pose (call := get_geodata ZIP_GeoIPDB Sample.geoip [VStr "country_code"; VStr "MX"] []
                  init_state).
  assert (Hcall : call = (Ret (Some (match fst call with
                                     | Ret (Some d) => d
                                     | _ => ∅
                                     end)), snd call))
    by (vm_compute; reflexivity).
  eexists _, _. split; [exact Hcall|].
  exact (repeated_query_from_cache ZIP_GeoIPDB Sample.geoip _ _ init_state _ _ Hcall).
Defined.

Lemma cached_answer_kept_witness :
  exists d,
    cache_get [VStr "ip"; VStr "0.0.0.5"]
      (results_cache
         (snd (get_geodata ZIP_GeoIPDB Sample.geoip [VStr "ip"; VStr "0.0.0.5"] []
                 init_state))) = Some d /\
    cache_get [VStr "ip"; VStr "0.0.0.5"]
      (results_cache
         (snd (get_geodata ZIP_GeoIPDB Sample.geoip [VStr "country_code"; VStr "MX"] []
                 (snd (get_geodata ZIP_GeoIPDB Sample.geoip [VStr "ip"; VStr "0.0.0.5"] []
                         init_state))))) = Some d.
Proof.
  pose (got := cache_get [VStr "ip"; VStr "0.0.0.5"]
                 (results_cache
                    (snd (get_geodata ZIP_GeoIPDB Sample.geoip [VStr "ip"; VStr "0.0.0.5"] []
                            init_state)))).
  assert (Hc : got = Some (default ∅ got)) by (vm_compute; reflexivity).
  eexists. split; [exact Hc|].
  exact (cached_answer_kept ZIP_GeoIPDB Sample.geoip
           [VStr "country_code"; VStr "MX"] [] _ _ _ Hc).
Defined.

Lemma tuple_form_served_from_list_form_witness :
  exists d s1,
    @get_geodata Sample2.runtime ZIP_GeoIPDB Sample.geoip
      [VList [VStr "country_code"]; VList [VStr "MX"]] [] init_state = (Ret (Some d), s1) /\
    @get_geodata Sample2.runtime ZIP_GeoIPDB Sample.geoip
      [VTuple [VStr "country_code"]; VTuple [VStr "MX"]] [] s1 = (Ret (Some d), s1) /\
    forall d',
      fst (@_get_geodata Sample2.runtime ZIP_GeoIPDB Sample.geoip
             [VTuple [VStr "country_code"]; VTuple [VStr "MX"]] [] s1) <> Ret (Some d').
Proof.
  pose (call := @get_geodata Sample2.runtime ZIP_GeoIPDB Sample.geoip
                  [VList [VStr "country_code"]; VList [VStr "MX"]] [] init_state).
  assert (Hcall : call = (Ret (Some (match fst call with
                                     | Ret (Some d) => d
                                     | _ => ∅
                                     end)), snd call))
    by (vm_compute; reflexivity).
  eexists _, _. split; [exact Hcall|].
  exact (@tuple_form_served_from_list_form Sample2.runtime ZIP_GeoIPDB Sample.geoip
           [VStr "country_code"] [VStr "MX"] [] init_state _ _
           sample2_engine_ok (@reach_init Sample2.runtime _ _) Hcall).
Defined.

Lemma missing_latitude_raises_witness :
  exists s',
    @get_geodata Sample2.runtime ZIP_GeoIPDB Sample.geoip
      [VStr "country_code"; VStr "FR"] [] init_state = (Raise (KeyError "latitude"), s') /\
    results_cache s' = results_cache init_state.
Proof.
  pose (r0 := match @dict_factory Sample2.runtime Sample.geoip Sample.description
                      Sample.broken with
              | Ret d => d
              | Raise _ => ∅
              end).
  apply (@missing_latitude_raises Sample2.runtime ZIP_GeoIPDB Sample.geoip
           [VStr "country_code"; VStr "FR"] []
           [VStr "country_code"; VStr "FR"; VStr "AND"; VBool true]
           (Sample.where_eq "country_code" "FR") Sample.description [Sample.broken]
           [] r0 [] init_state).
  - reflexivity.
  - reflexivity.
  - reflexivity.
  - reflexivity.
  - reflexivity.
  - vm_compute. reflexivity.
  - vm_compute. reflexivity.
Defined.

Lemma several_rows_first_location_witness :
  exists d s',
    @_get_geodata Sample3.centroid_runtime ZIP_GeoIPDB Sample.geoip
      [VStr "country_name"; VStr "BOTH"] [] init_state = (Ret (Some d), s') /\
    d !! "location" = Some (CStr "25.66667,-100.31667") /\
    d !! "representative_point" = Some (CStr "40.4165,-3.7026") /\
    d !! "latitude" = None /\
    d !! "longitude" = None /\
    d !! "index" = None /\
    d !! "ip_from" = None /\
    d !! "ip_to" = None /\
    d !! "country_name" = Some (CStr "MEXICO").
Proof.
  pose (r0 := match @dict_factory Sample3.centroid_runtime Sample.geoip Sample.description
                      Sample.monterrey with
              | Ret d => d
              | Raise _ => ∅
              end).
  pose (r1 := match @dict_factory Sample3.centroid_runtime Sample.geoip Sample.description
                      Sample.madrid with
              | Ret d => d
              | Raise _ => ∅
              end).
  assert (Hlat : r0 !! "latitude" = Some (CFloat 25.66667%float)) by (vm_compute; reflexivity).
  assert (Hlon : r0 !! "longitude" = Some (CFloat (-100.31667)%float))
    by (vm_compute; reflexivity).
  assert (Hcn : r0 !! "country_name" = Some (CStr "MEXICO")) by (vm_compute; reflexivity).
  assert (Hrest : Forall2 (fun (r : gmap string cell) (p : cell * cell) =>
                             r !! "latitude" = Some (fst p) /\ r !! "longitude" = Some (snd p))
                    [r1] [(CFloat 40.4165%float, CFloat (-3.7026)%float)]).
  { constructor; [|constructor]. split; vm_compute; reflexivity. }
  destruct (@several_rows_first_location Sample3.centroid_runtime ZIP_GeoIPDB Sample.geoip
              [VStr "country_name"; VStr "BOTH"] []
              [VStr "country_name"; VStr "BOTH"; VStr "AND"; VBool true]
              (Sample.where_eq "country_name" "BOTH") Sample.description
              [Sample.monterrey; Sample.madrid] [] r0 r1 []
              (CFloat 25.66667%float) (CFloat (-100.31667)%float)
              [(CFloat 40.4165%float, CFloat (-3.7026)%float)]
              40.4165%float (-3.7026)%float init_state
              eq_refl eq_refl eq_refl eq_refl Hlat Hlon Hrest eq_refl)
    as (d & s' & Hg & Hl & Hrp & Hla & Hlo & Hi & Hf & Ht & Hother).
  exists d, s'. split; [exact Hg|]. split; [exact Hl|]. split; [exact Hrp|].
  split; [exact Hla|]. split; [exact Hlo|]. split; [exact Hi|].
  split; [exact Hf|]. split; [exact Ht|].
  rewrite (Hother "country_name"); [exact Hcn|].
  intros Hin. apply (bool_decide_pack _) in Hin. vm_compute in Hin. exact Hin.
Defined.

Lemma address_inside_range_witness :
  ZIP_GeoIPDB_plan Sample.geoip (VStr "ip") (VStr "0.0.0.5") (VStr "AND") (VBool true)
    = Execute (select_eq Sample.geoip "ip_to" (VInt 10)).
Proof.
  apply (address_inside_range Sample.geoip Sample.ranges "0.0.0.5" 5 0 0 10 (VStr "AND")).
  - cbn. split; [lia|]. split; [repeat constructor; cbn; lia|].
    split; [lia|]. split; [constructor | exact I].
  - reflexivity.
  - reflexivity.
  - reflexivity.
  - lia.
Defined.

Lemma address_lookup_is_scan_witness :
  ZIP_GeoIPDB_plan Sample.geoip (VStr "ip") (VStr "0.0.0.10") (VStr "AND") (VBool true)
    = match ip_int_to_list Sample.geoip !! scan_right (ip_int_to_list Sample.geoip) 10 with
      | Some ip_to => Execute (select_eq Sample.geoip "ip_to" (VInt ip_to))
      | None => Fail IndexError
      end.
Proof.
  apply (address_lookup_is_scan Sample.geoip "0.0.0.10" 10 (VStr "AND")).
  - cbn. repeat constructor; lia.
  - reflexivity.
Defined.

Lemma ZIPLevel_country_name_is_None_witness :
  exists d s',
    @get_geodata Sample2.zip_runtime ZIPLevel_GeoDB Sample2.geoinfo
      [VStr "place_name"; VStr "MADRID"] [] init_state = (Ret (Some d), s') /\
    d !! "country_name" = Some CNone.
Proof.
  pose (call := @get_geodata Sample2.zip_runtime ZIPLevel_GeoDB Sample2.geoinfo
                  [VStr "place_name"; VStr "MADRID"] [] init_state).
  assert (Hcall : call = (Ret (Some (match fst call with
                                     | Ret (Some d) => d
                                     | _ => ∅
                                     end)), snd call))
    by (vm_compute; reflexivity).
  eexists _, _. split; [exact Hcall|].
  exact (@ZIPLevel_country_name_is_None Sample2.zip_runtime Sample2.geoinfo _ _
           init_state _ _ (@reach_init Sample2.zip_runtime _ _) Hcall).
Defined.

Lemma ZIPLevel_list_of_strings_only_witness :
  @_get_geodata Sample2.zip_runtime ZIPLevel_GeoDB Sample2.geoinfo
    [VList [VStr "zip_code"]; VList [VInt 28001]] [] init_state
    = (Raise AttributeError, init_state).
Proof.
  refine (proj1 (@ZIPLevel_list_of_strings_only Sample2.zip_runtime Sample2.geoinfo
                   [VStr "zip_code"] [VInt 28001] 0 (VStr "zip_code") (VInt 28001)
                   init_state eq_refl eq_refl eq_refl _)).
  right. discriminate.
Defined.

Lemma record_fields_typed_witness :
  "ip_to" ∈ Sample.description /\ "ip_to" <> "index" /\
  exists t, types Sample.geoip !! "ip_to" = Some t /\ has_type t (CInt 10).
Proof.
  pose (d := match dict_factory Sample.geoip Sample.description Sample.monterrey with
             | Ret d => d
             | Raise _ => ∅
             end).
  apply (record_fields_typed Sample.geoip Sample.description Sample.monterrey d
           "ip_to" (CInt 10)).
  - vm_compute. reflexivity.
  - vm_compute. reflexivity.
Defined.

Lemma undeclared_column_raises_witness :
  exists k,
    dict_factory Sample2.countries Sample.description Sample.monterrey = Raise (KeyError k) /\
    fetch_rows Sample2.countries Sample.description [Sample.monterrey; Sample.madrid]
      = (Raise (KeyError k), [Sample.madrid]) /\
    k ∈ Sample.description /\ types Sample2.countries !! k = None.
Proof.
  apply (undeclared_column_raises Sample2.countries Sample.description Sample.monterrey
           [Sample.madrid]).
  - reflexivity.
  - apply Exists_cons_tl, Exists_cons_hd. split; [discriminate | vm_compute; reflexivity].
Defined.

Lemma parse_numeric_rejects_witness :
  @parse_property Sample2.builtins "inf" "float" Sample2.plain = Conv CNone.
Proof.
  apply (@parse_numeric_rejects Sample2.builtins "inf" "float" Sample2.plain).
  - apply (bool_decide_unpack _). vm_compute. reflexivity.
  - right. right. exists PrimFloat.infinity. split; reflexivity.
Defined.

Lemma parse_text_unchanged_witness :
  @parse_property Sample2.builtins "not an address" "ip" Sample2.plain
    = Conv (CStr "not an address").
Proof.
  apply (@parse_text_unchanged Sample2.builtins "not an address" "ip" Sample2.plain).
  apply (bool_decide_unpack _). vm_compute. reflexivity.
Defined.

Lemma parse_float_finite_witness :
  "float" = "float" /\
  @float_of_string Sample2.builtins "2" = Conv 2%float /\
  PrimFloat.is_finite 2%float = true.
Proof.
  apply (@parse_float_finite Sample2.builtins "2" "float" Sample2.plain 2%float).
  reflexivity.
Defined.

Lemma surplus_value_drops_line_witness :
  @line_action Sample2.builtins Sample2.cfg "idx" "doc" Sample2.plain "1;a;c" = None.
Proof.
  apply (@surplus_value_drops_line Sample2.builtins Sample2.cfg "idx" "doc" Sample2.plain
           "1;a;c" ["1"; "a"; "c"]).
  - reflexivity.
  - cbn. lia.
Defined.

Lemma uncaught_conversion_drops_line_witness :
  @line_action Sample2.builtins Sample2.cfg_long "idx" "doc" Sample2.plain "1;a" = None.
Proof.
  apply (@uncaught_conversion_drops_line Sample2.builtins Sample2.cfg_long "idx" "doc"
           Sample2.plain "1;a" ["1"; "a"] 0 "1" "n" "long").
  - reflexivity.
  - reflexivity.
  - reflexivity.
  - vm_compute. reflexivity.
  - vm_compute. reflexivity.
Defined.

Lemma skip_first_line_skips_all_witness :
  @input_generator Sample2.builtins Sample2.cfg "idx" "doc" Sample2.skipping
    (Some ["n;label"; "1;a"; "2;b"]) = [].
Proof.
  apply (@skip_first_line_skips_all Sample2.builtins Sample2.cfg "idx" "doc"
           Sample2.skipping (Some ["n;label"; "1;a"; "2;b"])).
  reflexivity.
Defined.

Lemma input_generator_app_witness :
  @input_generator Sample2.builtins Sample2.cfg "idx" "doc" Sample2.plain
    (Some (["1;a"; "1;a;c"] ++ ["2;b"])%list)
  = (@input_generator Sample2.builtins Sample2.cfg "idx" "doc" Sample2.plain
       (Some ["1;a"; "1;a;c"])
     ++ @input_generator Sample2.builtins Sample2.cfg "idx" "doc" Sample2.plain
          (Some ["2;b"]))%list /\
  length (@input_generator Sample2.builtins Sample2.cfg "idx" "doc" Sample2.plain
            (Some ["1;a"; "1;a;c"])) <= length ["1;a"; "1;a;c"].
Proof.
  apply (@input_generator_app Sample2.builtins Sample2.cfg "idx" "doc" Sample2.plain
           ["1;a"; "1;a;c"] ["2;b"]).
  reflexivity.
Defined.

Lemma yielded_actions_shape_witness :
  exists a,
    a ∈ @input_generator Sample2.builtins Sample2.cfg "idx" "doc" Sample2.hashed
          (Some ["1;a"; "2"]) /\
    _index a = "idx" /\ _type a = "doc" /\
    (is_Some (_id a) <-> md5_id Sample2.hashed = true) /\
    (forall k, is_Some (_source a !! k) -> k ∈ order_in_file Sample2.cfg) /\
    (md5_id Sample2.hashed = true ->
     forall field, field ∈ order_in_file Sample2.cfg -> field ∉ md5_exclude Sample2.hashed ->
                   is_Some (_source a !! field)).
Proof.
  pose (gen := @input_generator Sample2.builtins Sample2.cfg "idx" "doc" Sample2.hashed
                 (Some ["1;a"; "2"])).
  pose (a := match gen with
             | a :: _ => a
             | [] => {| _source := ∅; _index := EmptyString; _type := EmptyString;
                        _id := None |}
             end).
  assert (Hin : a ∈ gen).
  { assert (Hgen : gen = [a]) by (vm_compute; reflexivity). rewrite Hgen. left. }
  exists a. split; [exact Hin|].
  exact (@yielded_actions_shape Sample2.builtins Sample2.cfg "idx" "doc" Sample2.hashed
           (Some ["1;a"; "2"]) a Hin).
Defined.

Lemma translations_agree_witness :
  translate_cfg_property_2x "date" = translate_cfg_property_std "date" /\
  ("date" ∉ ["date"; "integer"; "long"; "float"; "geopoint"; "ip"] ->
   translate_cfg_property_std "date" = None).
Proof.
  apply (translations_agree "date"); discriminate.
Defined.

(** The first run on the sample: there is no database file, and the
    snapshot has the latitude [north]. *)
Lemma load_failure_propagates_witness :
  @_load_database Sample.runtime Sample3.first_run Sample.geoip false ["ip_to"]
    = (LoadRaised, [Remove; ReadCsv ZIP_GeoIPDB_names ZIP_GeoIPDB_types]).
Proof.
  apply (@load_failure_propagates Sample.runtime Sample3.first_run Sample.geoip false
           ["ip_to"]).
  - left. reflexivity.
  - vm_compute. reflexivity.
Defined.

(** The first run on the two rows that are well formed: the frame has
    the cells of the two rows, without the column [index] that the
    store adds. *)
Lemma load_writes_frame_as_read_witness :
  exists evs,
    snd (@_load_database Sample.runtime Sample3.clean_run Sample.geoip false ["ip_to"])
      = ([Remove; ReadCsv ZIP_GeoIPDB_names ZIP_GeoIPDB_types; Connect;
          ToSql "geoip"
            {| columns := ZIP_GeoIPDB_names;
               records := [tail Sample.monterrey; tail Sample.madrid] |};
          ConnExecute "SELECT name FROM sqlite_master WHERE type == 'index'"]
           ++ evs)%list /\
    Forall (fun ev => ev = Connect \/ exists stmt, ev = ConnExecute stmt) evs.
Proof.
  apply (@load_writes_frame_as_read Sample.runtime Sample3.clean_run Sample.geoip false
           ["ip_to"]
           {| columns := ZIP_GeoIPDB_names;
              records := [tail Sample.monterrey; tail Sample.madrid] |}).
  - left. reflexivity.
  - vm_compute. reflexivity.
  - reflexivity.
  - reflexivity.
Defined.

(** A later run on the sample: the database file is there. *)
Lemma existing_database_not_reread_witness :
  Forall (fun ev => ev = Connect \/ exists stmt, ev = ConnExecute stmt)
         (snd (@_load_database Sample.runtime Sample3.next_run Sample.geoip false
                 ["ip_to"])) /\
  exists evs,
    snd (@_load_database Sample.runtime Sample3.next_run Sample.geoip false ["ip_to"])
      = ([Connect;
          ConnExecute "pragma journal_mode=wal";
          ConnExecute "pragma cache_size = 500000";
          ConnExecute "pragma mmap_size = 500000000";
          ConnExecute "pragma synchronous = 0";
          ConnExecute "SELECT name FROM sqlite_master WHERE type == 'index'"]
           ++ evs)%list.
Proof.
  destruct (@existing_database_not_reread Sample.runtime Sample3.next_run Sample.geoip
              ["ip_to"] eq_refl) as [Hall H].
  split; [exact Hall|].
  apply H; [reflexivity|].
  repeat (constructor; [discriminate|]). constructor.
Defined.
